(** * Signal-scoring engine of [python_backend/analyze_pair.py]

    A shallow embedding of the trading-signal engine and of the properties
    its specification states about it.

    Modelling conventions.
    - A Python/numpy float is an exact rational ([Q]): no rounding and no
      overflow.  The three stages that set the stop-loss and the
      take-profit are modelled a second time with every operation rounded
      ([RoundedEngine]); what the risk-reward stage guarantees depends on
      the rounding and is stated there.  A float that may be NaN (an entry
      of an indicator series) is an [option Q] with [None] for NaN; every
      comparison with NaN is false, as in Python.  The one division of the engine that is not
      guarded against a zero divisor (the 20-period momentum) is modelled
      with numpy's result for it ([npfloat]: a finite value, inf, -inf, nan).
    - The [ta] indicator library is not part of the repository: the engine
      is parameterised by a record [ta_lib] of its series-valued functions.
    - A pandas Series is a list; [iloc[-k]] past the start of a series is
      given a default here (Python raises IndexError).  The engine indexes
      only series of at least [CANDLE_LIMIT] entries at [-1], [-2], [-20],
      and [ta] returns series aligned with its input, so the default is
      never read on the paths the theorems follow.
    - A Python dict is a [gmap string pyval]; [pyval] is the fragment of
      Python values the returned records are built from. *)

From Stdlib Require Import QArith Qabs Qround Qpower Lqa Lia ZArith Ascii.
From Stdlib Require Floats.PrimFloat Floats.SpecFloat Floats.FloatOps.
From stdpp Require Import gmap strings list fin_maps pretty.

Set Warnings "-register-all".

(** ** Python numbers *)

Module PyNum.
Local Open Scope Q_scope.

Definition Qltb (a b : Q) : bool := negb (Qle_bool b a).
Definition Qgtb (a b : Q) : bool := Qltb b a.
Definition Qleb (a b : Q) : bool := Qle_bool a b.
Definition Qgeb (a b : Q) : bool := Qle_bool b a.

(** Python's builtin [min(a, b)] and [max(a, b)]: the first argument is kept
    unless a later one is strictly smaller (greater). *)
Definition py_min (a b : Q) : Q := if Qltb b a then b else a.
Definition py_max (a b : Q) : Q := if Qgtb b a then b else a.
Definition py_min3 (a b c : Q) : Q := py_min (py_min a b) c.
Definition py_max3 (a b c : Q) : Q := py_max (py_max a b) c.

(** Comparisons of a float that may be NaN with a constant. *)
Definition nan_gt (x : option Q) (c : Q) : bool :=
  match x with Some v => Qgtb v c | None => false end.
Definition nan_lt (x : option Q) (c : Q) : bool :=
  match x with Some v => Qltb v c | None => false end.
Definition nan_ge (x : option Q) (c : Q) : bool :=
  match x with Some v => Qgeb v c | None => false end.
Definition nan_le (x : option Q) (c : Q) : bool :=
  match x with Some v => Qleb v c | None => false end.

(** A numpy float64 with its non-finite values. *)
Inductive npfloat : Type :=
  | Fin (q : Q)
  | PosInf
  | NegInf
  | NaN.

(** [a / b] on numpy floats: division by zero gives inf, -inf or nan. *)
Definition np_div (a b : Q) : npfloat :=
  if Qeq_bool b 0 then
    if Qgtb a 0 then PosInf else if Qltb a 0 then NegInf else NaN
  else Fin (a / b).

(** [x * c] for a positive constant [c]. *)
Definition np_scale (x : npfloat) (c : Q) : npfloat :=
  match x with Fin q => Fin (q * c) | other => other end.

Definition np_gt (x : npfloat) (c : Q) : bool :=
  match x with
  | Fin q => Qgtb q c
  | PosInf => true
  | NegInf | NaN => false
  end.
Definition np_lt (x : npfloat) (c : Q) : bool :=
  match x with
  | Fin q => Qltb q c
  | NegInf => true
  | PosInf | NaN => false
  end.

End PyNum.
Export PyNum.

(** ** Pandas series and frames *)

Module Pandas.
Local Open Scope Q_scope.

(** One OHLCV row of the candle frame. *)
Record candle : Type := Candle {
  Open : Q;
  High : Q;
  Low : Q;
  Close : Q;
  Volume : Q
}.

(** A candle DataFrame with the [name] attribute that [main] sets on it. *)
Record DataFrame : Type := {
  name : string;
  rows : list candle
}.

Definition col (f : candle -> Q) (df : DataFrame) : list Q := map f (rows df).

(** [s.iloc[-k]] for [k >= 1]; [d] where Python raises [IndexError]. *)
Definition iloc_neg {A} (s : list A) (k : nat) (d : A) : A :=
  if (k <=? length s)%nat then nth (length s - k) s d else d.

(** [s.tail(k)] and [s.iloc[-k:]]: the last [k] entries, all of them when
    the series is shorter. *)
Definition tail {A} (k : nat) (s : list A) : list A :=
  drop (length s - k) s.

Definition dropna (s : list (option Q)) : list Q := omap id s.

(** Reductions [.min()] and [.max()]; [d] stands for the NaN that pandas
    returns on an empty series. *)
Definition list_min (l : list Q) (d : Q) : Q :=
  match l with [] => d | x :: r => foldl py_min x r end.
Definition list_max (l : list Q) (d : Q) : Q :=
  match l with [] => d | x :: r => foldl py_max x r end.

(** [s.rolling(window=w).min()] and [.max()]: NaN until [w] entries are
    available, then the extremum of the last [w] entries. *)
Definition rolling (agg : list Q -> Q) (w : nat) (s : list Q)
  : list (option Q) :=
  map (fun i => if (S i <? w)%nat then None
                else Some (agg (take w (drop (S i - w) s))))
      (seq 0 (length s)).

Definition rolling_max (w : nat) (s : list Q) : list (option Q) :=
  rolling (fun l => list_max l 0) w s.
Definition rolling_min (w : nat) (s : list Q) : list (option Q) :=
  rolling (fun l => list_min l 0) w s.

(** Sorting, for quantiles. *)
Fixpoint insert_sorted (x : Q) (l : list Q) : list Q :=
  match l with
  | [] => [x]
  | y :: r => if Qleb x y then x :: l else y :: insert_sorted x r
  end.
Definition sort_values (l : list Q) : list Q := foldr insert_sorted [] l.

(** [s.quantile(p)] with pandas' default linear interpolation: position
    [p * (n - 1)] in the sorted values; [d] stands for NaN on an empty
    series. *)
Definition quantile (l : list Q) (p : Q) (d : Q) : Q :=
  let s := sort_values l in
  match s with
  | [] => d
  | _ =>
    let pos := p * inject_Z (Z.of_nat (length s - 1)) in
    let lo := Z.to_nat (Qfloor pos) in
    let frac := pos - inject_Z (Qfloor pos) in
    let vlo := nth lo s d in
    let vhi := nth (S lo) s vlo in
    vlo + (vhi - vlo) * frac
  end.

End Pandas.
Export Pandas.

(** ** Forecaster *)

Module Forecast.
Local Open Scope Q_scope.

Record forecast_row : Type := {
  yhat : Q;
  yhat_lower : Q;
  yhat_upper : Q
}.

(** [forecast_prices(df, periods)]; [None] is Python's [None]. *)
Definition forecast_prices (df : DataFrame) (periods : nat)
  : option (list forecast_row) :=
  if (length (rows df) <? 10)%nat then None
  else
    let recent_prices := tail 10 (col Close df) in
    let trend :=
      (iloc_neg recent_prices 1 0 - nth 0 recent_prices 0)
      / inject_Z (Z.of_nat (length recent_prices)) in
    let last_price := iloc_neg recent_prices 1 0 in
    Some (map (fun i : nat =>
                 let forecast_price :=
                   last_price + trend * inject_Z (Z.of_nat (i + 1)) in
                 {| yhat := forecast_price;
                    yhat_lower := forecast_price * 0.95;
                    yhat_upper := forecast_price * 1.05 |})
              (seq 0 periods)).

End Forecast.
Export Forecast.

(** ** Python values and text formatting *)

Module PyVal.
Local Open Scope Q_scope.

(** The values that occur in the dicts the engine and the wrapper return. *)
Inductive pyval : Type :=
  | PNone
  | PBool (b : bool)
  | PInt (z : Z)
  | PFloat (q : Q)
  | PStr (s : string)
  | PDict (d : gmap string pyval).

(** [d.get(key, default)]. *)
Definition dict_get (d : gmap string pyval) (key : string) (default : pyval)
  : pyval :=
  match d !! key with Some v => v | None => default end.

(** [d[key]]; [None] is [KeyError] (or [TypeError] when [d] is no dict). *)
Definition item (d : pyval) (key : string) : option pyval :=
  match d with
  | PDict m => m !! key
  | _ => None
  end.

(** Rounding to the nearest integer, ties to even, of a non-negative
    number: the rounding of Python's fixed-point formatting. *)
Definition round_half_even (x : Q) : Z :=
  let f := Qfloor x in
  let r := x - inject_Z f in
  if Qltb r 0.5 then f
  else if Qgtb r 0.5 then (f + 1)%Z
  else if Z.even f then f else (f + 1)%Z.

Definition pad_zeros (w : nat) (s : string) : string :=
  String.concat "" (replicate (w - String.length s) "0"%string) +:+ s.

(** [f"{q:.<d>f}"], and [f"{q:+.<d>f}"] when [plus] is set, for [d >= 1]. *)
Definition format_fixed (plus : bool) (d : nat) (q : Q) : string :=
  let scale := (10 ^ Z.of_nat d)%Z in
  let n := round_half_even (Qabs q * inject_Z scale) in
  let sign := if Qltb q 0 then "-" else if plus then "+" else "" in
  sign +:+ pretty (n / scale)%Z +:+ "." +:+ pad_zeros d (pretty (n mod scale)%Z).

(** [format_price(price, reference_price)].  The argument is a float, or the
    text ["N/A"] that the breakout stage passes for a level it did not
    compute: comparing a [str] with [100] raises, and the bare [except]
    returns ["N/A"]. *)
Definition format_price (price : pyval) : string :=
  match price with
  | PFloat p =>
    if Qeq_bool p 0 then "N/A"
    else if Qltb p 100 then "$" +:+ format_fixed false 4 p
    else "$" +:+ format_fixed false 2 p
  | PInt z =>
    if (z =? 0)%Z then "N/A"
    else if (z <? 100)%Z then "$" +:+ format_fixed false 4 (inject_Z z)
    else "$" +:+ format_fixed false 2 (inject_Z z)
  | _ => "N/A"
  end.

(** [format_strategy_number(value)]. *)
Definition format_strategy_number (value : option Q) : string :=
  match value with
  | None => "N/A"
  | Some v => format_fixed false 2 v
  end.

(** [f"{x:+.2f}"] on a numpy float. *)
Definition format_signed (x : npfloat) : string :=
  match x with
  | Fin q => format_fixed true 2 q
  | PosInf => "+inf"
  | NegInf => "-inf"
  | NaN => "+nan"
  end.

End PyVal.
Export PyVal.

(** ** The indicator library and its wrappers *)

Module Indicators.
Local Open Scope Q_scope.

(** The functions of [ta] that the engine calls.  Each returns a series
    aligned with its input, with NaN where the indicator is undefined.
    Arguments: the price columns, then the window lengths. *)
Record ta_lib : Type := {
  (** [RSIIndicator(close, window).rsi()] *)
  rsi_indicator : list Q -> nat -> list (option Q);
  (** [StochasticOscillator(high, low, close, window, smooth_window).stoch()] *)
  stoch : list Q -> list Q -> list Q -> nat -> nat -> list (option Q);
  (** [... .stoch_signal()] *)
  stoch_signal : list Q -> list Q -> list Q -> nat -> nat -> list (option Q);
  (** [EMAIndicator(close, window).ema_indicator()] *)
  ema_indicator : list Q -> nat -> list (option Q);
  (** [KeltnerChannel(high, low, close, window, window_atr)] and its bands *)
  keltner_channel_hband :
    list Q -> list Q -> list Q -> nat -> nat -> list (option Q);
  keltner_channel_mband :
    list Q -> list Q -> list Q -> nat -> nat -> list (option Q);
  keltner_channel_lband :
    list Q -> list Q -> list Q -> nat -> nat -> list (option Q)
}.

Record ema_values : Type := {
  ema100 : Q;
  ema200 : Q
}.

Section Wrappers.
Variable ta : ta_lib.

Definition calculate_rsi (df : DataFrame) (period : nat) : list (option Q) :=
  rsi_indicator ta (col Close df) period.

Definition calculate_stochastic (df : DataFrame) (k_period d_period : nat)
  : list (option Q) * list (option Q) :=
  (stoch ta (col High df) (col Low df) (col Close df) k_period d_period,
   stoch_signal ta (col High df) (col Low df) (col Close df) k_period d_period).

(** [float(s.iloc[-1]) if len(s) > 0 and pd.notna(s.iloc[-1]) else fallback] *)
Definition last_or (s : list (option Q)) (fallback : Q) : Q :=
  if (0 <? length s)%nat then
    match iloc_neg s 1 None with Some v => v | None => fallback end
  else fallback.

(** [calculate_ema]; the [except] branch guards the library calls only. *)
Definition calculate_ema (df : DataFrame) : ema_values :=
  let data_length := length (rows df) in
  let ema100_period := Nat.min 100 (Nat.max 10 (data_length / 3)) in
  let ema200_period := Nat.min 200 (Nat.max 20 (data_length / 2)) in
  let ema100 := ema_indicator ta (col Close df) ema100_period in
  let ema200 := ema_indicator ta (col Close df) ema200_period in
  let last_close := iloc_neg (col Close df) 1 0 in
  let ema100_val := last_or ema100 last_close in
  let ema200_val := last_or ema200 last_close in
  let ema100_val := if Qeq_bool ema100_val 0 then last_close else ema100_val in
  let ema200_val := if Qeq_bool ema200_val 0 then last_close else ema200_val in
  {| ema100 := ema100_val; ema200 := ema200_val |}.

(** [band.iloc[-1] if len(band) > 0 else 0] *)
Definition last_or_zero (s : list (option Q)) : option Q :=
  if (0 <? length s)%nat then iloc_neg s 1 None else Some 0.

(** [x], replaced by [fallback] when [x == 0 or pd.isna(x)]. *)
Definition valid_or (x : option Q) (fallback : Q) : Q :=
  match x with
  | Some v => if Qeq_bool v 0 then fallback else v
  | None => fallback
  end.

(** [calculate_keltner_channels(df, period, multiplier)]: upper, basis and
    lower band at the last candle ([multiplier] is not read by the source). *)
Definition calculate_keltner_channels (df : DataFrame) (period : nat)
  : Q * Q * Q :=
  let actual_period := Nat.min period (Nat.max 5 (length (rows df) / 3)) in
  let kc band :=
    band ta (col High df) (col Low df) (col Close df)
         actual_period actual_period in
  let upper := last_or_zero (kc keltner_channel_hband) in
  let basis := last_or_zero (kc keltner_channel_mband) in
  let lower := last_or_zero (kc keltner_channel_lband) in
  let current_price := iloc_neg (col Close df) 1 0 in
  (valid_or upper (current_price * 1.02),
   valid_or basis current_price,
   valid_or lower (current_price * 0.98)).

End Wrappers.

(** [detect_support_resistance_zones(df, lookback)]:
    [((support_low, support_high), (resistance_low, resistance_high))].
    The definition follows the source for a lookback of at least one candle
    on a frame with at least one row; the engine calls it with a lookback of
    20 on at least [CANDLE_LIMIT] rows.  Outside of that the source returns
    four NaN (lookback 0) or raises IndexError (no rows), and the zeros
    computed here stand for neither. *)
Definition detect_support_resistance_zones (df : DataFrame) (lookback : nat)
  : (Q * Q) * (Q * Q) :=
  if (length (rows df) <? lookback)%nat then
    let current_price := iloc_neg (col Close df) 1 0 in
    ((current_price * 0.95, current_price * 0.98),
     (current_price * 1.02, current_price * 1.05))
  else
    let highs := rolling_max lookback (col High df) in
    let lows := rolling_min lookback (col Low df) in
    let resistance_high := list_max (dropna (tail lookback highs)) 0 in
    let resistance_low := quantile (dropna (tail lookback highs)) 0.8 0 in
    let support_high := quantile (dropna (tail lookback lows)) 0.2 0 in
    let support_low := list_min (dropna (tail lookback lows)) 0 in
    ((support_low, support_high), (resistance_low, resistance_high)).

(** [fetch_current_price(symbol)]: the placeholder returns [None]. *)
Definition fetch_current_price (symbol : string) : option Q := None.

(** [a or b] on an optional float: [None] and [0.0] are falsy. *)
Definition py_or (a : option Q) (b : Q) : Q :=
  match a with
  | Some v => if Qeq_bool v 0 then b else v
  | None => b
  end.

End Indicators.
Export Indicators.

(** ** The signal engine: [run_strategy] *)

Module Engine.
Local Open Scope Q_scope.

Definition CANDLE_LIMIT : nat := 50.

(** The separator that the report strings of the source carry. *)
Definition arrow : string := " â†’ ".

(** *** Signal conditions (source lines 374-397) *)

Record conditions : Type := {
  rsi_crossover : bool;
  rsi_crossunder : bool;
  stoch_crossover : bool;
  stoch_crossunder : bool;
  bullish_rsi : bool;
  bearish_rsi : bool;
  bullish_stoch : bool;
  bearish_stoch : bool;
  bullish_price : bool;
  bearish_price : bool;
  bullish_ema : bool;
  bearish_ema : bool;
  price_momentum : npfloat;
  bullish_momentum : bool;
  bearish_momentum : bool;
  not_overbought : bool;
  not_oversold : bool
}.

(** [close_20] is [df['Close'].iloc[-20]]. *)
Definition signal_conditions (rsi stoch_k : list (option Q))
    (emas : ema_values) (basis_kc current_price close_20 : Q) : conditions :=
  let rsi_1 := iloc_neg rsi 1 None in
  let rsi_2 := iloc_neg rsi 2 None in
  let stoch_k_1 := iloc_neg stoch_k 1 None in
  let stoch_k_2 := iloc_neg stoch_k 2 None in
  let rsi_crossover := nan_gt rsi_1 50 && nan_le rsi_2 50 in
  let rsi_crossunder := nan_lt rsi_1 50 && nan_ge rsi_2 50 in
  let stoch_crossover := nan_gt stoch_k_1 20 && nan_le stoch_k_2 20 in
  let stoch_crossunder := nan_lt stoch_k_1 80 && nan_ge stoch_k_2 80 in
  let price_momentum :=
    np_scale (np_div (current_price - close_20) close_20) 100 in
  {| rsi_crossover := rsi_crossover;
     rsi_crossunder := rsi_crossunder;
     stoch_crossover := stoch_crossover;
     stoch_crossunder := stoch_crossunder;
     bullish_rsi := rsi_crossover || nan_gt rsi_1 52;
     bearish_rsi := rsi_crossunder || nan_lt rsi_1 48;
     bullish_stoch := nan_gt stoch_k_1 20 && (stoch_crossover || nan_gt stoch_k_1 45);
     bearish_stoch := nan_lt stoch_k_1 80 && (stoch_crossunder || nan_lt stoch_k_1 55);
     bullish_price := Qgtb current_price (basis_kc * 1.001);
     bearish_price := Qltb current_price (basis_kc * 0.999);
     bullish_ema := Qgtb (ema100 emas) (ema200 emas * 1.001);
     bearish_ema := Qltb (ema100 emas) (ema200 emas * 0.999);
     price_momentum := price_momentum;
     bullish_momentum := np_gt price_momentum 1.0;
     bearish_momentum := np_lt price_momentum (-1.0);
     not_overbought := nan_lt rsi_1 70 && nan_lt stoch_k_1 80;
     not_oversold := nan_gt rsi_1 30 && nan_gt stoch_k_1 20 |}.

(** *** Score calculation (source lines 399-402) *)

(** [sum([...])] of booleans. *)
Definition py_sum (flags : list bool) : nat :=
  foldr (fun b n => (Nat.b2n b + n)%nat) 0%nat flags.

Definition bullish_points (c : conditions) : nat :=
  py_sum [bullish_rsi c; bullish_stoch c; bullish_price c; bullish_ema c;
          bullish_momentum c].

Definition bearish_points (c : conditions) : nat :=
  py_sum [bearish_rsi c; bearish_stoch c; bearish_price c; bearish_ema c;
          bearish_momentum c].

Definition vote_confidence (c : conditions) : Q :=
  inject_Z (Z.of_nat (Nat.max (bullish_points c) (bearish_points c))) / 5 * 100.

(** *** Signal generation (source lines 404-427) *)

(** The locals [signal_type], [confidence], [sl], [tp]; [None] is Python's
    [None]. *)
Record decision : Type := {
  signal_type : string;
  confidence : Q;
  sl : option Q;
  tp : option Q
}.

Definition signal_generation (c : conditions)
    (support_zone resistance_zone : Q * Q) (current_price : Q) : decision :=
  let confidence := vote_confidence c in
  if bullish_price c && bullish_ema c && bullish_momentum c then
    {| signal_type := "BUY";
       confidence := py_max 70 confidence;
       sl := Some (py_min (fst support_zone) (current_price * 0.985));
       tp := Some (py_max (snd resistance_zone) (current_price * 1.015)) |}
  else if bearish_price c && bearish_ema c && bearish_momentum c then
    {| signal_type := "SELL";
       confidence := py_max 70 confidence;
       sl := Some (py_max (snd resistance_zone) (current_price * 1.015));
       tp := Some (py_min (fst support_zone) (current_price * 0.985)) |}
  else if (2 <=? bullish_points c)%nat && not_overbought c then
    {| signal_type := "BUY";
       confidence := confidence;
       sl := Some (py_min (fst support_zone) (current_price * 0.98));
       tp := Some (py_max (snd resistance_zone) (current_price * 1.02)) |}
  else if (2 <=? bearish_points c)%nat && not_oversold c then
    {| signal_type := "SELL";
       confidence := confidence;
       sl := Some (py_max (snd resistance_zone) (current_price * 1.02));
       tp := Some (py_min (fst support_zone) (current_price * 0.98)) |}
  else
    {| signal_type := "NO SIGNAL";
       confidence := confidence;
       sl := None;
       tp := None |}.

(** *** Forecast integration (source lines 429-441) *)

Definition forecast_integration (df : DataFrame) (d : decision)
    (support_zone resistance_zone : Q * Q) (current_price : Q) : decision :=
  if negb (String.eqb (signal_type d) "NO SIGNAL") then
    match forecast_prices df 30 with
    | Some forecast =>
      let is_buy := String.eqb (signal_type d) "BUY" in
      let forecast_tp :=
        if is_buy then quantile (map yhat forecast) 0.75 0
        else quantile (map yhat forecast) 0.25 0 in
      let forecast_sl :=
        if is_buy then list_min (map yhat_lower forecast) 0
        else list_max (map yhat_upper forecast) 0 in
      if is_buy then
        {| signal_type := signal_type d;
           confidence := confidence d;
           sl := Some (py_min3 forecast_sl (fst support_zone)
                               (current_price * 0.98));
           tp := Some (py_max3 forecast_tp (snd resistance_zone)
                               (current_price * 1.02)) |}
      else
        {| signal_type := signal_type d;
           confidence := confidence d;
           sl := Some (py_max3 forecast_sl (snd resistance_zone)
                               (current_price * 1.02));
           tp := Some (py_min3 forecast_tp (fst support_zone)
                               (current_price * 0.98)) |}
    | None => d
    end
  else d.

(** *** Risk-reward ratio adjustment (source lines 443-451) *)

(** [sl] and [tp] are set whenever the signal is directional; the last
    [match] branch is the [TypeError] of [current_price - None], which no
    decision built by [signal_generation] reaches.  The arithmetic is exact
    here; [rounded_risk_reward_adjustment] is the same stage with every
    operation rounded. *)
Definition risk_reward_adjustment (d : decision) (current_price : Q)
  : decision :=
  if negb (String.eqb (signal_type d) "NO SIGNAL") then
    match sl d, tp d with
    | Some sl_v, Some tp_v =>
      let risk := Qabs (current_price - sl_v) in
      let reward := Qabs (tp_v - current_price) in
      if Qgtb risk 0 && Qltb (reward / risk) 1.5 then
        {| signal_type := signal_type d;
           confidence := confidence d;
           sl := sl d;
           tp := if String.eqb (signal_type d) "BUY"
                 then Some (current_price + risk * 1.5)
                 else Some (current_price - risk * 1.5) |}
      else d
    | _, _ => d
    end
  else d.

(** *** Breakout scenario simulation (source lines 493-541) *)

Definition last_row (rs : list candle) : candle :=
  iloc_neg rs 1 (Candle 0 0 0 0 0).

(** [copy.iloc[-1, column] = v] *)
Definition set_last (f : candle -> candle) (rs : list candle) : list candle :=
  alter f (length rs - 1)%nat rs.

Definition set_close (v : Q) (c : candle) : candle :=
  Candle (Open c) (High c) (Low c) v (Volume c).
Definition set_high (v : Q) (c : candle) : candle :=
  Candle (Open c) v (Low c) (Close c) (Volume c).
Definition set_low (v : Q) (c : candle) : candle :=
  Candle (Open c) (High c) v (Close c) (Volume c).

(** A copy of the candles whose last close is [level], with the last high
    and low stretched to contain it. *)
Definition breakout_copy (rs : list candle) (level : Q) : list candle :=
  let rs := set_last (set_close level) rs in
  let rs := set_last (set_high (py_max (High (last_row rs)) level)) rs in
  set_last (set_low (py_min (Low (last_row rs)) level)) rs.

Record breakout : Type := {
  rsi_bull : option Q;
  stoch_bull : option Q;
  rsi_bear : option Q;
  stoch_bear : option Q;
  bullish_signal : string;
  bearish_signal : string;
  bull_tp : pyval;
  bull_sl : pyval;
  bear_tp : pyval;
  bear_sl : pyval
}.

Section Simulation.
Variable ta : ta_lib.

Definition breakout_simulation (df : DataFrame)
    (support_zone resistance_zone : Q * Q) (current_price : Q) : breakout :=
  let df_bullish := breakout_copy (rows df) (snd resistance_zone * 1.01) in
  let df_bearish := breakout_copy (rows df) (fst support_zone * 0.99) in
  let rsi_bull := iloc_neg (rsi_indicator ta (map Close df_bullish) 14) 1 None in
  let stoch_bull :=
    iloc_neg (stoch ta (map High df_bullish) (map Low df_bullish)
                    (map Close df_bullish) 14 3) 1 None in
  let rsi_bear := iloc_neg (rsi_indicator ta (map Close df_bearish) 14) 1 None in
  let stoch_bear :=
    iloc_neg (stoch ta (map High df_bearish) (map Low df_bearish)
                    (map Close df_bearish) 14 3) 1 None in
  let bullish_buy := nan_gt rsi_bull 52 && nan_gt stoch_bull 45 in
  let bearish_sell := nan_lt rsi_bear 48 && nan_lt stoch_bear 55 in
  let bull_tp := if bullish_buy then PFloat (snd resistance_zone * 1.03)
                 else PStr "N/A" in
  let bull_sl := if bullish_buy then PFloat (current_price * 0.98)
                 else PStr "N/A" in
  let bear_tp := if bearish_sell then PFloat (fst support_zone * 0.97)
                 else PStr "N/A" in
  let bear_sl := if bearish_sell then PFloat (current_price * 1.02)
                 else PStr "N/A" in
  let forecast :=
    if bullish_buy || bearish_sell then forecast_prices df 30 else None in
  let bull_tp :=
    match forecast with
    | Some fc =>
      if bullish_buy then
        PFloat (py_max (quantile (map yhat fc) 0.75 0)
                       (snd resistance_zone * 1.03))
      else bull_tp
    | None => bull_tp
    end in
  let bear_tp :=
    match forecast with
    | Some fc =>
      if bearish_sell then
        PFloat (py_min (quantile (map yhat fc) 0.25 0)
                       (fst support_zone * 0.97))
      else bear_tp
    | None => bear_tp
    end in
  {| rsi_bull := rsi_bull;
     stoch_bull := stoch_bull;
     rsi_bear := rsi_bear;
     stoch_bear := stoch_bear;
     bullish_signal := if bullish_buy then "BUY" else "NO SIGNAL";
     bearish_signal := if bearish_sell then "SELL" else "NO SIGNAL";
     bull_tp := bull_tp;
     bull_sl := bull_sl;
     bear_tp := bear_tp;
     bear_sl := bear_sl |}.

End Simulation.

(** *** The whole function (source lines 351-625) *)

Section Strategy.
Variable ta : ta_lib.
(** Whether [generate_chart_snapshot] could write its placeholder file. *)
Variable chart_written : bool.

(** The indicator values that the engine reads (source lines 357-370). *)
Record indicators : Type := {
  rsi : list (option Q);
  stoch_k : list (option Q);
  stoch_d : list (option Q);
  emas : ema_values;
  upper_kc : Q;
  basis_kc : Q;
  lower_kc : Q;
  support_zone : Q * Q;
  resistance_zone : Q * Q;
  current_price : Q
}.

Definition compute_indicators (df : DataFrame) : indicators :=
  let '(stoch_k, stoch_d) := calculate_stochastic ta df 14 3 in
  let '(upper_kc, basis_kc, lower_kc) := calculate_keltner_channels ta df 20 in
  let '(support_zone, resistance_zone) :=
    detect_support_resistance_zones df 20 in
  {| rsi := calculate_rsi ta df 14;
     stoch_k := stoch_k;
     stoch_d := stoch_d;
     emas := calculate_ema ta df;
     upper_kc := upper_kc;
     basis_kc := basis_kc;
     lower_kc := lower_kc;
     support_zone := support_zone;
     resistance_zone := resistance_zone;
     current_price :=
       py_or (fetch_current_price (name df)) (iloc_neg (col Close df) 1 0) |}.

Definition conditions_of (df : DataFrame) : conditions :=
  let ind := compute_indicators df in
  signal_conditions (rsi ind) (stoch_k ind) (emas ind) (basis_kc ind)
                    (current_price ind) (iloc_neg (col Close df) 20 0).

(** The decision after signal generation, after forecast integration, and
    after the risk-reward adjustment. *)
Definition derived_decision (df : DataFrame) : decision :=
  let ind := compute_indicators df in
  signal_generation (conditions_of df) (support_zone ind)
                    (resistance_zone ind) (current_price ind).

Definition refined_decision (df : DataFrame) : decision :=
  let ind := compute_indicators df in
  forecast_integration df (derived_decision df) (support_zone ind)
                       (resistance_zone ind) (current_price ind).

Definition final_decision (df : DataFrame) : decision :=
  risk_reward_adjustment (refined_decision df)
                         (current_price (compute_indicators df)).

(** The guards of source lines 362 and 366; [calculate_ema] never returns
    [None]. *)
Definition ema_invalid (ind : indicators) : bool :=
  Qeq_bool (ema100 (emas ind)) 0 || Qeq_bool (ema200 (emas ind)) 0.
Definition keltner_invalid (ind : indicators) : bool :=
  Qeq_bool (upper_kc ind) 0 || Qeq_bool (lower_kc ind) 0.

Definition failure (message : string) : gmap string pyval * bool :=
  (list_to_map
     [("signal", PStr "NO SIGNAL"); ("tp", PInt 0); ("sl", PInt 0);
      ("chart_base64", PStr ""); ("snapshot", PStr message)],
   false).

Definition chart_base64 : string :=
  if chart_written then "data:image/png;base64,Q2hhcnQgcGxhY2Vob2xkZXI="
  else "".

(** [float(x) if x is not None else 0] *)
Definition level_value (x : option Q) : pyval :=
  match x with Some v => PFloat v | None => PInt 0 end.

(** [text if signal_type == "NO SIGNAL" else None] *)
Definition when_no_signal (signal_type : string) (text : string) : pyval :=
  if String.eqb signal_type "NO SIGNAL" then PStr text else PNone.

Definition keltner_status (ind : indicators) : string :=
  (if Qgtb (current_price ind) (upper_kc ind) then "Above Upper"
   else if Qltb (current_price ind) (lower_kc ind) then "Below Lower"
   else "Within")
  +:+ " range: Upper " +:+ format_price (PFloat (upper_kc ind))
  +:+ ", Lower " +:+ format_price (PFloat (lower_kc ind)).

Definition momentum_status (c : conditions) : string :=
  "20-Period: " +:+ format_signed (price_momentum c) +:+ "% ("
  +:+ (if bullish_momentum c then "Bullish"
       else if bearish_momentum c then "Bearish" else "Neutral")
  +:+ ")".

Definition confidence_status (confidence : Q) : string :=
  format_fixed false 1 confidence +:+ "% ("
  +:+ (if Qgeb confidence 70 then "High"
       else if Qgeb confidence 50 then "Medium" else "Low")
  +:+ ")".

Definition zone_str (zone : Q * Q) : string :=
  format_price (PFloat (fst zone)) +:+ arrow +:+ format_price (PFloat (snd zone)).

(** The ["breakout"] entry of the snapshot (source lines 601-616).  The
    scenario values are read only when the signal is ["NO SIGNAL"], the one
    case in which the source has computed them. *)
Definition breakout_object (signal_type : string) (b : breakout)
  : gmap string pyval :=
  list_to_map
    [("bullish", PDict (list_to_map
        [("rsi", when_no_signal signal_type
                   (format_strategy_number (rsi_bull b)));
         ("stochastic", when_no_signal signal_type
                          (format_strategy_number (stoch_bull b)));
         ("signal", when_no_signal signal_type (bullish_signal b));
         ("tp", when_no_signal signal_type (format_price (bull_tp b)));
         ("sl", when_no_signal signal_type (format_price (bull_sl b)))]));
     ("bearish", PDict (list_to_map
        [("rsi", when_no_signal signal_type
                   (format_strategy_number (rsi_bear b)));
         ("stochastic", when_no_signal signal_type
                          (format_strategy_number (stoch_bear b)));
         ("signal", when_no_signal signal_type (bearish_signal b));
         ("tp", when_no_signal signal_type (format_price (bear_tp b)));
         ("sl", when_no_signal signal_type (format_price (bear_sl b)))]))].

Definition snapshot_object (df : DataFrame) : gmap string pyval :=
  let ind := compute_indicators df in
  let c := conditions_of df in
  let d := final_decision df in
  let rsi_trend :=
    if bullish_rsi c then "Bullish Trend" else "Bearish Trend" in
  let stoch_trend :=
    if bullish_stoch c then "Bullish Trend" else "Bearish Trend" in
  let ema_trend :=
    if bullish_ema c then "EMA100 Higher (Bullish)"
    else if bearish_ema c then "EMA200 Higher (Bearish)"
    else "EMAs Neutral" in
  let b := breakout_simulation ta df (support_zone ind) (resistance_zone ind)
                               (current_price ind) in
  list_to_map
    [("status", PStr (signal_type d));
     ("current_price", PFloat (current_price ind));
     ("tp", level_value (tp d));
     ("sl", level_value (sl d));
     ("indicators", PDict (list_to_map
        [("rsi", PStr (format_strategy_number (iloc_neg (rsi ind) 1 None)
                       +:+ arrow +:+ rsi_trend));
         ("stochastic",
          PStr ("%K " +:+ format_strategy_number (iloc_neg (stoch_k ind) 1 None)
                +:+ ", %D "
                +:+ format_strategy_number (iloc_neg (stoch_d ind) 1 None)
                +:+ arrow +:+ stoch_trend));
         ("ema", PStr ema_trend);
         ("keltner", PStr (keltner_status ind));
         ("momentum", PStr (momentum_status c));
         ("confidence", PStr (confidence_status (confidence d)))]));
     ("support_zone", PStr (zone_str (support_zone ind)));
     ("resistance_zone", PStr (zone_str (resistance_zone ind)));
     ("breakout", PDict (breakout_object (signal_type d) b))].

(** [run_strategy(df)]: the returned dict and the success flag.  The message
    text of source lines 453-576 is built and then dropped by the source; it
    is not part of the result. *)
Definition run_strategy (df : option DataFrame) : gmap string pyval * bool :=
  match df with
  | None => failure "Error: Failed to fetch candle data"
  | Some df =>
    if (length (rows df) <? CANDLE_LIMIT)%nat then
      failure "Error: Failed to fetch candle data"
    else
      let ind := compute_indicators df in
      if ema_invalid ind then failure "Error: Invalid EMA data"
      else if keltner_invalid ind then failure "Error: Invalid Keltner data"
      else
        let d := final_decision df in
        (list_to_map
           [("signal", PStr (signal_type d));
            ("tp", level_value (tp d));
            ("sl", level_value (sl d));
            ("chart_base64", PStr chart_base64);
            ("snapshot", PDict (snapshot_object df))],
         true)
  end.

End Strategy.

End Engine.
Export Engine.

(** ** The command-line wrapper: [main] *)

Module Cli.
Local Open Scope Q_scope.

(** *** Text helpers *)

Definition ascii_upper (c : ascii) : ascii :=
  let n := nat_of_ascii c in
  if (97 <=? n)%nat && (n <=? 122)%nat then ascii_of_nat (n - 32) else c.
Definition ascii_lower (c : ascii) : ascii :=
  let n := nat_of_ascii c in
  if (65 <=? n)%nat && (n <=? 90)%nat then ascii_of_nat (n + 32) else c.

Fixpoint string_map (f : ascii -> ascii) (s : string) : string :=
  match s with
  | EmptyString => EmptyString
  | String c r => String (f c) (string_map f r)
  end.

(** [s.upper()] and [s.lower()] on ASCII text. *)
Definition upper (s : string) : string := string_map ascii_upper s.
Definition lower (s : string) : string := string_map ascii_lower s.

(** [s.endswith(suffix)] *)
Definition endswith (s suffix : string) : bool :=
  (String.length suffix <=? String.length s)%nat
  && String.eqb (String.substring (String.length s - String.length suffix)
                           (String.length suffix) s) suffix.

(** [s.split(' ')] for a one-character separator. *)
Fixpoint split_on (sep : ascii) (s : string) : list string :=
  match s with
  | EmptyString => [EmptyString]
  | String c r =>
    if Ascii.eqb c sep then EmptyString :: split_on sep r
    else match split_on sep r with
         | [] => [String c EmptyString]
         | w :: ws => String c w :: ws
         end
  end.

(** [s.replace(c, '')] *)
Fixpoint remove_char (c : ascii) (s : string) : string :=
  match s with
  | EmptyString => EmptyString
  | String x r =>
    if Ascii.eqb x c then remove_char c r else String x (remove_char c r)
  end.

Definition digit_value (c : ascii) : option Z :=
  let n := nat_of_ascii c in
  if (48 <=? n)%nat && (n <=? 57)%nat then Some (Z.of_nat (n - 48)) else None.

(** The digits of [s] as a number, most significant first. *)
Fixpoint parse_digits (acc : Z) (s : string) : option Z :=
  match s with
  | EmptyString => Some acc
  | String c r =>
    match digit_value c with
    | Some v => parse_digits (acc * 10 + v)%Z r
    | None => None
    end
  end.

(** [float(text)] on the texts that the report holds: an optional sign,
    digits, a point, digits.  Anything else here is ["N/A"], on which
    [float] raises; [None] is that exception. *)
Definition parse_float (text : string) : option Q :=
  let '(negative, body) :=
    match text with
    | String "-"%char r => (true, r)
    | String "+"%char r => (false, r)
    | _ => (false, text)
    end in
  match split_on "."%char body with
  | [whole; frac] =>
    if (0 <? String.length whole)%nat && (0 <? String.length frac)%nat then
      match parse_digits 0 whole, parse_digits 0 frac with
      | Some w, Some f =>
        let magnitude :=
          inject_Z w
          + inject_Z f / inject_Z (10 ^ Z.of_nat (String.length frac)) in
        Some (if negative then - magnitude else magnitude)
      | _, _ => None
      end
    else None
  | _ => None
  end.

(** [round(x, ndigits)] and [int(x)] on a float. *)
Definition py_round (x : Q) (ndigits : nat) : Q :=
  let scale := inject_Z (10 ^ Z.of_nat ndigits) in
  let magnitude := inject_Z (round_half_even (Qabs x * scale)) / scale in
  if Qltb x 0 then - magnitude else magnitude.

Definition truncate (x : Q) : Z :=
  if Qltb x 0 then Qceiling x else Qfloor x.

(** [int(v)]; [None] is the exception raised on a value that is not a
    number. *)
Definition py_int (v : pyval) : option Z :=
  match v with
  | PInt z => Some z
  | PFloat q => Some (truncate q)
  | PBool b => Some (Z.b2z b)
  | _ => None
  end.

Definition as_text (v : pyval) : string :=
  match v with PStr s => s | _ => "" end.

(** *** Symbol resolution *)

Definition PAIR_TO_COINGECKO_ID : gmap string string :=
  list_to_map
    [("BTCUSDT", "bitcoin"); ("ETHUSDT", "ethereum"); ("ADAUSDT", "cardano");
     ("DOTUSDT", "polkadot"); ("LINKUSDT", "chainlink");
     ("BNBUSDT", "binancecoin"); ("SOLUSDT", "solana");
     ("MATICUSDT", "polygon"); ("AVAXUSDT", "avalanche-2");
     ("LTCUSDT", "litecoin"); ("XRPUSDT", "ripple"); ("ATOMUSDT", "cosmos");
     ("ALGOUSDT", "algorand"); ("VETUSDT", "vechain");
     ("FILUSDT", "filecoin"); ("PEPEUSDT", "pepe");
     ("SHIBUSDT", "shiba-inu"); ("DOGEUSDT", "dogecoin");
     ("FLOKIUSDT", "floki"); ("BONKUSDT", "bonk"); ("WIFUSDT", "dogwifcoin")]%string.

Definition special_mappings : gmap string string :=
  list_to_map
    [("pepe", "pepe"); ("shib", "shiba-inu"); ("doge", "dogecoin");
     ("floki", "floki"); ("bonk", "bonk"); ("wif", "dogwifcoin");
     ("btc", "bitcoin"); ("eth", "ethereum"); ("ada", "cardano");
     ("dot", "polkadot"); ("link", "chainlink"); ("bnb", "binancecoin");
     ("sol", "solana"); ("matic", "polygon"); ("avax", "avalanche-2");
     ("ltc", "litecoin"); ("xrp", "ripple"); ("atom", "cosmos");
     ("algo", "algorand"); ("vet", "vechain"); ("fil", "filecoin")]%string.

Definition get_coingecko_id (symbol : string) : string :=
  match PAIR_TO_COINGECKO_ID !! symbol with
  | Some id => id
  | None =>
    if endswith symbol "USDT" then
      let base_currency :=
        lower (String.substring 0 (String.length symbol - 4) symbol) in
      default base_currency (special_mappings !! base_currency)
    else lower symbol
  end.

(** *** The process *)

(** The dict returned by [get_current_price_data]. *)
Record price_info : Type := {
  info_current_price : Q;
  info_price_change_24h : Q
}.

(** What the wrapper reads from outside the process: the two CoinGecko
    requests (each returns [None] on any failure), the clock, and whether
    the chart file could be written. *)
Record world : Type := {
  get_coingecko_market_data : string -> nat -> option (list candle);
  get_current_price_data : string -> option price_info;
  now_isoformat : string;
  chart_file_written : bool
}.

(** How the process ends: the response printed with exit status 0, an error
    document printed with exit status 1, or an exception caught by the outer
    handler (error on stderr, exit status 1). *)
Inductive outcome : Type :=
  | Responded (response : gmap string pyval)
  | Rejected (error : gmap string pyval)
  | Crashed.

Definition safe_extract_rsi (rsi_str : string) : pyval :=
  match split_on " "%char rsi_str with
  | first :: _ =>
    match parse_float first with Some v => PFloat v | None => PNone end
  | [] => PNone
  end.

Definition safe_extract_stoch (stoch_str : string) : pyval * pyval :=
  let parts := split_on " "%char stoch_str in
  match parts !! 1%nat, parts !! 3%nat with
  | Some p1, Some p3 =>
    match parse_float (remove_char ","%char p1), parse_float (remove_char ","%char p3) with
    | Some k, Some d => (PFloat k, PFloat d)
    | _, _ => (PNone, PNone)
    end
  | _, _ => (PNone, PNone)
  end.

Section Main.
Variable ta : ta_lib.
Variable w : world.

(** The response document of source lines 691-723, or [None] when building
    it raises. *)
Definition build_response (pair timeframe coin_id : string)
    (crypto_data : DataFrame) (strategy_result : gmap string pyval)
  : option (gmap string pyval) :=
  let price_data := get_current_price_data w coin_id in
  let current_price :=
    match price_data with
    | Some p => info_current_price p
    | None => iloc_neg (col Close crypto_data) 1 0
    end in
  let price_change_24h :=
    match price_data with
    | Some p => Some (info_price_change_24h p)
    | None => None
    end in
  snapshot ← strategy_result !! "snapshot";
  indicators ← item snapshot "indicators";
  let rsi_val :=
    safe_extract_rsi (as_text (default (PStr "") (item indicators "rsi"))) in
  let '(stoch_k_val, stoch_d_val) :=
    safe_extract_stoch
      (as_text (default (PStr "") (item indicators "stochastic"))) in
  signal ← strategy_result !! "signal";
  confidence ← py_int (dict_get strategy_result "confidence" (PInt 50));
  snapshot_price ← item snapshot "current_price";
  tp ← strategy_result !! "tp";
  sl ← strategy_result !! "sl";
  support_zone ← item snapshot "support_zone";
  resistance_zone ← item snapshot "resistance_zone";
  ema_trend ← item indicators "ema";
  keltner_status ← item indicators "keltner";
  momentum ← item indicators "momentum";
  confidence_level ← item indicators "confidence";
  Some (list_to_map
    [("pair", PStr pair);
     ("timeframe", PStr timeframe);
     ("timestamp", PStr (now_isoformat w));
     ("signal", signal);
     ("confidence", PInt confidence);
     ("reason", PStr ("Advanced strategy analysis with "
                      +:+ pretty (length (rows crypto_data))
                      +:+ " data points"));
     ("indicators", PDict (list_to_map
        [("rsi", rsi_val);
         ("ema_short", PNone);
         ("ema_long", PNone);
         ("stoch_k", stoch_k_val);
         ("stoch_d", stoch_d_val);
         ("macd", PNone);
         ("macd_signal", PNone);
         ("current_price", snapshot_price)]));
     ("last_price", PFloat (py_round current_price 10));
     ("volume", PInt (truncate (iloc_neg (col Volume crypto_data) 1 0)));
     ("price_change_24h",
      match price_change_24h with
      | Some change =>
        if Qeq_bool change 0 then PNone else PFloat (py_round change 2)
      | None => PNone
      end);
     ("data_source", PStr "CoinGecko API + Advanced Strategy");
     ("coin_id", PStr coin_id);
     ("strategy_details", PDict (list_to_map
        [("tp", tp);
         ("sl", sl);
         ("support_zone", support_zone);
         ("resistance_zone", resistance_zone);
         ("ema_trend", ema_trend);
         ("keltner_status", keltner_status);
         ("momentum", momentum);
         ("confidence_level", confidence_level)]))]).

(** [main()] on [sys.argv]. *)
Definition main (argv : list string) : outcome :=
  match argv !! 1%nat with
  | None => Rejected (list_to_map [("error", PStr "Trading pair is required")])
  | Some arg =>
    let pair := upper arg in
    let timeframe := default "15m"%string (argv !! 2%nat) in
    let coin_id := get_coingecko_id pair in
    match get_coingecko_market_data w coin_id 7 with
    | Some (first_row :: more_rows) =>
      let crypto_data := {| name := pair; rows := first_row :: more_rows |} in
      let '(strategy_result, success) :=
        run_strategy ta (chart_file_written w) (Some crypto_data) in
      if negb success then
        Rejected (list_to_map
          [("error", PStr "Strategy analysis failed");
           ("pair", PStr pair);
           ("timeframe", PStr timeframe);
           ("message",
            dict_get strategy_result "snapshot" (PStr "Unknown error"))])
      else
        match build_response pair timeframe coin_id crypto_data
                             strategy_result with
        | Some response => Responded response
        | None => Crashed
        end
    | _ =>
      Rejected (list_to_map
        [("error", PStr ("Unable to fetch data for " +:+ pair));
         ("pair", PStr pair);
         ("timeframe", PStr timeframe);
         ("message",
          PStr ("Cryptocurrency not found. Tried ID: " +:+ coin_id
                +:+ ". Please check the symbol (e.g., PEPEUSDT, BTCUSDT, SHIBUSDT)"))])
    end
  end.

End Main.

End Cli.
Export Cli.

(** ** Vocabulary of the specification *)

Module Vocabulary.
Local Open Scope Q_scope.

(** The failure result of the guard stage: no signal, placeholder levels,
    an error text in place of the snapshot, and the failure flag. *)
Definition failure_result (res : gmap string pyval * bool) : Prop :=
  res.1 !! "signal" = Some (PStr "NO SIGNAL") /\
  res.1 !! "tp" = Some (PInt 0) /\
  res.1 !! "sl" = Some (PInt 0) /\
  res.1 !! "chart_base64" = Some (PStr "") /\
  (exists message, res.1 !! "snapshot" = Some (PStr message)) /\
  res.2 = false.

(** A candle series too short for the engine, or no series at all. *)
Definition too_short (df : option DataFrame) : Prop :=
  match df with
  | None => True
  | Some f => (length (rows f) < CANDLE_LIMIT)%nat
  end.

(** The two flags of a feature are never both set. *)
Definition exclusive (bullish bearish : bool) : Prop :=
  ~ (bullish = true /\ bearish = true).

Definition all_features_exclusive (c : conditions) : Prop :=
  exclusive (bullish_rsi c) (bearish_rsi c) /\
  exclusive (bullish_stoch c) (bearish_stoch c) /\
  exclusive (bullish_price c) (bearish_price c) /\
  exclusive (bullish_ema c) (bearish_ema c) /\
  exclusive (bullish_momentum c) (bearish_momentum c).

(** The number of set flags in a list. *)
Definition count_true (flags : list bool) : nat :=
  length (filter (fun b => b = true) flags).

(** The guards of the decision ladder, steps 4a to 4d. *)
Definition strong_bullish (c : conditions) : bool :=
  bullish_price c && bullish_ema c && bullish_momentum c.
Definition strong_bearish (c : conditions) : bool :=
  bearish_price c && bearish_ema c && bearish_momentum c.
Definition medium_bullish (c : conditions) (rsi_last stoch_k_last : option Q)
  : bool :=
  (2 <=? bullish_points c)%nat
  && (nan_lt rsi_last 70 && nan_lt stoch_k_last 80).
Definition medium_bearish (c : conditions) (rsi_last stoch_k_last : option Q)
  : bool :=
  (2 <=? bearish_points c)%nat
  && (nan_gt rsi_last 30 && nan_gt stoch_k_last 20).

(** [result['snapshot']['breakout'][side]], if every key on the way is
    there. *)
Definition scenario (result : gmap string pyval) (side : string)
  : option pyval :=
  snapshot ← result !! "snapshot";
  breakout ← item snapshot "breakout";
  item breakout side.

(** A scenario object whose five fields are all [None]. *)
Definition null_scenario : gmap string pyval :=
  list_to_map
    [("rsi", PNone); ("stochastic", PNone); ("signal", PNone);
     ("tp", PNone); ("sl", PNone)].

(** The reward-to-risk ratio of a pair of levels around a price. *)
Definition reward_risk (price take_profit stop_loss : Q) : Q :=
  Qabs (take_profit - price) / Qabs (stop_loss - price).

End Vocabulary.
Export Vocabulary.

(** ** Sample inputs *)

Module Samples.
Local Open Scope Q_scope.

(** An indicator library whose series are constant: RSI [r], stochastic
    [k] (both lines), EMA [fast] for windows under 20 and [slow] from 20 on,
    and a Keltner channel of 2% around [basis]. *)
Definition constant_ta (r k : option Q) (fast slow basis : Q) : ta_lib :=
  {| rsi_indicator := fun close _ => replicate (length close) r;
     stoch := fun _ _ close _ _ => replicate (length close) k;
     stoch_signal := fun _ _ close _ _ => replicate (length close) k;
     ema_indicator := fun close window =>
       replicate (length close)
                 (Some (if (window <? 20)%nat then fast else slow));
     keltner_channel_hband := fun _ _ close _ _ =>
       replicate (length close) (Some (basis * 1.02));
     keltner_channel_mband := fun _ _ close _ _ =>
       replicate (length close) (Some basis);
     keltner_channel_lband := fun _ _ close _ _ =>
       replicate (length close) (Some (basis * 0.98)) |}.

(** [n] candles whose four prices all equal [price]. *)
Definition flat_frame (price : Q) (n : nat) : DataFrame :=
  {| name := "BTCUSDT";
     rows := replicate n (Candle price price price price 1000000) |}.

(** [n] candles whose prices rise by [step] per candle from [start]. *)
Definition ramp_frame (start step : Q) (n : nat) : DataFrame :=
  {| name := "BTCUSDT";
     rows := map (fun i : nat =>
                    let p := start + step * inject_Z (Z.of_nat i) in
                    Candle p p p p 1000000)
                 (seq 0 n) |}.

(** A quiet market: every feature but the stochastic is neutral. *)
Definition quiet_ta : ta_lib := constant_ta (Some 50) (Some 50) 100 100 100.
Definition quiet_frame : DataFrame := flat_frame 100 50.

(** A dead market: every EMA reading and every close is zero. *)
Definition zero_ta : ta_lib := constant_ta (Some 50) (Some 50) 0 0 0.
Definition zero_frame : DataFrame := flat_frame 0 50.

(** A market with three bullish features and flat momentum. *)
Definition medium_buy_ta : ta_lib :=
  constant_ta (Some 60) (Some 50) 101 100 99.

(** The mirror image: three bearish features and flat momentum. *)
Definition medium_sell_ta : ta_lib :=
  constant_ta (Some 40) (Some 50) 99 100 101.

(** A rising market: price, EMA and momentum are all bullish. *)
Definition rising_ta : ta_lib :=
  constant_ta (Some 60) (Some 60) 145 140 140.
Definition rising_frame : DataFrame := ramp_frame 100 1 50.

(** A falling market, the mirror image. *)
Definition falling_ta : ta_lib :=
  constant_ta (Some 40) (Some 40) 100 105 105.
Definition falling_frame : DataFrame := ramp_frame 149 (-1) 50.

(** The outside of a wrapper run that serves [frame] for every coin. *)
Definition offline_world (frame : DataFrame) : world :=
  {| get_coingecko_market_data := fun _ _ => Some (rows frame);
     get_current_price_data := fun _ => None;
     now_isoformat := "2024-01-01T00:00:00";
     chart_file_written := true |}.

End Samples.
Export Samples.
(** ** Message escaping: [escape_markdown] *)

Module Markdown.

(** [s.replace(old, new)] for a one-character [old]. *)
Fixpoint replace_char (old : ascii) (new : string) (s : string) : string :=
  match s with
  | EmptyString => EmptyString
  | String c r =>
    if Ascii.eqb c old then new +:+ replace_char old new r
    else String c (replace_char old new r)
  end.

(** [escape_markdown(text)]: three replacements in a row. *)
Definition escape_markdown (text : string) : string :=
  replace_char "`" "\`" (replace_char "_" "\_" (replace_char "*" "\*" text)).

(** The characters that [escape_markdown] escapes. *)
Definition markdown_special (c : ascii) : bool :=
  Ascii.eqb c "*" || Ascii.eqb c "_" || Ascii.eqb c "`".

(** One pass that puts a backslash in front of each special character. *)
Fixpoint escape_pass (s : string) : string :=
  match s with
  | EmptyString => EmptyString
  | String c r =>
    if markdown_special c then String "\" (String c (escape_pass r))
    else String c (escape_pass r)
  end.

(** Removal of the backslash in front of each special character. *)
Fixpoint unescape_markdown (s : string) : string :=
  match s with
  | EmptyString => EmptyString
  | String a rest =>
    match rest with
    | String c r =>
      if Ascii.eqb a "\" && markdown_special c
      then String c (unescape_markdown r)
      else String a (unescape_markdown rest)
    | EmptyString => s
    end
  end.

(** Every special character of [s] stands directly behind a backslash;
    [escaped] tells whether the previous character was that backslash. *)
Fixpoint specials_escaped (escaped : bool) (s : string) : bool :=
  match s with
  | EmptyString => true
  | String c r =>
    if markdown_special c then escaped && specials_escaped false r
    else specials_escaped (Ascii.eqb c "\") r
  end.

(** The number of special characters of [s]. *)
Fixpoint count_special (s : string) : nat :=
  match s with
  | EmptyString => 0
  | String c r => (Nat.b2n (markdown_special c) + count_special r)%nat
  end.

End Markdown.
Export Markdown.

(** ** The market-data provider: OHLC candles from a price series *)

Module Provider.
Local Open Scope Q_scope.

(** One loop iteration of source lines 286-311: the candle for price [i],
    appended to the rows built so far.  A price row is
    [(timestamp, price)]; a built row is [(timestamp, candle)]. *)
Definition ohlc_append (prices : list (Z * Q)) (df_list : list (Z * candle))
    (i : nat) : list (Z * candle) :=
  let '(timestamp, price) := nth i prices (0%Z, 0) in
  let row :=
    if (i =? 0)%nat then Candle price price price price 1000000
    else
      let open_price :=
        match last df_list with
        | Some previous => Close (snd previous)
        | None => snd (nth (i - 1) prices (0%Z, 0))
        end in
      let close_price := price in
      let price_change := Qabs (close_price - open_price) in
      let volatility_factor := price_change * 0.1 in
      Candle open_price
             (py_max open_price close_price + volatility_factor)
             (py_min open_price close_price - volatility_factor)
             close_price 1000000 in
  df_list ++ [(timestamp, row)].

(** [get_coingecko_market_data] after the request: [data_prices] is
    [data.get('prices')] of the JSON answer ([None] when the key is
    missing).  A failed request returns [None] before this point. *)
Definition market_data_of_prices (data_prices : option (list (Z * Q)))
  : option (list (Z * candle)) :=
  match data_prices with
  | None => None
  | Some [] => None
  | Some prices =>
    if (length prices <? 50)%nat then None
    else Some (foldl (ohlc_append prices) [] (seq 0 (length prices)))
  end.

(** The candle that the loop builds for price [i]: the first one is flat,
    a later one opens at the previous price. *)
Definition ohlc_row (prices : list (Z * Q)) (i : nat) : Z * candle :=
  let '(timestamp, price) := nth i prices (0%Z, 0) in
  if (i =? 0)%nat then (timestamp, Candle price price price price 1000000)
  else
    let open_price := snd (nth (i - 1) prices (0%Z, 0)) in
    let volatility_factor := Qabs (price - open_price) * 0.1 in
    (timestamp,
     Candle open_price
            (py_max open_price price + volatility_factor)
            (py_min open_price price - volatility_factor)
            price 1000000).


End Provider.
Export Provider.

(** ** Vocabulary for texts *)

Module TextVocabulary.

Definition is_digit (c : ascii) : bool :=
  let n := nat_of_ascii c in (48 <=? n)%nat && (n <=? 57)%nat.

(** Every character of [s] satisfies [P]. *)
Fixpoint string_forall (P : ascii -> bool) (s : string) : bool :=
  match s with
  | EmptyString => true
  | String c r => P c && string_forall P r
  end.

(** A character of a number text: a digit, a point or a sign. *)
Definition number_char (c : ascii) : bool :=
  is_digit c || Ascii.eqb c "." || Ascii.eqb c "-" || Ascii.eqb c "+".

End TextVocabulary.
Export TextVocabulary.

(** ** Vocabulary for the indicator library and more sample inputs *)

Module LibraryVocabulary.

(** Every series of the library is as long as the price columns it is
    computed from, as the series of [ta] are: then no [iloc] of the engine
    is out of range. *)
Definition aligned (ta : ta_lib) : Prop :=
  (forall close window, length (rsi_indicator ta close window) = length close) /\
  (forall high low close k d, length (stoch ta high low close k d) = length close) /\
  (forall high low close k d,
     length (stoch_signal ta high low close k d) = length close) /\
  (forall close window, length (ema_indicator ta close window) = length close) /\
  (forall high low close n m,
     length (keltner_channel_hband ta high low close n m) = length close) /\
  (forall high low close n m,
     length (keltner_channel_mband ta high low close n m) = length close) /\
  (forall high low close n m,
     length (keltner_channel_lband ta high low close n m) = length close).

(** The outside of a wrapper run whose price request answers with [price]
    and [change]. *)
Definition online_world (frame : DataFrame) (price change : Q) : world :=
  {| get_coingecko_market_data := fun _ _ => Some (rows frame);
     get_current_price_data := fun _ =>
       Some {| info_current_price := price; info_price_change_24h := change |};
     now_isoformat := "2024-01-01T00:00:00";
     chart_file_written := true |}.

(** Sixty hourly prices rising from 100, and the outside of a wrapper run
    whose candles the provider builds from them. *)
Definition sample_prices : list (Z * Q) :=
  map (fun i : nat => ((3600000 * Z.of_nat i)%Z, (100 + inject_Z (Z.of_nat i))%Q))
      (seq 0 60).

Definition provider_world (prices : list (Z * Q)) : world :=
  {| get_coingecko_market_data := fun _ _ =>
       map snd <$> market_data_of_prices (Some prices);
     get_current_price_data := fun _ => None;
     now_isoformat := "2024-01-01T00:00:00";
     chart_file_written := true |}.

End LibraryVocabulary.
Export LibraryVocabulary.

(** ** The development variant: [generate_signal] of analyze_pair_dev.py *)

Module Dev.
Local Open Scope Q_scope.

(** The dict of series that [calculate_indicators] returns. *)
Record indicator_series : Type := {
  rsi_series : list (option Q);
  ema_short_series : list (option Q);
  ema_long_series : list (option Q);
  stoch_k_series : list (option Q);
  stoch_d_series : list (option Q);
  macd_series : list (option Q);
  macd_signal_series : list (option Q);
  bb_upper_series : list (option Q);
  bb_middle_series : list (option Q);
  bb_lower_series : list (option Q)
}.

(** The latest values with their fallbacks (source lines 128-141):
    [s.iloc[-1] if not s.empty and pd.notna(s.iloc[-1]) else fallback]. *)
Record latest_values : Type := {
  latest_rsi : Q;
  ema_short_val : Q;
  ema_long_val : Q;
  latest_stoch_k : Q;
  latest_stoch_d : Q;
  latest_macd : Q;
  latest_macd_signal : Q;
  latest_price : Q;
  latest_bb_upper : Q;
  latest_bb_lower : Q
}.

Definition latest_of (data : DataFrame) (indicators : indicator_series)
  : latest_values :=
  let current_price := iloc_neg (col Close data) 1 0 in
  {| latest_rsi := last_or (rsi_series indicators) 50;
     ema_short_val := last_or (ema_short_series indicators) 0;
     ema_long_val := last_or (ema_long_series indicators) 0;
     latest_stoch_k := last_or (stoch_k_series indicators) 50;
     latest_stoch_d := last_or (stoch_d_series indicators) 50;
     latest_macd := last_or (macd_series indicators) 0;
     latest_macd_signal := last_or (macd_signal_series indicators) 0;
     latest_price := current_price;
     latest_bb_upper :=
       last_or (bb_upper_series indicators) (current_price * 1.02);
     latest_bb_lower :=
       last_or (bb_lower_series indicators) (current_price * 0.98) |}.

(** The three counters of the scoring system. *)
Record tally : Type := {
  buy_signals : Q;
  sell_signals : Q;
  total_signals : Q
}.

Definition vote (buy sell weight : Q) (t : tally) : tally :=
  {| buy_signals := buy_signals t + buy;
     sell_signals := sell_signals t + sell;
     total_signals := total_signals t + weight |}.

(** Source lines 148-157. *)
Definition rsi_analysis (v : latest_values) (t : tally) : tally :=
  if Qltb (latest_rsi v) 30 then vote 3 0 3 t
  else if Qgtb (latest_rsi v) 70 then vote 0 3 3 t
  else if Qltb (latest_rsi v) 50 then vote 1 0 3 t
  else if Qgtb (latest_rsi v) 50 then vote 0 1 3 t
  else vote 0 0 3 t.

(** Source lines 159-164. *)
Definition ema_crossover (v : latest_values) (t : tally) : tally :=
  if Qgtb (ema_short_val v - ema_long_val v) 0 then vote 2.5 0 2.5 t
  else vote 0 2.5 2.5 t.

(** Source lines 166-175. *)
Definition stochastic_analysis (v : latest_values) (t : tally) : tally :=
  if Qltb (latest_stoch_k v) 20 && Qltb (latest_stoch_d v) 20 then
    vote 2 0 2 t
  else if Qgtb (latest_stoch_k v) 80 && Qgtb (latest_stoch_d v) 80 then
    vote 0 2 2 t
  else if Qgtb (latest_stoch_k v) (latest_stoch_d v) then vote 1 0 2 t
  else vote 0 1 2 t.

(** Source lines 177-182. *)
Definition macd_analysis (v : latest_values) (t : tally) : tally :=
  if Qgtb (latest_macd v) (latest_macd_signal v) then vote 1.5 0 1.5 t
  else vote 0 1.5 1.5 t.

(** Source lines 184-189. *)
Definition bollinger_analysis (v : latest_values) (t : tally) : tally :=
  if Qltb (latest_price v) (latest_bb_lower v) then vote 1 0 1 t
  else if Qgtb (latest_price v) (latest_bb_upper v) then vote 0 1 1 t
  else vote 0 0 1 t.

Definition score (v : latest_values) : tally :=
  bollinger_analysis v
    (macd_analysis v
       (stochastic_analysis v
          (ema_crossover v
             (rsi_analysis v
                {| buy_signals := 0; sell_signals := 0;
                   total_signals := 0 |})))).

Definition buy_confidence (t : tally) : Q :=
  buy_signals t / total_signals t * 100.
Definition sell_confidence (t : tally) : Q :=
  sell_signals t / total_signals t * 100.

(** [round(float(x), n) if pd.notna(x) and x != 0 else None] *)
Definition rounded_unless_zero (x : Q) (ndigits : nat) : pyval :=
  if Qeq_bool x 0 then PNone else PFloat (py_round x ndigits).

(** The document for too few candles (source lines 110-124). *)
Definition insufficient_data (data : DataFrame) : gmap string pyval :=
  list_to_map
    [("signal", PStr "HOLD");
     ("confidence", PInt 50);
     ("reason", PStr "Insufficient data for analysis");
     ("indicators", PDict (list_to_map
        [("rsi", PNone); ("ema_short", PNone); ("ema_long", PNone);
         ("stoch_k", PNone); ("stoch_d", PNone); ("macd", PNone);
         ("macd_signal", PNone);
         ("current_price", PFloat (iloc_neg (col Close data) 1 0))]))].

(** The document of source lines 208-222. *)
Definition signal_document (signal : string) (confidence : Z)
    (reason : string) (v : latest_values) : gmap string pyval :=
  list_to_map
    [("signal", PStr signal);
     ("confidence", PInt confidence);
     ("reason", PStr reason);
     ("indicators", PDict (list_to_map
        [("rsi", PFloat (py_round (latest_rsi v) 2));
         ("ema_short", rounded_unless_zero (ema_short_val v) 6);
         ("ema_long", rounded_unless_zero (ema_long_val v) 6);
         ("stoch_k", PFloat (py_round (latest_stoch_k v) 2));
         ("stoch_d", PFloat (py_round (latest_stoch_d v) 2));
         ("macd", PFloat (py_round (latest_macd v) 6));
         ("macd_signal", PFloat (py_round (latest_macd_signal v) 6));
         ("current_price", PFloat (py_round (latest_price v) 2))]))].

(** [generate_signal(data, indicators)]; [None] is the [IndexError] that
    [data['Close'].iloc[-1]] raises on a frame without rows.  On a dict
    that holds the ten series nothing inside the [try] raises, so the
    [except] branch is not modelled. *)
Definition generate_signal (data : DataFrame) (indicators : indicator_series)
  : option (gmap string pyval) :=
  if (length (rows data) <? 50)%nat then
    match rows data with
    | [] => None
    | _ => Some (insufficient_data data)
    end
  else
    let v := latest_of data indicators in
    let t := score v in
    if Qgtb (buy_confidence t) 60 then
      Some (signal_document "BUY" (truncate (buy_confidence t))
              ("Strong bullish indicators: RSI="
               +:+ format_fixed false 1 (latest_rsi v)
               +:+ ", EMA trend positive") v)
    else if Qgtb (sell_confidence t) 60 then
      Some (signal_document "SELL" (truncate (sell_confidence t))
              ("Strong bearish indicators: RSI="
               +:+ format_fixed false 1 (latest_rsi v)
               +:+ ", EMA trend negative") v)
    else
      Some (signal_document "HOLD"
              (truncate (py_max (buy_confidence t) (sell_confidence t)))
              "Mixed signals, market consolidation" v).

(** Ten series of [n] entries, each entry the same value. *)
Definition constant_series (n : nat) (rsi stoch macd : option Q)
  : indicator_series :=
  {| rsi_series := replicate n rsi;
     ema_short_series := replicate n (Some 101);
     ema_long_series := replicate n (Some 100);
     stoch_k_series := replicate n stoch;
     stoch_d_series := replicate n stoch;
     macd_series := replicate n macd;
     macd_signal_series := replicate n (Some 0);
     bb_upper_series := replicate n (Some 200);
     bb_middle_series := replicate n (Some 100);
     bb_lower_series := replicate n (Some 50) |}.

End Dev.
Export Dev.

(** ** Binary64 arithmetic *)

(** Python floats are binary64 numbers: every arithmetic operation returns
    the exact result rounded to the nearest number with a 53-bit
    significand, ties to even.  [round53] is that rounding on the
    rationals, with an unbounded exponent: it is the rounding of binary64
    wherever the result neither overflows nor is subnormal. *)
Module Rounding.
Local Open Scope Q_scope.

(** The exponent [e] with [2^e <= |x| < 2^(e+1)], for [x] not zero. *)
Definition binade (x : Q) : Z :=
  let k := (Z.log2 (Z.abs (Qnum x)) - Z.log2 (Zpos (Qden x)))%Z in
  if Qleb (2 ^ k) (Qabs x) then k else (k - 1)%Z.

Definition round53 (x : Q) : Q :=
  if Qeq_bool x 0 then 0
  else
    let ulp := 2 ^ (binade x - 52) in
    let significand := inject_Z (round_half_even (Qabs x / ulp)) in
    (if Qltb x 0 then - significand else significand) * ulp.

(** Half the distance between 1 and the next binary64 number. *)
Definition unit_roundoff : Q := 1 / inject_Z (2 ^ 53).

(** The standard model of floating-point arithmetic: a rounding whose
    relative error is at most the unit roundoff. *)
Definition rounds_to_nearest (fl : Q -> Q) : Prop :=
  forall x, Qabs (fl x - x) <= unit_roundoff * Qabs x.

(** The rational value of a finite binary64 number ([None] for an infinity
    or a NaN). *)
Definition binary64_value (f : PrimFloat.float) : option Q :=
  match FloatOps.Prim2SF f with
  | SpecFloat.S754_zero _ => Some 0
  | SpecFloat.S754_finite negative m e =>
    let magnitude := inject_Z (Zpos m) * 2 ^ e in
    Some (if negative then - magnitude else magnitude)
  | _ => None
  end.

End Rounding.
Export Rounding.

(** ** Signal generation to risk-reward adjustment in rounded arithmetic *)

(** Source lines 404-451 once more, with every arithmetic operation rounded
    by [fl] and every decimal literal that is no binary64 number read as
    its rounding.  Comparisons, [min], [max] and [abs] are exact on floats;
    1.5, 70, 5 and 100 are binary64 numbers.  The two numbers that lines
    433-434 take from the forecast frame are an argument: [forecast] is
    [Some (forecast_tp, forecast_sl)], or [None] when there is no
    forecast. *)
Module RoundedEngine.
Local Open Scope Q_scope.

Section Rounded.
Variable fl : Q -> Q.

Definition rounded_vote_confidence (c : conditions) : Q :=
  fl (fl (inject_Z (Z.of_nat (Nat.max (bullish_points c) (bearish_points c)))
          / 5) * 100).

(** Source lines 404-427. *)
Definition rounded_signal_generation (c : conditions)
    (support_zone resistance_zone : Q * Q) (current_price : Q) : decision :=
  let confidence := rounded_vote_confidence c in
  if bullish_price c && bullish_ema c && bullish_momentum c then
    {| signal_type := "BUY";
       confidence := py_max 70 confidence;
       sl := Some (py_min (fst support_zone) (fl (current_price * fl 0.985)));
       tp := Some (py_max (snd resistance_zone)
                          (fl (current_price * fl 1.015))) |}
  else if bearish_price c && bearish_ema c && bearish_momentum c then
    {| signal_type := "SELL";
       confidence := py_max 70 confidence;
       sl := Some (py_max (snd resistance_zone)
                          (fl (current_price * fl 1.015)));
       tp := Some (py_min (fst support_zone) (fl (current_price * fl 0.985))) |}
  else if (2 <=? bullish_points c)%nat && not_overbought c then
    {| signal_type := "BUY";
       confidence := confidence;
       sl := Some (py_min (fst support_zone) (fl (current_price * fl 0.98)));
       tp := Some (py_max (snd resistance_zone)
                          (fl (current_price * fl 1.02))) |}
  else if (2 <=? bearish_points c)%nat && not_oversold c then
    {| signal_type := "SELL";
       confidence := confidence;
       sl := Some (py_max (snd resistance_zone)
                          (fl (current_price * fl 1.02)));
       tp := Some (py_min (fst support_zone) (fl (current_price * fl 0.98))) |}
  else
    {| signal_type := "NO SIGNAL";
       confidence := confidence;
       sl := None;
       tp := None |}.

(** Source lines 429-441. *)
Definition rounded_forecast_integration (forecast : option (Q * Q))
    (d : decision) (support_zone resistance_zone : Q * Q) (current_price : Q)
  : decision :=
  if negb (String.eqb (signal_type d) "NO SIGNAL") then
    match forecast with
    | Some (forecast_tp, forecast_sl) =>
      if String.eqb (signal_type d) "BUY" then
        {| signal_type := signal_type d;
           confidence := confidence d;
           sl := Some (py_min3 forecast_sl (fst support_zone)
                               (fl (current_price * fl 0.98)));
           tp := Some (py_max3 forecast_tp (snd resistance_zone)
                               (fl (current_price * fl 1.02))) |}
      else
        {| signal_type := signal_type d;
           confidence := confidence d;
           sl := Some (py_max3 forecast_sl (snd resistance_zone)
                               (fl (current_price * fl 1.02)));
           tp := Some (py_min3 forecast_tp (fst support_zone)
                               (fl (current_price * fl 0.98))) |}
    | None => d
    end
  else d.

(** [risk] and [reward] of source lines 445-446. *)
Definition rounded_risk (current_price stop_loss : Q) : Q :=
  Qabs (fl (current_price - stop_loss)).
Definition rounded_reward (current_price take_profit : Q) : Q :=
  Qabs (fl (take_profit - current_price)).

(** Source lines 443-451. *)
Definition rounded_risk_reward_adjustment (d : decision) (current_price : Q)
  : decision :=
  if negb (String.eqb (signal_type d) "NO SIGNAL") then
    match sl d, tp d with
    | Some sl_v, Some tp_v =>
      let risk := rounded_risk current_price sl_v in
      let reward := rounded_reward current_price tp_v in
      if Qgtb risk 0 && Qltb (fl (reward / risk)) 1.5 then
        {| signal_type := signal_type d;
           confidence := confidence d;
           sl := sl d;
           tp := if String.eqb (signal_type d) "BUY"
                 then Some (fl (current_price + fl (risk * 1.5)))
                 else Some (fl (current_price - fl (risk * 1.5))) |}
      else d
    | _, _ => d
    end
  else d.

(** The three stages in the order of the source. *)
Definition rounded_derived (c : conditions)
    (support_zone resistance_zone : Q * Q) (current_price : Q) : decision :=
  rounded_signal_generation c support_zone resistance_zone current_price.

Definition rounded_refined (c : conditions) (forecast : option (Q * Q))
    (support_zone resistance_zone : Q * Q) (current_price : Q) : decision :=
  rounded_forecast_integration forecast
    (rounded_derived c support_zone resistance_zone current_price)
    support_zone resistance_zone current_price.

Definition rounded_final (c : conditions) (forecast : option (Q * Q))
    (support_zone resistance_zone : Q * Q) (current_price : Q) : decision :=
  rounded_risk_reward_adjustment
    (rounded_refined c forecast support_zone resistance_zone current_price)
    current_price.

End Rounded.

(** The two numbers that source lines 433-434 take from the forecast frame
    for a signal of type [signal]. *)
Definition forecast_levels (df : DataFrame) (signal : string)
  : option (Q * Q) :=
  match forecast_prices df 30 with
  | Some forecast =>
    if String.eqb signal "BUY" then
      Some (quantile (map yhat forecast) 0.75 0,
            list_min (map yhat_lower forecast) 0)
    else
      Some (quantile (map yhat forecast) 0.25 0,
            list_max (map yhat_upper forecast) 0)
  | None => None
  end.

(** Flags of a strong bullish market and of a strong bearish one. *)
Definition strong_buy_flags : conditions :=
  {| rsi_crossover := false; rsi_crossunder := false;
     stoch_crossover := false; stoch_crossunder := false;
     bullish_rsi := true; bearish_rsi := false;
     bullish_stoch := true; bearish_stoch := false;
     bullish_price := true; bearish_price := false;
     bullish_ema := true; bearish_ema := false;
     price_momentum := Fin 5;
     bullish_momentum := true; bearish_momentum := false;
     not_overbought := true; not_oversold := true |}.

Definition strong_sell_flags : conditions :=
  {| rsi_crossover := false; rsi_crossunder := false;
     stoch_crossover := false; stoch_crossunder := false;
     bullish_rsi := false; bearish_rsi := true;
     bullish_stoch := false; bearish_stoch := true;
     bullish_price := false; bearish_price := true;
     bullish_ema := false; bearish_ema := true;
     price_momentum := Fin (-5);
     bullish_momentum := false; bearish_momentum := true;
     not_overbought := true; not_oversold := true |}.

End RoundedEngine.
Export RoundedEngine.

(** ** Binary64 samples *)

(** The risk-reward recomputation of source lines 445-449 on primitive
    binary64 numbers, and the inputs of two runs in which rounding shows. *)
Module Binary64Samples.
Import PrimFloat.
Local Open Scope float_scope.

(** [current_price + risk * 1.5] with [risk = abs(current_price - sl)]. *)
Definition binary64_recomputed_buy (current_price stop_loss : float) : float :=
  current_price + abs (current_price - stop_loss) * 1.5.

(** The test [reward / risk < 1.5]. *)
Definition binary64_ratio_below (current_price take_profit stop_loss : float)
  : bool :=
  abs (take_profit - current_price) / abs (current_price - stop_loss) <? 1.5.

(** A price of 159 over a support low of 119.9. *)
Definition price_a : float := 159.
Definition support_low_a : float := 0x1.df9999999999ap+6.

(** A price of 49659.504206356105 between a support low of
    2942.8949472675413 and a resistance high of 119734.41809498896. *)
Definition price_b : float := 0x1.83f7022755e3dp+15.
Definition support_low_b : float := 0x1.6fdca36873b78p+11.
Definition resistance_high_b : float := 0x1.d3b66b0845f03p+16.

End Binary64Samples.
Export Binary64Samples.

(** ** Facts about the numeric helpers *)

Section NumericFacts.
Local Open Scope Q_scope.

Lemma Qltb_lt a b : Qltb a b = true <-> a < b.
Proof.
  unfold Qltb. rewrite negb_true_iff, <- not_true_iff_false, Qle_bool_iff.
  split; [apply Qnot_le_lt | apply Qlt_not_le].
Qed.

Lemma Qltb_ge a b : Qltb a b = false <-> b <= a.
Proof.
  unfold Qltb. rewrite negb_false_iff. apply Qle_bool_iff.
Qed.

Lemma Qgtb_gt a b : Qgtb a b = true <-> b < a.
Proof. apply Qltb_lt. Qed.

Lemma Qgtb_le a b : Qgtb a b = false <-> a <= b.
Proof. apply Qltb_ge. Qed.

Lemma Qleb_le a b : Qleb a b = true <-> a <= b.
Proof. apply Qle_bool_iff. Qed.

Lemma Qgeb_ge a b : Qgeb a b = true <-> b <= a.
Proof. apply Qle_bool_iff. Qed.

Lemma py_min_spec a b :
  (b < a /\ py_min a b = b) \/ (a <= b /\ py_min a b = a).
Proof.
  unfold py_min. destruct (Qltb b a) eqn:E.
  - left. split; [by apply Qltb_lt | done].
  - right. split; [by apply Qltb_ge | done].
Qed.

Lemma py_max_spec a b :
  (a < b /\ py_max a b = b) \/ (b <= a /\ py_max a b = a).
Proof.
  unfold py_max. destruct (Qgtb b a) eqn:E.
  - left. split; [by apply Qgtb_gt | done].
  - right. split; [by apply Qgtb_le | done].
Qed.

Lemma py_min_le_l a b : py_min a b <= a.
Proof. destruct (py_min_spec a b) as [[? ->]|[? ->]]; lra. Qed.

Lemma py_min_le_r a b : py_min a b <= b.
Proof. destruct (py_min_spec a b) as [[? ->]|[? ->]]; lra. Qed.

Lemma py_max_ge_l a b : a <= py_max a b.
Proof. destruct (py_max_spec a b) as [[? ->]|[? ->]]; lra. Qed.

Lemma py_max_ge_r a b : b <= py_max a b.
Proof. destruct (py_max_spec a b) as [[? ->]|[? ->]]; lra. Qed.

Lemma py_min_glb a b c : c <= a -> c <= b -> c <= py_min a b.
Proof. intros. destruct (py_min_spec a b) as [[? ->]|[? ->]]; lra. Qed.

Lemma py_max_lub a b c : a <= c -> b <= c -> py_max a b <= c.
Proof. intros. destruct (py_max_spec a b) as [[? ->]|[? ->]]; lra. Qed.

Lemma Qdiv_lt_bound a b c : 0 < b -> a / b < c -> a < c * b.
Proof.
  intros Hb H. assert (E : a / b * b == a) by (field; lra).
  rewrite <- E. by apply Qmult_lt_r.
Qed.

Lemma Qdiv_ge_bound a b c : 0 < b -> c <= a / b -> c * b <= a.
Proof.
  intros Hb H. assert (E : a / b * b == a) by (field; lra).
  rewrite <- E. by apply Qmult_le_r.
Qed.

Lemma Qabs_diff_pos a b : b <= a -> Qabs (a - b) == a - b.
Proof. intros. apply Qabs_pos. lra. Qed.

Lemma Qabs_diff_neg a b : a <= b -> Qabs (a - b) == b - a.
Proof. intros. rewrite Qabs_neg by lra. ring. Qed.

Lemma py_min3_le a b c : py_min3 a b c <= py_min b c.
Proof.
  unfold py_min3. apply py_min_glb.
  - apply Qle_trans with (py_min a b); [apply py_min_le_l | apply py_min_le_r].
  - apply py_min_le_r.
Qed.

Lemma py_max3_ge a b c : py_max b c <= py_max3 a b c.
Proof.
  unfold py_max3. apply py_max_lub.
  - apply Qle_trans with (py_max a b); [apply py_max_ge_r | apply py_max_ge_l].
  - apply py_max_ge_r.
Qed.

End NumericFacts.

(** ** Facts about the stages of the engine *)

Section StageFacts.
Local Open Scope Q_scope.

Lemma py_sum_count flags : py_sum flags = count_true flags.
Proof.
  unfold count_true. induction flags as [|[] flags IH]; [done | |].
  - rewrite filter_cons_True by done. simpl. by rewrite IH.
  - rewrite filter_cons_False by done. simpl. by rewrite IH.
Qed.

Lemma py_sum_bound flags : (py_sum flags <= length flags)%nat.
Proof. induction flags as [|[] flags IH]; simpl; lia. Qed.

Lemma vote_confidence_range c :
  0 <= vote_confidence c /\ vote_confidence c <= 100.
Proof.
  unfold vote_confidence.
  pose proof (py_sum_bound [bullish_rsi c; bullish_stoch c; bullish_price c;
                            bullish_ema c; bullish_momentum c]) as Hb.
  pose proof (py_sum_bound [bearish_rsi c; bearish_stoch c; bearish_price c;
                            bearish_ema c; bearish_momentum c]) as Hs.
  fold (bullish_points c) in Hb. fold (bearish_points c) in Hs. simpl in Hb, Hs.
  set (m := Nat.max (bullish_points c) (bearish_points c)).
  assert (Hm : (m <= 5)%nat) by (subst m; lia).
  assert (H0 : 0 <= inject_Z (Z.of_nat m)).
  { change 0 with (inject_Z 0). rewrite <- Zle_Qle. lia. }
  assert (H5 : inject_Z (Z.of_nat m) <= 5).
  { change 5 with (inject_Z 5). rewrite <- Zle_Qle. lia. }
  assert (E : inject_Z (Z.of_nat m) / 5 * 100 == inject_Z (Z.of_nat m) * 20)
    by field.
  rewrite E. split; lra.
Qed.

(** The later stages keep the signal and the confidence. *)
Lemma forecast_integration_keeps df d sz rz cp :
  signal_type (forecast_integration df d sz rz cp) = signal_type d /\
  confidence (forecast_integration df d sz rz cp) = confidence d.
Proof.
  unfold forecast_integration.
  destruct (negb _); [|done].
  destruct (forecast_prices df 30); [|done].
  by destruct (String.eqb (signal_type d) "BUY").
Qed.

Lemma risk_reward_adjustment_keeps d cp :
  signal_type (risk_reward_adjustment d cp) = signal_type d /\
  confidence (risk_reward_adjustment d cp) = confidence d /\
  sl (risk_reward_adjustment d cp) = sl d.
Proof.
  unfold risk_reward_adjustment.
  destruct (negb _); [|done].
  destruct (sl d) as [sl_v|] eqn:Hsl; [|done].
  destruct (tp d) as [tp_v|]; [|done].
  destruct (_ && _); [|done]. done.
Qed.

(** The five outcomes of signal generation. *)
Lemma signal_generation_cases c sz rz cp :
  let d := signal_generation c sz rz cp in
  (strong_bullish c = true /\ signal_type d = "BUY" /\
   confidence d = py_max 70 (vote_confidence c) /\
   sl d = Some (py_min (fst sz) (cp * 0.985)) /\
   tp d = Some (py_max (snd rz) (cp * 1.015))) \/
  (strong_bullish c = false /\ strong_bearish c = true /\
   signal_type d = "SELL" /\
   confidence d = py_max 70 (vote_confidence c) /\
   sl d = Some (py_max (snd rz) (cp * 1.015)) /\
   tp d = Some (py_min (fst sz) (cp * 0.985))) \/
  (strong_bullish c = false /\ strong_bearish c = false /\
   (2 <=? bullish_points c)%nat && not_overbought c = true /\
   signal_type d = "BUY" /\
   confidence d = vote_confidence c /\
   sl d = Some (py_min (fst sz) (cp * 0.98)) /\
   tp d = Some (py_max (snd rz) (cp * 1.02))) \/
  (strong_bullish c = false /\ strong_bearish c = false /\
   (2 <=? bullish_points c)%nat && not_overbought c = false /\
   (2 <=? bearish_points c)%nat && not_oversold c = true /\
   signal_type d = "SELL" /\
   confidence d = vote_confidence c /\
   sl d = Some (py_max (snd rz) (cp * 1.02)) /\
   tp d = Some (py_min (fst sz) (cp * 0.98))) \/
  (strong_bullish c = false /\ strong_bearish c = false /\
   (2 <=? bullish_points c)%nat && not_overbought c = false /\
   (2 <=? bearish_points c)%nat && not_oversold c = false /\
   signal_type d = "NO SIGNAL" /\
   confidence d = vote_confidence c /\
   sl d = None /\ tp d = None).
Proof.
  unfold signal_generation, strong_bullish, strong_bearish.
  destruct (bullish_price c && bullish_ema c && bullish_momentum c);
    [left; done|].
  destruct (bearish_price c && bearish_ema c && bearish_momentum c);
    [right; left; done|].
  destruct ((2 <=? bullish_points c)%nat && not_overbought c);
    [right; right; left; done|].
  destruct ((2 <=? bearish_points c)%nat && not_oversold c);
    [right; right; right; left; done|].
  right; right; right; right; done.
Qed.

(** A buy decision keeps its stop below and its target above the price,
    at least 1.5% away, through forecast integration, and neither level
    moves towards the price. *)
Lemma forecast_integration_buy df d sz rz cp ks kt :
  signal_type d = "BUY" ->
  sl d = Some (py_min (fst sz) (cp * ks)) ->
  tp d = Some (py_max (snd rz) (cp * kt)) ->
  0 < cp -> 0.98 <= ks -> ks <= 0.985 -> 1.015 <= kt -> kt <= 1.02 ->
  exists sl1 tp1,
    sl (forecast_integration df d sz rz cp) = Some sl1 /\
    tp (forecast_integration df d sz rz cp) = Some tp1 /\
    sl1 <= py_min (fst sz) (cp * ks) /\
    py_min (fst sz) (cp * ks) < cp /\
    cp < py_max (snd rz) (cp * kt) /\
    py_max (snd rz) (cp * kt) <= tp1.
Proof.
  intros Hsig Hsl Htp Hcp Hks1 Hks2 Hkt1 Hkt2.
  assert (Hlow : py_min (fst sz) (cp * ks) < cp).
  { apply Qle_lt_trans with (cp * ks); [apply py_min_le_r | nra]. }
  assert (Hhigh : cp < py_max (snd rz) (cp * kt)).
  { apply Qlt_le_trans with (cp * kt); [nra | apply py_max_ge_r]. }
  unfold forecast_integration. rewrite Hsig. simpl.
  destruct (forecast_prices df 30) as [fc|].
  - eexists _, _. simpl. repeat split; try done.
    + apply Qle_trans with (py_min (fst sz) (cp * 0.98)); [apply py_min3_le|].
      apply py_min_glb; [apply py_min_le_l|].
      apply Qle_trans with (cp * 0.98); [apply py_min_le_r | nra].
    + apply Qle_trans with (py_max (snd rz) (cp * 1.02)); [|apply py_max3_ge].
      apply py_max_lub; [apply py_max_ge_l|].
      apply Qle_trans with (cp * 1.02); [nra | apply py_max_ge_r].
  - exists (py_min (fst sz) (cp * ks)), (py_max (snd rz) (cp * kt)).
    repeat split; try done; lra.
Qed.

Lemma forecast_integration_sell df d sz rz cp ks kt :
  signal_type d = "SELL" ->
  sl d = Some (py_max (snd rz) (cp * ks)) ->
  tp d = Some (py_min (fst sz) (cp * kt)) ->
  0 < cp -> 1.015 <= ks -> ks <= 1.02 -> 0.98 <= kt -> kt <= 0.985 ->
  exists sl1 tp1,
    sl (forecast_integration df d sz rz cp) = Some sl1 /\
    tp (forecast_integration df d sz rz cp) = Some tp1 /\
    py_max (snd rz) (cp * ks) <= sl1 /\
    cp < py_max (snd rz) (cp * ks) /\
    py_min (fst sz) (cp * kt) < cp /\
    tp1 <= py_min (fst sz) (cp * kt).
Proof.
  intros Hsig Hsl Htp Hcp Hks1 Hks2 Hkt1 Hkt2.
  assert (Hhigh : cp < py_max (snd rz) (cp * ks)).
  { apply Qlt_le_trans with (cp * ks); [nra | apply py_max_ge_r]. }
  assert (Hlow : py_min (fst sz) (cp * kt) < cp).
  { apply Qle_lt_trans with (cp * kt); [apply py_min_le_r | nra]. }
  unfold forecast_integration. rewrite Hsig. simpl.
  destruct (forecast_prices df 30) as [fc|].
  - eexists _, _. simpl. repeat split; try done.
    + apply Qle_trans with (py_max (snd rz) (cp * 1.02)); [|apply py_max3_ge].
      apply py_max_lub; [apply py_max_ge_l|].
      apply Qle_trans with (cp * 1.02); [nra | apply py_max_ge_r].
    + apply Qle_trans with (py_min (fst sz) (cp * 0.98)); [apply py_min3_le|].
      apply py_min_glb; [apply py_min_le_l|].
      apply Qle_trans with (cp * 0.98); [apply py_min_le_r | nra].
  - exists (py_max (snd rz) (cp * ks)), (py_min (fst sz) (cp * kt)).
    repeat split; try done; lra.
Qed.

End StageFacts.

Section AdjustmentFacts.
Local Open Scope Q_scope.

(** The adjustment of a buy decision whose stop is below and whose target
    is above the price. *)
Lemma risk_reward_adjustment_buy d cp sl0 tp0 :
  signal_type d = "BUY" -> sl d = Some sl0 -> tp d = Some tp0 ->
  sl0 < cp -> cp < tp0 ->
  exists tp1,
    tp (risk_reward_adjustment d cp) = Some tp1 /\
    tp0 <= tp1 /\
    1.5 <= reward_risk cp tp1 sl0 /\
    (reward_risk cp tp0 sl0 < 1.5 ->
     reward_risk cp tp1 sl0 == 1.5 /\ tp1 == cp + 1.5 * (cp - sl0)) /\
    (1.5 <= reward_risk cp tp0 sl0 -> tp1 = tp0).
Proof.
  intros Hsig Hsl Htp Hlow Hhigh.
  assert (Hrisk : Qabs (cp - sl0) == cp - sl0) by (apply Qabs_diff_pos; lra).
  assert (Hrisk' : Qabs (sl0 - cp) == cp - sl0) by (apply Qabs_diff_neg; lra).
  assert (Hrew : Qabs (tp0 - cp) == tp0 - cp) by (apply Qabs_diff_pos; lra).
  unfold risk_reward_adjustment, reward_risk.
  rewrite Hsig, Hsl, Htp. simpl negb. cbv iota. simpl String.eqb.
  destruct (Qgtb (Qabs (cp - sl0)) 0
            && Qltb (Qabs (tp0 - cp) / Qabs (cp - sl0)) 1.5) eqn:E.
  - apply andb_true_iff in E as [_ E]. apply Qltb_lt in E.
    rewrite Hrisk, Hrew in E. apply Qdiv_lt_bound in E; [|lra].
    exists (cp + Qabs (cp - sl0) * 1.5). simpl.
    assert (Hnew : Qabs (cp + Qabs (cp - sl0) * 1.5 - cp) == 1.5 * (cp - sl0)).
    { rewrite Hrisk. rewrite Qabs_pos by lra. ring. }
    assert (Hratio : Qabs (cp + Qabs (cp - sl0) * 1.5 - cp) / Qabs (sl0 - cp)
                     == 1.5).
    { rewrite Hnew, Hrisk'. field. lra. }
    split; [done|]. split; [rewrite Hrisk; lra|].
    split; [rewrite Hratio; lra|]. split.
    + intros _. split; [exact Hratio | rewrite Hrisk; ring].
    + intros Hge. rewrite Hrew, Hrisk' in Hge.
      apply Qdiv_ge_bound in Hge; lra.
  - exists tp0.
    assert (Hge : 1.5 <= Qabs (tp0 - cp) / Qabs (sl0 - cp)).
    { apply andb_false_iff in E as [E|E].
      - apply Qgtb_le in E. rewrite Hrisk in E. lra.
      - apply Qltb_ge in E. by rewrite Hrisk, <- Hrisk' in E. }
    split; [done|]. split; [lra|]. split; [done|]. split; [lra | done].
Qed.

(** The mirror image for a sell decision. *)
Lemma risk_reward_adjustment_sell d cp sl0 tp0 :
  signal_type d = "SELL" -> sl d = Some sl0 -> tp d = Some tp0 ->
  cp < sl0 -> tp0 < cp ->
  exists tp1,
    tp (risk_reward_adjustment d cp) = Some tp1 /\
    tp1 <= tp0 /\
    1.5 <= reward_risk cp tp1 sl0 /\
    (reward_risk cp tp0 sl0 < 1.5 ->
     reward_risk cp tp1 sl0 == 1.5 /\ tp1 == cp - 1.5 * (sl0 - cp)) /\
    (1.5 <= reward_risk cp tp0 sl0 -> tp1 = tp0).
Proof.
  intros Hsig Hsl Htp Hhigh Hlow.
  assert (Hrisk : Qabs (cp - sl0) == sl0 - cp) by (apply Qabs_diff_neg; lra).
  assert (Hrisk' : Qabs (sl0 - cp) == sl0 - cp) by (apply Qabs_diff_pos; lra).
  assert (Hrew : Qabs (tp0 - cp) == cp - tp0) by (apply Qabs_diff_neg; lra).
  unfold risk_reward_adjustment, reward_risk.
  rewrite Hsig, Hsl, Htp. simpl negb. cbv iota. simpl String.eqb.
  destruct (Qgtb (Qabs (cp - sl0)) 0
            && Qltb (Qabs (tp0 - cp) / Qabs (cp - sl0)) 1.5) eqn:E.
  - apply andb_true_iff in E as [_ E]. apply Qltb_lt in E.
    rewrite Hrisk, Hrew in E. apply Qdiv_lt_bound in E; [|lra].
    exists (cp - Qabs (cp - sl0) * 1.5). simpl.
    assert (Hnew : Qabs (cp - Qabs (cp - sl0) * 1.5 - cp) == 1.5 * (sl0 - cp)).
    { rewrite Hrisk. rewrite Qabs_neg by lra. ring. }
    assert (Hratio : Qabs (cp - Qabs (cp - sl0) * 1.5 - cp) / Qabs (sl0 - cp)
                     == 1.5).
    { rewrite Hnew, Hrisk'. field. lra. }
    split; [done|]. split; [rewrite Hrisk; lra|].
    split; [rewrite Hratio; lra|]. split.
    + intros _. split; [exact Hratio | rewrite Hrisk; ring].
    + intros Hge. rewrite Hrew, Hrisk' in Hge.
      apply Qdiv_ge_bound in Hge; lra.
  - exists tp0.
    assert (Hge : 1.5 <= Qabs (tp0 - cp) / Qabs (sl0 - cp)).
    { apply andb_false_iff in E as [E|E].
      - apply Qgtb_le in E. rewrite Hrisk in E. lra.
      - apply Qltb_ge in E. by rewrite Hrisk, <- Hrisk' in E. }
    split; [done|]. split; [lra|]. split; [done|]. split; [lra | done].
Qed.

End AdjustmentFacts.

(** ** Facts about [run_strategy] *)

Section EngineFacts.
Local Open Scope Q_scope.
Variable ta : ta_lib.
Variable chart_written : bool.

Lemma compute_indicators_fields df :
  let ind := compute_indicators ta df in
  rsi ind = calculate_rsi ta df 14 /\
  stoch_k ind = fst (calculate_stochastic ta df 14 3) /\
  emas ind = calculate_ema ta df /\
  upper_kc ind = fst (fst (calculate_keltner_channels ta df 20)) /\
  basis_kc ind = snd (fst (calculate_keltner_channels ta df 20)) /\
  lower_kc ind = snd (calculate_keltner_channels ta df 20) /\
  support_zone ind = fst (detect_support_resistance_zones df 20) /\
  resistance_zone ind = snd (detect_support_resistance_zones df 20) /\
  current_price ind = iloc_neg (col Close df) 1 0.
Proof.
  unfold compute_indicators.
  destruct (calculate_stochastic ta df 14 3) as [k d].
  destruct (calculate_keltner_channels ta df 20) as [[upper basis] lower].
  destruct (detect_support_resistance_zones df 20) as [sz rz].
  repeat split.
Qed.

Lemma result_lookup (a b c d e : pyval) :
  let r : gmap string pyval :=
    list_to_map [("signal", a); ("tp", b); ("sl", c); ("chart_base64", d);
                 ("snapshot", e)] in
  r !! "signal" = Some a /\ r !! "tp" = Some b /\ r !! "sl" = Some c /\
  r !! "snapshot" = Some e /\ r !! "confidence" = None.
Proof. repeat split; reflexivity. Qed.

Lemma failure_is_failure_result message : failure_result (failure message).
Proof. unfold failure_result, failure. repeat split; try reflexivity. by eexists. Qed.

(** A successful run passed every guard and returns the final decision. *)
Lemma run_strategy_success df :
  (run_strategy ta chart_written (Some df)).2 = true ->
  let r := (run_strategy ta chart_written (Some df)).1 in
  (CANDLE_LIMIT <= length (rows df))%nat /\
  ema_invalid (compute_indicators ta df) = false /\
  keltner_invalid (compute_indicators ta df) = false /\
  r !! "signal" = Some (PStr (signal_type (final_decision ta df))) /\
  r !! "tp" = Some (level_value (tp (final_decision ta df))) /\
  r !! "sl" = Some (level_value (sl (final_decision ta df))) /\
  r !! "snapshot" = Some (PDict (snapshot_object ta df)) /\
  r !! "confidence" = None.
Proof.
  unfold run_strategy.
  destruct (Nat.ltb_spec (length (rows df)) CANDLE_LIMIT) as [|Hlen];
    [intros [=]|].
  destruct (ema_invalid _) eqn:He; [intros [=]|].
  destruct (keltner_invalid _) eqn:Hk; [intros [=]|].
  intros _.
  pose proof (result_lookup
                (PStr (signal_type (final_decision ta df)))
                (level_value (tp (final_decision ta df)))
                (level_value (sl (final_decision ta df)))
                (PStr (chart_base64 chart_written))
                (PDict (snapshot_object ta df))) as H.
  cbv zeta in H. cbv zeta. cbn [fst].
  repeat split; tauto.
Qed.

(** A run that is not successful returns the failure result. *)
Lemma run_strategy_failure df :
  (run_strategy ta chart_written df).2 = false ->
  failure_result (run_strategy ta chart_written df).
Proof.
  unfold run_strategy. destruct df as [df|];
    [|intros _; apply failure_is_failure_result].
  destruct (_ <? _)%nat; [intros _; apply failure_is_failure_result|].
  destruct (ema_invalid _); [intros _; apply failure_is_failure_result|].
  destruct (keltner_invalid _); [intros _; apply failure_is_failure_result|].
  intros [=].
Qed.

Lemma final_decision_signal df :
  signal_type (final_decision ta df) = signal_type (derived_decision ta df).
Proof.
  unfold final_decision, refined_decision.
  rewrite (proj1 (risk_reward_adjustment_keeps _ _)).
  apply forecast_integration_keeps.
Qed.

Lemma final_decision_confidence df :
  confidence (final_decision ta df) = confidence (derived_decision ta df).
Proof.
  unfold final_decision, refined_decision.
  rewrite (proj1 (proj2 (risk_reward_adjustment_keeps _ _))).
  apply forecast_integration_keeps.
Qed.

(** The levels of a buy decision through the three stages. *)
Lemma buy_levels df :
  let cp := iloc_neg (col Close df) 1 0 in
  let support_low := fst (fst (detect_support_resistance_zones df 20)) in
  let resistance_high := snd (snd (detect_support_resistance_zones df 20)) in
  0 < cp ->
  signal_type (derived_decision ta df) = "BUY" ->
  exists ks kt sl1 tp1 tp2,
    (strong_bullish (conditions_of ta df) = true /\ ks = 0.985 /\ kt = 1.015 \/
     strong_bullish (conditions_of ta df) = false /\ ks = 0.98 /\ kt = 1.02) /\
    sl (derived_decision ta df) = Some (py_min support_low (cp * ks)) /\
    tp (derived_decision ta df) = Some (py_max resistance_high (cp * kt)) /\
    sl (refined_decision ta df) = Some sl1 /\
    tp (refined_decision ta df) = Some tp1 /\
    sl (final_decision ta df) = Some sl1 /\
    tp (final_decision ta df) = Some tp2 /\
    sl1 <= py_min support_low (cp * ks) /\
    py_min support_low (cp * ks) < cp /\
    cp < py_max resistance_high (cp * kt) /\
    py_max resistance_high (cp * kt) <= tp1 /\
    tp1 <= tp2 /\
    1.5 <= reward_risk cp tp2 sl1 /\
    (reward_risk cp tp1 sl1 < 1.5 ->
     reward_risk cp tp2 sl1 == 1.5 /\ tp2 == cp + 1.5 * (cp - sl1)) /\
    (1.5 <= reward_risk cp tp1 sl1 -> tp2 = tp1).
Proof.
  intros cp support_low resistance_high Hcp Hsig.
  destruct (compute_indicators_fields df)
    as (_ & _ & _ & _ & _ & _ & Hsz & Hrz & Hprice).
  assert (Hstages :
    forall ks kt,
      0.98 <= ks -> ks <= 0.985 -> 1.015 <= kt -> kt <= 1.02 ->
      sl (derived_decision ta df) = Some (py_min support_low (cp * ks)) ->
      tp (derived_decision ta df) = Some (py_max resistance_high (cp * kt)) ->
      exists sl1 tp1 tp2,
        sl (refined_decision ta df) = Some sl1 /\
        tp (refined_decision ta df) = Some tp1 /\
        sl (final_decision ta df) = Some sl1 /\
        tp (final_decision ta df) = Some tp2 /\
        sl1 <= py_min support_low (cp * ks) /\
        py_min support_low (cp * ks) < cp /\
        cp < py_max resistance_high (cp * kt) /\
        py_max resistance_high (cp * kt) <= tp1 /\
        tp1 <= tp2 /\
        1.5 <= reward_risk cp tp2 sl1 /\
        (reward_risk cp tp1 sl1 < 1.5 ->
         reward_risk cp tp2 sl1 == 1.5 /\ tp2 == cp + 1.5 * (cp - sl1)) /\
        (1.5 <= reward_risk cp tp1 sl1 -> tp2 = tp1)).
  { intros ks kt Hk1 Hk2 Hk3 Hk4 Hsl Htp.
    unfold final_decision, refined_decision.
    rewrite Hsz, Hrz, Hprice. fold cp.
    destruct (forecast_integration_buy df (derived_decision ta df)
                (fst (detect_support_resistance_zones df 20))
                (snd (detect_support_resistance_zones df 20)) cp ks kt)
      as (sl1 & tp1 & Hsl1 & Htp1 & H1 & H2 & H3 & H4); try done.
    destruct (risk_reward_adjustment_buy
                (forecast_integration df (derived_decision ta df)
                   (fst (detect_support_resistance_zones df 20))
                   (snd (detect_support_resistance_zones df 20)) cp)
                cp sl1 tp1)
      as (tp2 & Htp2 & H5 & H6 & H7 & H8); try done.
    - rewrite (proj1 (forecast_integration_keeps _ _ _ _ _)). done.
    - fold support_low in H1, H2. lra.
    - fold resistance_high in H3, H4. lra.
    - exists sl1, tp1, tp2.
      rewrite (proj2 (proj2 (risk_reward_adjustment_keeps _ _))).
      repeat (split; [assumption|]). exact H8. }
  unfold derived_decision in Hsig |- *.
  rewrite Hsz, Hrz, Hprice in Hsig |- *. fold cp in Hsig |- *.
  destruct (signal_generation_cases (conditions_of ta df)
              (fst (detect_support_resistance_zones df 20))
              (snd (detect_support_resistance_zones df 20)) cp)
    as [(Hs & _ & _ & Hsl & Htp)
       |[(_ & _ & Hx & _)
        |[(Hs & _ & _ & _ & _ & Hsl & Htp)
         |[(_ & _ & _ & _ & Hx & _)|(_ & _ & _ & _ & Hx & _)]]]];
    try (rewrite Hx in Hsig; discriminate).
  - exists 0.985, 1.015.
    destruct (Hstages 0.985 1.015) as (sl1 & tp1 & tp2 & H); try done.
    { unfold derived_decision. rewrite Hsz, Hrz, Hprice. exact Hsl. }
    { unfold derived_decision. rewrite Hsz, Hrz, Hprice. exact Htp. }
    exists sl1, tp1, tp2. split; [left; done|]. split; [exact Hsl|].
    split; [exact Htp|]. exact H.
  - exists 0.98, 1.02.
    destruct (Hstages 0.98 1.02) as (sl1 & tp1 & tp2 & H); try done.
    { unfold derived_decision. rewrite Hsz, Hrz, Hprice. exact Hsl. }
    { unfold derived_decision. rewrite Hsz, Hrz, Hprice. exact Htp. }
    exists sl1, tp1, tp2. split; [right; done|]. split; [exact Hsl|].
    split; [exact Htp|]. exact H.
Qed.

(** The levels of a sell decision through the three stages. *)
Lemma sell_levels df :
  let cp := iloc_neg (col Close df) 1 0 in
  let support_low := fst (fst (detect_support_resistance_zones df 20)) in
  let resistance_high := snd (snd (detect_support_resistance_zones df 20)) in
  0 < cp ->
  signal_type (derived_decision ta df) = "SELL" ->
  exists ks kt sl1 tp1 tp2,
    (strong_bearish (conditions_of ta df) = true /\ ks = 1.015 /\ kt = 0.985 \/
     strong_bearish (conditions_of ta df) = false /\ ks = 1.02 /\ kt = 0.98) /\
    sl (derived_decision ta df) = Some (py_max resistance_high (cp * ks)) /\
    tp (derived_decision ta df) = Some (py_min support_low (cp * kt)) /\
    sl (refined_decision ta df) = Some sl1 /\
    tp (refined_decision ta df) = Some tp1 /\
    sl (final_decision ta df) = Some sl1 /\
    tp (final_decision ta df) = Some tp2 /\
    py_max resistance_high (cp * ks) <= sl1 /\
    cp < py_max resistance_high (cp * ks) /\
    py_min support_low (cp * kt) < cp /\
    tp1 <= py_min support_low (cp * kt) /\
    tp2 <= tp1 /\
    1.5 <= reward_risk cp tp2 sl1 /\
    (reward_risk cp tp1 sl1 < 1.5 ->
     reward_risk cp tp2 sl1 == 1.5 /\ tp2 == cp - 1.5 * (sl1 - cp)) /\
    (1.5 <= reward_risk cp tp1 sl1 -> tp2 = tp1).
Proof.
  intros cp support_low resistance_high Hcp Hsig.
  destruct (compute_indicators_fields df)
    as (_ & _ & _ & _ & _ & _ & Hsz & Hrz & Hprice).
  assert (Hstages :
    forall ks kt,
      1.015 <= ks -> ks <= 1.02 -> 0.98 <= kt -> kt <= 0.985 ->
      sl (derived_decision ta df) = Some (py_max resistance_high (cp * ks)) ->
      tp (derived_decision ta df) = Some (py_min support_low (cp * kt)) ->
      exists sl1 tp1 tp2,
        sl (refined_decision ta df) = Some sl1 /\
        tp (refined_decision ta df) = Some tp1 /\
        sl (final_decision ta df) = Some sl1 /\
        tp (final_decision ta df) = Some tp2 /\
        py_max resistance_high (cp * ks) <= sl1 /\
        cp < py_max resistance_high (cp * ks) /\
        py_min support_low (cp * kt) < cp /\
        tp1 <= py_min support_low (cp * kt) /\
        tp2 <= tp1 /\
        1.5 <= reward_risk cp tp2 sl1 /\
        (reward_risk cp tp1 sl1 < 1.5 ->
         reward_risk cp tp2 sl1 == 1.5 /\ tp2 == cp - 1.5 * (sl1 - cp)) /\
        (1.5 <= reward_risk cp tp1 sl1 -> tp2 = tp1)).
  { intros ks kt Hk1 Hk2 Hk3 Hk4 Hsl Htp.
    unfold final_decision, refined_decision.
    rewrite Hsz, Hrz, Hprice. fold cp.
    destruct (forecast_integration_sell df (derived_decision ta df)
                (fst (detect_support_resistance_zones df 20))
                (snd (detect_support_resistance_zones df 20)) cp ks kt)
      as (sl1 & tp1 & Hsl1 & Htp1 & H1 & H2 & H3 & H4); try done.
    destruct (risk_reward_adjustment_sell
                (forecast_integration df (derived_decision ta df)
                   (fst (detect_support_resistance_zones df 20))
                   (snd (detect_support_resistance_zones df 20)) cp)
                cp sl1 tp1)
      as (tp2 & Htp2 & H5 & H6 & H7 & H8); try done.
    - rewrite (proj1 (forecast_integration_keeps _ _ _ _ _)). done.
    - fold resistance_high in H1, H2. lra.
    - fold support_low in H3, H4. lra.
    - exists sl1, tp1, tp2.
      rewrite (proj2 (proj2 (risk_reward_adjustment_keeps _ _))).
      repeat (split; [assumption|]). exact H8. }
  unfold derived_decision in Hsig |- *.
  rewrite Hsz, Hrz, Hprice in Hsig |- *. fold cp in Hsig |- *.
  destruct (signal_generation_cases (conditions_of ta df)
              (fst (detect_support_resistance_zones df 20))
              (snd (detect_support_resistance_zones df 20)) cp)
    as [(_ & Hx & _)
       |[(_ & Hs & _ & _ & Hsl & Htp)
        |[(_ & _ & _ & Hx & _)
         |[(_ & Hs & _ & _ & _ & _ & Hsl & Htp)|(_ & _ & _ & _ & Hx & _)]]]];
    try (rewrite Hx in Hsig; discriminate).
  - exists 1.015, 0.985.
    destruct (Hstages 1.015 0.985) as (sl1 & tp1 & tp2 & H); try done.
    { unfold derived_decision. rewrite Hsz, Hrz, Hprice. exact Hsl. }
    { unfold derived_decision. rewrite Hsz, Hrz, Hprice. exact Htp. }
    exists sl1, tp1, tp2. split; [left; done|]. split; [exact Hsl|].
    split; [exact Htp|]. exact H.
  - exists 1.02, 0.98.
    destruct (Hstages 1.02 0.98) as (sl1 & tp1 & tp2 & H); try done.
    { unfold derived_decision. rewrite Hsz, Hrz, Hprice. exact Hsl. }
    { unfold derived_decision. rewrite Hsz, Hrz, Hprice. exact Htp. }
    exists sl1, tp1, tp2. split; [right; done|]. split; [exact Hsl|].
    split; [exact Htp|]. exact H.
Qed.

(** The signal of the derived decision is one of three texts, and the levels
    are set exactly when it is directional. *)
Lemma final_decision_shape df :
  let d := final_decision ta df in
  (signal_type d = "NO SIGNAL" /\ sl d = None /\ tp d = None) \/
  ((signal_type d = "BUY" \/ signal_type d = "SELL") /\
   (exists v, sl d = Some v) /\ (exists v, tp d = Some v)).
Proof.
  cbv zeta. unfold final_decision.
  set (cp := current_price (compute_indicators ta df)).
  assert (Hd :
    let d := refined_decision ta df in
    (signal_type d = "NO SIGNAL" /\ sl d = None /\ tp d = None) \/
    ((signal_type d = "BUY" \/ signal_type d = "SELL") /\
     (exists v, sl d = Some v) /\ (exists v, tp d = Some v))).
  { cbv zeta. unfold refined_decision, derived_decision.
    set (sz := support_zone (compute_indicators ta df)).
    set (rz := resistance_zone (compute_indicators ta df)).
    fold cp.
    destruct (signal_generation_cases (conditions_of ta df) sz rz cp)
      as [(_ & Hs & _ & Hsl & Htp)
         |[(_ & _ & Hs & _ & Hsl & Htp)
          |[(_ & _ & _ & Hs & _ & Hsl & Htp)
           |[(_ & _ & _ & _ & Hs & _ & Hsl & Htp)
            |(_ & _ & _ & _ & Hs & _ & Hsl & Htp)]]]];
      unfold forecast_integration; rewrite Hs; simpl;
      try (left; done);
      right; (destruct (forecast_prices df 30);
              [simpl; eauto 10 | rewrite Hs, Hsl, Htp; eauto 10]). }
  cbv zeta in Hd.
  destruct Hd as [(Hs & Hsl & Htp)|(Hs & [v1 Hsl] & [v2 Htp])].
  - left. unfold risk_reward_adjustment. rewrite Hs. simpl. done.
  - right. unfold risk_reward_adjustment. rewrite Hsl, Htp.
    destruct Hs as [Hs|Hs]; rewrite Hs; simpl;
      destruct (_ && _); simpl; rewrite ?Hs, ?Hsl, ?Htp; eauto 10.
Qed.

(** Every run returns one of the three signal texts. *)
Lemma run_strategy_signal_values (input : option DataFrame) :
  let res := run_strategy ta chart_written input in
  res.1 !! "signal" = Some (PStr "BUY") \/
  res.1 !! "signal" = Some (PStr "SELL") \/
  res.1 !! "signal" = Some (PStr "NO SIGNAL").
Proof.
  intros res. destruct res.2 eqn:Hok.
  - destruct input as [df|]; [|discriminate Hok].
    destruct (run_strategy_success df Hok) as (_ & _ & _ & Hs & _).
    fold res in Hs. rewrite Hs.
    destruct (final_decision_shape df) as [(-> & _)|([-> | ->] & _)]; auto.
  - destruct (run_strategy_failure input Hok) as (Hs & _). auto.
Qed.

End EngineFacts.

(** ** Sample runs *)

Section SampleRuns.

Example quiet_sample_no_signal :
  (run_strategy quiet_ta true (Some quiet_frame)).1 !! "signal"
    = Some (PStr "NO SIGNAL").
Proof. vm_compute. reflexivity. Qed.

Example rising_sample_buy :
  (run_strategy rising_ta true (Some rising_frame)).1 !! "signal"
    = Some (PStr "BUY").
Proof. vm_compute. reflexivity. Qed.

Example falling_sample_sell :
  (run_strategy falling_ta true (Some falling_frame)).1 !! "signal"
    = Some (PStr "SELL").
Proof. vm_compute. reflexivity. Qed.

Example rising_sample_zones :
  let zones := detect_support_resistance_zones rising_frame 20 in
  (fst (fst zones) == 111)%Q /\ (snd (snd zones) == 149)%Q.
Proof. vm_compute. split; reflexivity. Qed.

Example format_price_samples :
  format_price (PFloat 12345.678) = "$12345.68" /\
  format_price (PFloat 0.5) = "$0.5000" /\
  format_price (PFloat 0) = "N/A" /\
  format_price (PStr "N/A") = "N/A".
Proof. vm_compute. repeat split; reflexivity. Qed.

Example format_fixed_samples :
  format_fixed false 2 0.125 = "0.12" /\
  format_fixed false 2 0.375 = "0.38" /\
  format_fixed true 2 (-0.001) = "-0.00" /\
  format_fixed false 1 60 = "60.0".
Proof. vm_compute. repeat split; reflexivity. Qed.

Example get_coingecko_id_samples :
  get_coingecko_id "BTCUSDT" = "bitcoin" /\
  get_coingecko_id "NEWUSDT" = "new" /\
  get_coingecko_id "Abc" = "abc".
Proof. vm_compute. repeat split; reflexivity. Qed.

Example safe_extract_samples :
  safe_extract_rsi ("N/A" +:+ arrow +:+ "Bearish Trend") = PNone /\
  exists v, safe_extract_rsi ("61.25" +:+ arrow +:+ "Bullish Trend") = PFloat v
            /\ (v == 61.25)%Q.
Proof. split; [vm_compute; reflexivity|]. eexists. split; vm_compute; reflexivity. Qed.

End SampleRuns.

(** ** The forecaster *)

Section ForecastFacts.
Local Open Scope Q_scope.

Lemma length_col f df : length (col f df) = length (rows df).
Proof. unfold col. apply length_map. Qed.

Lemma tail_app_exact {A} (pre l : list A) : tail (length l) (pre ++ l) = l.
Proof.
  unfold tail. rewrite length_app.
  replace (length pre + length l - length l)%nat with (length pre) by lia.
  apply drop_app_length.
Qed.

Lemma iloc_neg_last {A} (l : list A) (x d : A) : iloc_neg (l ++ [x]) 1 d = x.
Proof.
  unfold iloc_neg. rewrite length_app. change (length [x]) with 1%nat.
  destruct (Nat.leb_spec 1 (length l + 1)) as [_|Hlt]; [|lia].
  replace (length l + 1 - 1)%nat with (length l) by lia.
  rewrite app_nth2 by lia. by rewrite Nat.sub_diag.
Qed.

(** C8: [forecast_prices] returns [None] on fewer than 10 candles.  On a
    series whose closes end with [first], eight more closes, and [last]
    (so [first] is [Close.iloc[-10]], the first of the last ten closes) it
    returns exactly [periods] rows (30 is the default of the source); row
    [i] has [yhat = last + trend * (i + 1)] with
    [trend = (last - first) / 10], [yhat_lower = yhat * 0.95] and
    [yhat_upper = yhat * 1.05]. *)
Theorem forecast_prices_spec (df : DataFrame) (periods : nat) :
  ((length (rows df) < 10)%nat -> forecast_prices df periods = None) /\
  (forall pre first mid last,
     col Close df = pre ++ first :: mid ++ [last] -> length mid = 8%nat ->
     exists fc,
       forecast_prices df periods = Some fc /\ length fc = periods /\
       forall i, (i < periods)%nat ->
         exists row,
           fc !! i = Some row /\
           yhat row == last + (last - first) / 10 * inject_Z (Z.of_nat (i + 1)) /\
           yhat_lower row = yhat row * 0.95 /\
           yhat_upper row = yhat row * 1.05).
Proof.
  split.
  - intros Hlt. unfold forecast_prices.
    destruct (Nat.ltb_spec (length (rows df)) 10) as [_|Hge]; [done | lia].
  - intros pre first mid last Hcl Hmid. unfold forecast_prices.
    assert (Hlen : length (rows df) = (length pre + 10)%nat).
    { rewrite <- (length_col Close), Hcl, length_app. simpl.
      rewrite length_app. simpl. lia. }
    destruct (Nat.ltb_spec (length (rows df)) 10) as [Hlt|_]; [lia |].
    assert (Htail : tail 10 (col Close df) = first :: mid ++ [last]).
    { rewrite Hcl. replace 10%nat with (length (first :: mid ++ [last])).
      - apply tail_app_exact.
      - simpl. rewrite length_app. simpl. lia. }
    rewrite Htail.
    assert (Hlast : iloc_neg (first :: mid ++ [last]) 1 0 = last).
    { apply (iloc_neg_last (first :: mid)). }
    rewrite Hlast.
    assert (Hten : length (first :: mid ++ [last]) = 10%nat).
    { simpl. rewrite length_app. simpl. lia. }
    rewrite Hten. simpl nth.
    eexists. split; [reflexivity |]. split.
    + by rewrite length_map, length_seq.
    + intros i Hi. eexists. split.
      * rewrite list_lookup_fmap, lookup_seq_lt by done. reflexivity.
      * simpl. split; [|done]. reflexivity.
Qed.

(** The forecast of the rising sample: 30 rows from closes 140 to 149. *)
Lemma forecast_prices_spec_witness :
  exists fc,
    forecast_prices rising_frame 30 = Some fc /\ length fc = 30%nat /\
    forall i, (i < 30)%nat ->
      exists row,
        fc !! i = Some row /\
        yhat row == 149 + (149 - 140) / 10 * inject_Z (Z.of_nat (i + 1)) /\
        yhat_lower row = yhat row * 0.95 /\
        yhat_upper row = yhat row * 1.05.
Proof.
  apply (proj2 (forecast_prices_spec rising_frame 30)
               (take 40 (col Close rising_frame)) 140
               (take 8 (drop 41 (col Close rising_frame))) 149);
    reflexivity.
Defined.

End ForecastFacts.

(** ** The rounding of binary64 *)

Section RoundingFacts.
Local Open Scope Q_scope.

Lemma pow2_pos (e : Z) : 0 < 2 ^ e.
Proof. apply Qpower_0_lt. reflexivity. Qed.

Lemma pow2_add (a b : Z) : 2 ^ (a + b) == 2 ^ a * 2 ^ b.
Proof. apply Qpower_plus. discriminate. Qed.

Lemma pow2_inject (n : Z) : (0 <= n)%Z -> inject_Z (2 ^ n) == 2 ^ n.
Proof. intros Hn. by rewrite Zpower_Qpower. Qed.

(** Rounding to the nearest integer moves a number by at most one half. *)
Lemma round_half_even_error (y : Q) :
  Qabs (inject_Z (round_half_even y) - y) <= 1 # 2.
Proof.
  unfold round_half_even.
  pose proof (Qfloor_le y) as Hlo. pose proof (Qlt_floor y) as Hhi.
  rewrite inject_Z_plus in Hhi. change (inject_Z 1) with 1 in Hhi.
  set (f := Qfloor y) in *.
  apply Qabs_Qle_condition.
  destruct (Qltb (y - inject_Z f) 0.5) eqn:E1.
  - apply Qltb_lt in E1. split; lra.
  - apply Qltb_ge in E1.
    destruct (Qgtb (y - inject_Z f) 0.5) eqn:E2.
    + apply Qgtb_gt in E2. rewrite inject_Z_plus.
      change (inject_Z 1) with 1. split; lra.
    + apply Qgtb_le in E2.
      destruct (Z.even f); [split; lra|].
      rewrite inject_Z_plus. change (inject_Z 1) with 1. split; lra.
Qed.

(** The binade of a number starts at or below it. *)
Lemma binade_le (x : Q) : ~ x == 0 -> 2 ^ binade x <= Qabs x.
Proof.
  intros Hx. unfold binade.
  set (p := Z.abs (Qnum x)). set (q := Zpos (Qden x)).
  destruct (Qleb (2 ^ (Z.log2 p - Z.log2 q)) (Qabs x)) eqn:E;
    [by apply Qleb_le in E|]. clear E.
  assert (Hp : (0 < p)%Z).
  { subst p. destruct x as [[|n|n] d]; [|cbn; lia|cbn; lia].
    exfalso. apply Hx. reflexivity. }
  assert (Hq : (0 < q)%Z) by (subst q; lia).
  destruct (Z.log2_spec p Hp) as [Hp1 _].
  destruct (Z.log2_spec q Hq) as [_ Hq2].
  pose proof (Z.log2_nonneg p) as Lp. pose proof (Z.log2_nonneg q) as Lq.
  assert (Habs : Qabs x == inject_Z p / inject_Z q).
  { subst p q. destruct x as [n d]. unfold Qabs. cbn [Qnum Qden].
    rewrite (Qmake_Qdiv (Z.abs n) d). reflexivity. }
  rewrite Habs.
  replace (Z.log2 p - Z.log2 q - 1)%Z
    with (Z.log2 p + - Z.succ (Z.log2 q))%Z by lia.
  rewrite pow2_add, Qpower_opp, <- !pow2_inject by lia.
  assert (H1 : inject_Z (2 ^ Z.log2 p) <= inject_Z p) by (by rewrite <- Zle_Qle).
  assert (H2 : inject_Z q < inject_Z (2 ^ Z.succ (Z.log2 q)))
    by (by rewrite <- Zlt_Qlt).
  assert (H3 : 0 < inject_Z q)
    by (change 0 with (inject_Z 0); by rewrite <- Zlt_Qlt).
  assert (H4 : 0 < inject_Z (2 ^ Z.log2 p)).
  { change 0 with (inject_Z 0). rewrite <- Zlt_Qlt.
    apply Z.pow_pos_nonneg; lia. }
  set (a := inject_Z (2 ^ Z.log2 p)) in *.
  set (b := inject_Z (2 ^ Z.succ (Z.log2 q))) in *.
  set (P := inject_Z p) in *. set (Q' := inject_Z q) in *.
  apply Qle_shift_div_l; [exact H3|].
  assert (Hb : 0 < b) by lra.
  assert (E : a * / b * Q' == a * (Q' / b)) by (field; lra).
  rewrite E.
  assert (Hfrac : Q' / b <= 1).
  { apply Qle_shift_div_r; [exact Hb|]. lra. }
  nra.
Qed.

(** [round53] has a relative error of at most the unit roundoff. *)
Lemma round53_error : rounds_to_nearest round53.
Proof.
  intros x. unfold round53.
  destruct (Qeq_bool x 0) eqn:E0.
  - apply Qeq_bool_iff in E0. rewrite E0. vm_compute. discriminate.
  - assert (Hx : ~ x == 0).
    { intros H. apply Qeq_bool_iff in H. congruence. }
    pose proof (binade_le x Hx) as Hlo.
    pose proof (pow2_pos (binade x - 52)) as Hulp.
    assert (Hsplit : 2 ^ binade x == 2 ^ (binade x - 52) * inject_Z (2 ^ 52)).
    { rewrite pow2_inject by lia. rewrite <- pow2_add. f_equiv. lia. }
    set (ulp := 2 ^ (binade x - 52)) in *.
    pose proof (round_half_even_error (Qabs x / ulp)) as Herr.
    set (m := inject_Z (round_half_even (Qabs x / ulp))) in *.
    apply Qabs_Qle_condition in Herr as [Herr1 Herr2].
    assert (Hscaled : Qabs x / ulp * ulp == Qabs x) by (field; lra).
    assert (H1 : - (1 # 2) * ulp <= m * ulp - Qabs x) by nra.
    assert (H2 : m * ulp - Qabs x <= (1 # 2) * ulp) by nra.
    assert (Hu : (1 # 2) * ulp <= unit_roundoff * Qabs x).
    { unfold unit_roundoff.
      change (inject_Z (2 ^ 53)) with (2 * inject_Z (2 ^ 52)).
      set (c := inject_Z (2 ^ 52)) in *.
      assert (Hc : 0 < c) by (subst c; reflexivity).
      assert (E : 1 / (2 * c) * Qabs x == (1 # 2) * (Qabs x / c))
        by (field; lra).
      rewrite E.
      assert (ulp <= Qabs x / c); [|lra].
      apply Qle_shift_div_l; [exact Hc|]. lra. }
    destruct (Qltb x 0) eqn:Es.
    + apply Qltb_lt in Es.
      assert (Ha : Qabs x == - x) by (apply Qabs_neg; lra).
      apply Qabs_Qle_condition. split; lra.
    + apply Qltb_ge in Es.
      assert (Ha : Qabs x == x) by (apply Qabs_pos; lra).
      apply Qabs_Qle_condition. split; lra.
Qed.

End RoundingFacts.

(** ** The levels in rounded arithmetic *)

Section RoundedFacts.
Local Open Scope Q_scope.
Variable fl : Q -> Q.
Hypothesis fl_near : rounds_to_nearest fl.

Lemma unit_roundoff_value : unit_roundoff == 1 # 9007199254740992.
Proof. reflexivity. Qed.

Lemma fl_pos (x : Q) :
  0 <= x ->
  (9007199254740991 # 9007199254740992) * x <= fl x /\
  fl x <= (9007199254740993 # 9007199254740992) * x.
Proof.
  intros Hx. pose proof (fl_near x) as H.
  rewrite unit_roundoff_value, (Qabs_pos x Hx) in H.
  apply Qabs_Qle_condition in H. lra.
Qed.

Lemma fl_neg (x : Q) :
  x <= 0 ->
  (9007199254740993 # 9007199254740992) * x <= fl x /\
  fl x <= (9007199254740991 # 9007199254740992) * x.
Proof.
  intros Hx. pose proof (fl_near x) as H.
  rewrite unit_roundoff_value, (Qabs_neg x Hx) in H.
  apply Qabs_Qle_condition in H. lra.
Qed.

(** The rounded difference of two numbers has the size of their distance. *)
Lemma fl_distance (a b : Q) :
  b <= a ->
  (9007199254740991 # 9007199254740992) * (a - b) <= Qabs (fl (a - b)) /\
  Qabs (fl (a - b)) <= (9007199254740993 # 9007199254740992) * (a - b) /\
  (9007199254740991 # 9007199254740992) * (a - b) <= Qabs (fl (b - a)) /\
  Qabs (fl (b - a)) <= (9007199254740993 # 9007199254740992) * (a - b).
Proof.
  intros Hab.
  destruct (fl_pos (a - b)) as [H1 H2]; [lra|].
  destruct (fl_neg (b - a)) as [H3 H4]; [lra|].
  rewrite (Qabs_pos (fl (a - b))) by lra.
  rewrite (Qabs_neg (fl (b - a))) by lra. lra.
Qed.

(** The price times a rounded literal. *)
Lemma fl_scaled (current_price k : Q) :
  0 < current_price -> 0 < k ->
  (9007199254740990 # 9007199254740992) * (k * current_price)
  <= fl (current_price * fl k) /\
  fl (current_price * fl k)
  <= (9007199254740995 # 9007199254740992) * (k * current_price).
Proof.
  intros Hp Hk.
  destruct (fl_pos k) as [K1 K2]; [lra|].
  assert (Hprod : 0 <= current_price * fl k) by nra.
  destruct (fl_pos (current_price * fl k) Hprod) as [P1 P2].
  split; nra.
Qed.

(** The outcome of the test [reward / risk < 1.5] in terms of the exact
    quotient. *)
Lemma ratio_test (reward risk : Q) :
  0 <= reward -> 0 < risk ->
  (Qltb (fl (reward / risk)) 1.5 = true ->
   (9007199254740991 # 9007199254740992) * reward < 1.5 * risk) /\
  (Qltb (fl (reward / risk)) 1.5 = false ->
   1.5 * risk <= (9007199254740993 # 9007199254740992) * reward).
Proof.
  intros Hreward Hrisk.
  assert (Hq : 0 <= reward / risk).
  { apply Qle_shift_div_l; [exact Hrisk | lra]. }
  destruct (fl_pos (reward / risk) Hq) as [Q1 Q2].
  assert (E : reward / risk * risk == reward) by (field; lra).
  set (q := reward / risk) in *. split.
  - intros Hlt. apply Qltb_lt in Hlt. rewrite <- E. nra.
  - intros Hge. apply Qltb_ge in Hge. rewrite <- E. nra.
Qed.

(** The recomputed take-profit of a BUY whose stop-loss is at least 1.4%
    below the price: its distance from the price is 1.5 times the distance
    of the stop-loss, up to a relative error of 52 unit roundoffs. *)
Lemma recomputed_buy (current_price stop_loss : Q) :
  0 < current_price -> stop_loss <= 0.986 * current_price ->
  let risk := rounded_risk fl current_price stop_loss in
  let take_profit := fl (current_price + fl (risk * 1.5)) in
  0 < risk /\
  (1 - 52 * unit_roundoff) * (1.5 * (current_price - stop_loss))
  <= take_profit - current_price /\
  take_profit - current_price
  <= (1 + 52 * unit_roundoff) * (1.5 * (current_price - stop_loss)).
Proof.
  intros Hp Hsl risk take_profit. subst risk take_profit.
  unfold rounded_risk. rewrite unit_roundoff_value.
  destruct (fl_distance current_price stop_loss) as (R1 & R2 & _); [lra|].
  set (r := Qabs (fl (current_price - stop_loss))) in *.
  destruct (fl_pos (r * 1.5)) as [A1 A2]; [lra|].
  set (a := fl (r * 1.5)) in *.
  destruct (fl_pos (current_price + a)) as [T1 T2]; [lra|].
  repeat split; lra.
Qed.

(** The mirror image for a SELL whose stop-loss is at least 1.4% above the
    price. *)
Lemma recomputed_sell (current_price stop_loss : Q) :
  0 < current_price -> 1.014 * current_price <= stop_loss ->
  let risk := rounded_risk fl current_price stop_loss in
  let take_profit := fl (current_price - fl (risk * 1.5)) in
  0 < risk /\
  (1 - 52 * unit_roundoff) * (1.5 * (stop_loss - current_price))
  <= current_price - take_profit /\
  current_price - take_profit
  <= (1 + 52 * unit_roundoff) * (1.5 * (stop_loss - current_price)).
Proof.
  intros Hp Hsl risk take_profit. subst risk take_profit.
  unfold rounded_risk. rewrite unit_roundoff_value.
  destruct (fl_distance stop_loss current_price) as (_ & _ & R1 & R2); [lra|].
  set (r := Qabs (fl (current_price - stop_loss))) in *.
  destruct (fl_pos (r * 1.5)) as [A1 A2]; [lra|].
  set (a := fl (r * 1.5)) in *.
  destruct (Qlt_le_dec (current_price - a) 0) as [Hneg|Hpos].
  - destruct (fl_neg (current_price - a)) as [T1 T2]; [lra|].
    repeat split; lra.
  - destruct (fl_pos (current_price - a) Hpos) as [T1 T2].
    repeat split; lra.
Qed.

(** The later stages keep the signal. *)
Lemma rounded_integration_keeps (forecast : option (Q * Q)) (d : decision)
    (support_zone resistance_zone : Q * Q) (current_price : Q) :
  signal_type (rounded_forecast_integration fl forecast d support_zone
                 resistance_zone current_price) = signal_type d.
Proof.
  unfold rounded_forecast_integration.
  destruct (negb _); [|done].
  destruct forecast as [[forecast_tp forecast_sl]|]; [|done].
  by destruct (String.eqb _ _).
Qed.

Lemma rounded_adjustment_keeps (d : decision) (current_price : Q) :
  signal_type (rounded_risk_reward_adjustment fl d current_price)
  = signal_type d.
Proof.
  unfold rounded_risk_reward_adjustment.
  destruct (negb _); [|done].
  destruct (sl d), (tp d); try done. by destruct (_ && _).
Qed.

(** The levels of a BUY through the three stages. *)
Lemma rounded_buy_levels (c : conditions) (forecast : option (Q * Q))
    (support_zone resistance_zone : Q * Q) (current_price : Q) :
  0 < current_price ->
  signal_type (rounded_final fl c forecast support_zone resistance_zone
                 current_price) = "BUY" ->
  exists k_sl k_tp sl_derived tp_derived sl_refined tp_refined tp_final,
    (strong_bullish c = true /\ k_sl = 0.985 /\ k_tp = 1.015 \/
     strong_bullish c = false /\ k_sl = 0.98 /\ k_tp = 1.02) /\
    sl_derived = py_min (fst support_zone) (fl (current_price * fl k_sl)) /\
    tp_derived = py_max (snd resistance_zone) (fl (current_price * fl k_tp)) /\
    sl (rounded_derived fl c support_zone resistance_zone current_price)
    = Some sl_derived /\
    tp (rounded_derived fl c support_zone resistance_zone current_price)
    = Some tp_derived /\
    sl (rounded_refined fl c forecast support_zone resistance_zone
          current_price) = Some sl_refined /\
    tp (rounded_refined fl c forecast support_zone resistance_zone
          current_price) = Some tp_refined /\
    sl (rounded_final fl c forecast support_zone resistance_zone
          current_price) = Some sl_refined /\
    tp (rounded_final fl c forecast support_zone resistance_zone
          current_price) = Some tp_final /\
    sl_refined <= sl_derived /\
    sl_derived <= 0.986 * current_price /\
    1.014 * current_price <= tp_derived /\
    tp_derived <= tp_refined /\
    (Qltb (fl (rounded_reward fl current_price tp_refined
               / rounded_risk fl current_price sl_refined)) 1.5 = true /\
     tp_final = fl (current_price
                    + fl (rounded_risk fl current_price sl_refined * 1.5)) \/
     Qltb (fl (rounded_reward fl current_price tp_refined
               / rounded_risk fl current_price sl_refined)) 1.5 = false /\
     tp_final = tp_refined).
Proof.
  intros Hp.
  destruct (fl_scaled current_price 0.985 Hp) as [A1 A2]; [lra|].
  destruct (fl_scaled current_price 0.98 Hp) as [B1 B2]; [lra|].
  destruct (fl_scaled current_price 1.015 Hp) as [C1 C2]; [lra|].
  destruct (fl_scaled current_price 1.02 Hp) as [D1 D2]; [lra|].
  assert (Hcases :
    (exists k_sl k_tp,
       (strong_bullish c = true /\ k_sl = 0.985 /\ k_tp = 1.015 \/
        strong_bullish c = false /\ k_sl = 0.98 /\ k_tp = 1.02) /\
       rounded_derived fl c support_zone resistance_zone current_price
       = {| signal_type := "BUY";
            confidence :=
              confidence (rounded_derived fl c support_zone resistance_zone
                            current_price);
            sl := Some (py_min (fst support_zone)
                               (fl (current_price * fl k_sl)));
            tp := Some (py_max (snd resistance_zone)
                               (fl (current_price * fl k_tp))) |}) \/
    signal_type (rounded_derived fl c support_zone resistance_zone
                   current_price) <> "BUY").
  { unfold rounded_derived, rounded_signal_generation, strong_bullish.
    destruct (bullish_price c && bullish_ema c && bullish_momentum c);
      [left; exists 0.985, 1.015; split; [by left | done]|].
    destruct (bearish_price c && bearish_ema c && bearish_momentum c);
      [by right|].
    destruct ((2 <=? bullish_points c)%nat && not_overbought c);
      [left; exists 0.98, 1.02; split; [by right | done]|].
    destruct ((2 <=? bearish_points c)%nat && not_oversold c); by right. }
  unfold rounded_final, rounded_refined.
  destruct Hcases as [(k_sl & k_tp & Hk & ->)|Hnot].
  - intros _.
    set (sl_d := py_min (fst support_zone) (fl (current_price * fl k_sl))).
    set (tp_d := py_max (snd resistance_zone) (fl (current_price * fl k_tp))).
    assert (Hsl_d : sl_d <= 0.986 * current_price).
    { subst sl_d. eapply Qle_trans; [apply py_min_le_r|].
      destruct Hk as [(_ & -> & _)|(_ & -> & _)]; lra. }
    assert (Htp_d : 1.014 * current_price <= tp_d).
    { subst tp_d. eapply Qle_trans; [|apply py_max_ge_r].
      destruct Hk as [(_ & _ & ->)|(_ & _ & ->)]; lra. }
    assert (Hsl98 : fl (current_price * fl 0.98) <= fl (current_price * fl k_sl)).
    { destruct Hk as [(_ & -> & _)|(_ & -> & _)]; lra. }
    assert (Htp102 : fl (current_price * fl k_tp) <= fl (current_price * fl 1.02)).
    { destruct Hk as [(_ & _ & ->)|(_ & _ & ->)]; lra. }
    unfold rounded_forecast_integration. cbn [signal_type sl tp negb].
    change (String.eqb "BUY" "NO SIGNAL") with false.
    change (String.eqb "BUY" "BUY") with true. cbn [negb].
    destruct forecast as [[forecast_tp forecast_sl]|].
    + set (sl_f := py_min3 forecast_sl (fst support_zone)
                           (fl (current_price * fl 0.98))).
      set (tp_f := py_max3 forecast_tp (snd resistance_zone)
                           (fl (current_price * fl 1.02))).
      assert (Hsl_f : sl_f <= sl_d).
      { subst sl_f sl_d. eapply Qle_trans; [apply py_min3_le|].
        apply py_min_glb; [apply py_min_le_l|].
        eapply Qle_trans; [apply py_min_le_r | exact Hsl98]. }
      assert (Htp_f : tp_d <= tp_f).
      { subst tp_f tp_d. eapply Qle_trans; [|apply py_max3_ge].
        apply py_max_lub; [apply py_max_ge_l|].
        eapply Qle_trans; [exact Htp102 | apply py_max_ge_r]. }
      unfold rounded_risk_reward_adjustment. cbn [signal_type sl tp negb].
      change (String.eqb "BUY" "NO SIGNAL") with false.
      change (String.eqb "BUY" "BUY") with true. cbn [negb].
      destruct (recomputed_buy current_price sl_f Hp) as (Hrisk & _);
        [lra|].
      apply Qgtb_gt in Hrisk. rewrite Hrisk. cbn [andb].
      destruct (Qltb (fl (rounded_reward fl current_price tp_f
                          / rounded_risk fl current_price sl_f)) 1.5) eqn:E.
      * exists k_sl, k_tp, sl_d, tp_d, sl_f, tp_f. eexists.
        cbn [sl tp]. repeat (split; [done|]). by left.
      * exists k_sl, k_tp, sl_d, tp_d, sl_f, tp_f, tp_f.
        cbn [sl tp]. repeat (split; [done|]). by right.
    + unfold rounded_risk_reward_adjustment. cbn [signal_type sl tp negb].
      change (String.eqb "BUY" "NO SIGNAL") with false.
      change (String.eqb "BUY" "BUY") with true. cbn [negb].
      destruct (recomputed_buy current_price sl_d Hp) as (Hrisk & _);
        [lra|].
      apply Qgtb_gt in Hrisk. rewrite Hrisk. cbn [andb].
      destruct (Qltb (fl (rounded_reward fl current_price tp_d
                          / rounded_risk fl current_price sl_d)) 1.5) eqn:E.
      * exists k_sl, k_tp, sl_d, tp_d, sl_d, tp_d. eexists.
        cbn [sl tp]. repeat (split; [done|]).
        split; [lra|]. split; [done|]. split; [done|]. split; [lra|].
        by left.
      * exists k_sl, k_tp, sl_d, tp_d, sl_d, tp_d, tp_d.
        cbn [sl tp]. repeat (split; [done|]).
        split; [lra|]. split; [done|]. split; [done|]. split; [lra|].
        by right.
  - intros Hbuy. exfalso. apply Hnot.
    by rewrite rounded_adjustment_keeps, rounded_integration_keeps in Hbuy.
Qed.

(** The mirror image for a SELL. *)
Lemma rounded_sell_levels (c : conditions) (forecast : option (Q * Q))
    (support_zone resistance_zone : Q * Q) (current_price : Q) :
  0 < current_price ->
  signal_type (rounded_final fl c forecast support_zone resistance_zone
                 current_price) = "SELL" ->
  exists k_sl k_tp sl_derived tp_derived sl_refined tp_refined tp_final,
    (strong_bullish c = false /\ strong_bearish c = true /\
     k_sl = 1.015 /\ k_tp = 0.985 \/
     strong_bearish c = false /\ k_sl = 1.02 /\ k_tp = 0.98) /\
    sl_derived = py_max (snd resistance_zone) (fl (current_price * fl k_sl)) /\
    tp_derived = py_min (fst support_zone) (fl (current_price * fl k_tp)) /\
    sl (rounded_derived fl c support_zone resistance_zone current_price)
    = Some sl_derived /\
    tp (rounded_derived fl c support_zone resistance_zone current_price)
    = Some tp_derived /\
    sl (rounded_refined fl c forecast support_zone resistance_zone
          current_price) = Some sl_refined /\
    tp (rounded_refined fl c forecast support_zone resistance_zone
          current_price) = Some tp_refined /\
    sl (rounded_final fl c forecast support_zone resistance_zone
          current_price) = Some sl_refined /\
    tp (rounded_final fl c forecast support_zone resistance_zone
          current_price) = Some tp_final /\
    sl_derived <= sl_refined /\
    1.014 * current_price <= sl_derived /\
    tp_derived <= 0.986 * current_price /\
    tp_refined <= tp_derived /\
    (Qltb (fl (rounded_reward fl current_price tp_refined
               / rounded_risk fl current_price sl_refined)) 1.5 = true /\
     tp_final = fl (current_price
                    - fl (rounded_risk fl current_price sl_refined * 1.5)) \/
     Qltb (fl (rounded_reward fl current_price tp_refined
               / rounded_risk fl current_price sl_refined)) 1.5 = false /\
     tp_final = tp_refined).
Proof.
  intros Hp.
  destruct (fl_scaled current_price 0.985 Hp) as [A1 A2]; [lra|].
  destruct (fl_scaled current_price 0.98 Hp) as [B1 B2]; [lra|].
  destruct (fl_scaled current_price 1.015 Hp) as [C1 C2]; [lra|].
  destruct (fl_scaled current_price 1.02 Hp) as [D1 D2]; [lra|].
  assert (Hcases :
    (exists k_sl k_tp,
       (strong_bullish c = false /\ strong_bearish c = true /\
        k_sl = 1.015 /\ k_tp = 0.985 \/
        strong_bearish c = false /\ k_sl = 1.02 /\ k_tp = 0.98) /\
       rounded_derived fl c support_zone resistance_zone current_price
       = {| signal_type := "SELL";
            confidence :=
              confidence (rounded_derived fl c support_zone resistance_zone
                            current_price);
            sl := Some (py_max (snd resistance_zone)
                               (fl (current_price * fl k_sl)));
            tp := Some (py_min (fst support_zone)
                               (fl (current_price * fl k_tp))) |}) \/
    signal_type (rounded_derived fl c support_zone resistance_zone
                   current_price) <> "SELL").
  { unfold rounded_derived, rounded_signal_generation, strong_bullish,
      strong_bearish.
    destruct (bullish_price c && bullish_ema c && bullish_momentum c);
      [by right|].
    destruct (bearish_price c && bearish_ema c && bearish_momentum c);
      [left; exists 1.015, 0.985; split; [by left | done]|].
    destruct ((2 <=? bullish_points c)%nat && not_overbought c);
      [by right|].
    destruct ((2 <=? bearish_points c)%nat && not_oversold c);
      [left; exists 1.02, 0.98; split; [by right | done] | by right]. }
  unfold rounded_final, rounded_refined.
  destruct Hcases as [(k_sl & k_tp & Hk & ->)|Hnot].
  - intros _.
    set (sl_d := py_max (snd resistance_zone) (fl (current_price * fl k_sl))).
    set (tp_d := py_min (fst support_zone) (fl (current_price * fl k_tp))).
    assert (Hsl_d : 1.014 * current_price <= sl_d).
    { subst sl_d. eapply Qle_trans; [|apply py_max_ge_r].
      destruct Hk as [(_ & _ & -> & _)|(_ & -> & _)]; lra. }
    assert (Htp_d : tp_d <= 0.986 * current_price).
    { subst tp_d. eapply Qle_trans; [apply py_min_le_r|].
      destruct Hk as [(_ & _ & _ & ->)|(_ & _ & ->)]; lra. }
    assert (Hsl102 : fl (current_price * fl k_sl) <= fl (current_price * fl 1.02)).
    { destruct Hk as [(_ & _ & -> & _)|(_ & -> & _)]; lra. }
    assert (Htp98 : fl (current_price * fl 0.98) <= fl (current_price * fl k_tp)).
    { destruct Hk as [(_ & _ & _ & ->)|(_ & _ & ->)]; lra. }
    unfold rounded_forecast_integration. cbn [signal_type sl tp negb].
    change (String.eqb "SELL" "NO SIGNAL") with false.
    change (String.eqb "SELL" "BUY") with false. cbn [negb].
    destruct forecast as [[forecast_tp forecast_sl]|].
    + set (sl_f := py_max3 forecast_sl (snd resistance_zone)
                           (fl (current_price * fl 1.02))).
      set (tp_f := py_min3 forecast_tp (fst support_zone)
                           (fl (current_price * fl 0.98))).
      assert (Hsl_f : sl_d <= sl_f).
      { subst sl_f sl_d. eapply Qle_trans; [|apply py_max3_ge].
        apply py_max_lub; [apply py_max_ge_l|].
        eapply Qle_trans; [exact Hsl102 | apply py_max_ge_r]. }
      assert (Htp_f : tp_f <= tp_d).
      { subst tp_f tp_d. eapply Qle_trans; [apply py_min3_le|].
        apply py_min_glb; [apply py_min_le_l|].
        eapply Qle_trans; [apply py_min_le_r | exact Htp98]. }
      unfold rounded_risk_reward_adjustment. cbn [signal_type sl tp negb].
      change (String.eqb "SELL" "NO SIGNAL") with false.
      change (String.eqb "SELL" "BUY") with false. cbn [negb].
      destruct (recomputed_sell current_price sl_f Hp) as (Hrisk & _);
        [lra|].
      apply Qgtb_gt in Hrisk. rewrite Hrisk. cbn [andb].
      destruct (Qltb (fl (rounded_reward fl current_price tp_f
                          / rounded_risk fl current_price sl_f)) 1.5) eqn:E.
      * exists k_sl, k_tp, sl_d, tp_d, sl_f, tp_f. eexists.
        cbn [sl tp]. repeat (split; [done|]). by left.
      * exists k_sl, k_tp, sl_d, tp_d, sl_f, tp_f, tp_f.
        cbn [sl tp]. repeat (split; [done|]). by right.
    + unfold rounded_risk_reward_adjustment. cbn [signal_type sl tp negb].
      change (String.eqb "SELL" "NO SIGNAL") with false.
      change (String.eqb "SELL" "BUY") with false. cbn [negb].
      destruct (recomputed_sell current_price sl_d Hp) as (Hrisk & _);
        [lra|].
      apply Qgtb_gt in Hrisk. rewrite Hrisk. cbn [andb].
      destruct (Qltb (fl (rounded_reward fl current_price tp_d
                          / rounded_risk fl current_price sl_d)) 1.5) eqn:E.
      * exists k_sl, k_tp, sl_d, tp_d, sl_d, tp_d. eexists.
        cbn [sl tp]. repeat (split; [done|]).
        split; [lra|]. split; [done|]. split; [done|]. split; [lra|].
        by left.
      * exists k_sl, k_tp, sl_d, tp_d, sl_d, tp_d, tp_d.
        cbn [sl tp]. repeat (split; [done|]).
        split; [lra|]. split; [done|]. split; [done|]. split; [lra|].
        by right.
  - intros Hsell. exfalso. apply Hnot.
    by rewrite rounded_adjustment_keeps, rounded_integration_keeps in Hsell.
Qed.

End RoundedFacts.

(** ** The exact engine is the rounded engine without rounding *)

Section ExactIsUnrounded.
Local Open Scope Q_scope.

Lemma signal_generation_unrounded (c : conditions)
    (support_zone resistance_zone : Q * Q) (price : Q) :
  rounded_signal_generation (fun x => x) c support_zone resistance_zone price
  = signal_generation c support_zone resistance_zone price.
Proof. reflexivity. Qed.

Lemma forecast_integration_unrounded (df : DataFrame) (d : decision)
    (support_zone resistance_zone : Q * Q) (price : Q) :
  rounded_forecast_integration (fun x => x) (forecast_levels df (signal_type d))
                               d support_zone resistance_zone price
  = forecast_integration df d support_zone resistance_zone price.
Proof.
  unfold rounded_forecast_integration, forecast_integration, forecast_levels.
  destruct (negb _); [|reflexivity].
  destruct (forecast_prices df 30); [|reflexivity].
  destruct (String.eqb (signal_type d) "BUY"); reflexivity.
Qed.

Lemma risk_reward_adjustment_unrounded (d : decision) (price : Q) :
  rounded_risk_reward_adjustment (fun x => x) d price
  = risk_reward_adjustment d price.
Proof. reflexivity. Qed.

Lemma final_decision_unrounded (ta : ta_lib) (df : DataFrame) :
  let ind := compute_indicators ta df in
  final_decision ta df
  = rounded_final (fun x => x) (conditions_of ta df)
                  (forecast_levels df (signal_type (derived_decision ta df)))
                  (support_zone ind) (resistance_zone ind) (current_price ind).
Proof.
  intros ind. unfold final_decision, refined_decision, derived_decision.
  fold ind.
  generalize (conditions_of ta df), (support_zone ind), (resistance_zone ind),
    (current_price ind).
  intros c support resistance price.
  rewrite <- forecast_integration_unrounded. reflexivity.
Qed.

End ExactIsUnrounded.

(** ** Risk-reward normalization and widening in binary64 arithmetic *)

Section RoundedClaims.
Local Open Scope Q_scope.
Variable fl : Q -> Q.
Hypothesis fl_near : rounds_to_nearest fl.

(** Amended C1: in rounded arithmetic (binary64 without overflow and
    underflow), a BUY or SELL decided at a positive price has a stop-loss at
    a positive distance from the price and a take-profit with
    [|take_profit - price| / |stop_loss - price| >= 1.5 * (1 - 2^-47)];
    when the ratio computed before the adjustment is not below 1.5 the
    take-profit is kept, and when it is below 1.5 the take-profit is the
    rounded [price + risk * 1.5] for BUY and [price - risk * 1.5] for SELL,
    which puts the ratio within a relative [2^-47] of 1.5. *)
Theorem risk_reward_up_to_rounding (c : conditions)
    (forecast : option (Q * Q)) (support_zone resistance_zone : Q * Q)
    (price : Q) :
  let final := rounded_final fl c forecast support_zone resistance_zone price in
  let refined :=
    rounded_refined fl c forecast support_zone resistance_zone price in
  0 < price ->
  signal_type final = "BUY" \/ signal_type final = "SELL" ->
  exists take_profit stop_loss raw_take_profit,
    tp final = Some take_profit /\
    sl final = Some stop_loss /\
    tp refined = Some raw_take_profit /\
    sl refined = Some stop_loss /\
    0 < Qabs (price - stop_loss) /\
    1.5 * (1 - 64 * unit_roundoff)
    <= reward_risk price take_profit stop_loss /\
    let raw_ratio :=
      fl (rounded_reward fl price raw_take_profit
          / rounded_risk fl price stop_loss) in
    (1.5 <= raw_ratio -> take_profit = raw_take_profit) /\
    (raw_ratio < 1.5 ->
     reward_risk price take_profit stop_loss
     <= 1.5 * (1 + 64 * unit_roundoff) /\
     (signal_type final = "BUY" ->
      take_profit = fl (price + fl (rounded_risk fl price stop_loss * 1.5))) /\
     (signal_type final = "SELL" ->
      take_profit = fl (price - fl (rounded_risk fl price stop_loss * 1.5)))).
Proof.
  intros final refined Hprice [Hsig|Hsig]; subst final refined.
  - destruct (rounded_buy_levels fl fl_near c forecast support_zone
                resistance_zone price Hprice Hsig)
      as (ks & kt & sl_d & tp_d & sl_f & tp_f & tp_final & _ & _ & _ & _ & _
          & Hsl_f & Htp_f & Hsl & Htp & H1 & H2 & H3 & H4 & Hadj).
    exists tp_final, sl_f, tp_f. rewrite Hsig.
    repeat (split; [assumption|]).
    destruct (recomputed_buy fl fl_near price sl_f Hprice) as (Hrisk & R1 & R2);
      [lra|].
    rewrite unit_roundoff_value in R1, R2. cbv zeta.
    rewrite !unit_roundoff_value.
    assert (Hdist : Qabs (price - sl_f) == price - sl_f)
      by (apply Qabs_diff_pos; lra).
    assert (Hdist' : Qabs (sl_f - price) == price - sl_f)
      by (apply Qabs_diff_neg; lra).
    split; [rewrite Hdist; lra|].
    destruct (fl_distance fl fl_near tp_f price) as (W1 & W2 & _); [lra|].
    destruct (fl_distance fl fl_near price sl_f) as (V1 & V2 & _); [lra|].
    fold (rounded_reward fl price tp_f) in W1, W2.
    fold (rounded_risk fl price sl_f) in V1, V2.
    destruct (ratio_test fl fl_near (rounded_reward fl price tp_f)
                (rounded_risk fl price sl_f)) as [Tlt Tge];
      [apply Qabs_nonneg | exact Hrisk |].
    unfold reward_risk. cbv zeta. rewrite Hdist'.
    destruct Hadj as [[Hlt ->]|[Hge ->]].
    + specialize (Tlt Hlt).
      rewrite (Qabs_pos (_ - price)) by lra.
      split; [apply Qle_shift_div_l; lra|].
      split; [intros Hraw; apply Qltb_lt in Hlt; lra|].
      intros _. split; [apply Qle_shift_div_r; lra|].
      split; [done | intros [=]].
    + specialize (Tge Hge).
      rewrite (Qabs_pos (tp_f - price)) by lra.
      split; [apply Qle_shift_div_l; lra|].
      split; [done|]. intros Hraw. apply Qltb_ge in Hge. lra.
  - destruct (rounded_sell_levels fl fl_near c forecast support_zone
                resistance_zone price Hprice Hsig)
      as (ks & kt & sl_d & tp_d & sl_f & tp_f & tp_final & _ & _ & _ & _ & _
          & Hsl_f & Htp_f & Hsl & Htp & H1 & H2 & H3 & H4 & Hadj).
    exists tp_final, sl_f, tp_f. rewrite Hsig.
    repeat (split; [assumption|]).
    destruct (recomputed_sell fl fl_near price sl_f Hprice)
      as (Hrisk & R1 & R2); [lra|].
    rewrite unit_roundoff_value in R1, R2. cbv zeta.
    rewrite !unit_roundoff_value.
    assert (Hdist : Qabs (price - sl_f) == sl_f - price)
      by (apply Qabs_diff_neg; lra).
    assert (Hdist' : Qabs (sl_f - price) == sl_f - price)
      by (apply Qabs_diff_pos; lra).
    split; [rewrite Hdist; lra|].
    destruct (fl_distance fl fl_near price tp_f) as (_ & _ & W1 & W2); [lra|].
    destruct (fl_distance fl fl_near sl_f price) as (_ & _ & V1 & V2); [lra|].
    fold (rounded_reward fl price tp_f) in W1, W2.
    fold (rounded_risk fl price sl_f) in V1, V2.
    destruct (ratio_test fl fl_near (rounded_reward fl price tp_f)
                (rounded_risk fl price sl_f)) as [Tlt Tge];
      [apply Qabs_nonneg | exact Hrisk |].
    unfold reward_risk. cbv zeta. rewrite Hdist'.
    destruct Hadj as [[Hlt ->]|[Hge ->]].
    + specialize (Tlt Hlt).
      rewrite (Qabs_diff_neg _ price) by lra.
      split; [apply Qle_shift_div_l; lra|].
      split; [intros Hraw; apply Qltb_lt in Hlt; lra|].
      intros _. split; [apply Qle_shift_div_r; lra|].
      split; [intros [=] | done].
    + specialize (Tge Hge).
      rewrite (Qabs_diff_neg tp_f price) by lra.
      split; [apply Qle_shift_div_l; lra|].
      split; [done|]. intros Hraw. apply Qltb_ge in Hge. lra.
Qed.

(** Amended C7: in rounded arithmetic (binary64 without overflow and
    underflow), the levels derived for a signal at a positive price are
    [sl = min(support_low, price * 0.985)] and
    [tp = max(resistance_high, price * 1.015)] for a strong BUY, with 0.98
    and 1.02 for a medium BUY, and the mirror image for SELL.  The final
    stop-loss is at or beyond the derived one, and the take-profit after
    forecast refinement at or beyond the derived one.  The risk-reward
    stage keeps that take-profit when the computed ratio is not below 1.5;
    otherwise it recomputes it, at a distance from the price of at least
    [1 - 2^-47] times the distance before: it is wider but for rounding. *)
Theorem levels_widened_up_to_rounding (c : conditions)
    (forecast : option (Q * Q)) (support_zone resistance_zone : Q * Q)
    (price : Q) :
  let derived := rounded_derived fl c support_zone resistance_zone price in
  let refined :=
    rounded_refined fl c forecast support_zone resistance_zone price in
  let final := rounded_final fl c forecast support_zone resistance_zone price in
  0 < price ->
  (signal_type final = "BUY" ->
   exists k_sl k_tp sl_derived tp_derived tp_refined sl_final tp_final,
     (strong_bullish c = true /\ k_sl = 0.985 /\ k_tp = 1.015 \/
      strong_bullish c = false /\ k_sl = 0.98 /\ k_tp = 1.02) /\
     sl_derived = py_min (fst support_zone) (fl (price * fl k_sl)) /\
     tp_derived = py_max (snd resistance_zone) (fl (price * fl k_tp)) /\
     sl derived = Some sl_derived /\
     tp derived = Some tp_derived /\
     tp refined = Some tp_refined /\
     sl final = Some sl_final /\
     tp final = Some tp_final /\
     sl_final <= sl_derived /\
     sl_derived < price /\
     price < tp_derived /\
     tp_derived <= tp_refined /\
     (1 - 64 * unit_roundoff) * (tp_refined - price) <= tp_final - price /\
     (1.5 <= fl (rounded_reward fl price tp_refined
                 / rounded_risk fl price sl_final) ->
      tp_final = tp_refined)) /\
  (signal_type final = "SELL" ->
   exists k_sl k_tp sl_derived tp_derived tp_refined sl_final tp_final,
     (strong_bearish c = true /\ k_sl = 1.015 /\ k_tp = 0.985 \/
      strong_bearish c = false /\ k_sl = 1.02 /\ k_tp = 0.98) /\
     sl_derived = py_max (snd resistance_zone) (fl (price * fl k_sl)) /\
     tp_derived = py_min (fst support_zone) (fl (price * fl k_tp)) /\
     sl derived = Some sl_derived /\
     tp derived = Some tp_derived /\
     tp refined = Some tp_refined /\
     sl final = Some sl_final /\
     tp final = Some tp_final /\
     sl_derived <= sl_final /\
     price < sl_derived /\
     tp_derived < price /\
     tp_refined <= tp_derived /\
     (1 - 64 * unit_roundoff) * (price - tp_refined) <= price - tp_final /\
     (1.5 <= fl (rounded_reward fl price tp_refined
                 / rounded_risk fl price sl_final) ->
      tp_final = tp_refined)).
Proof.
  intros derived refined final Hprice. subst derived refined final.
  split; intros Hsig.
  - destruct (rounded_buy_levels fl fl_near c forecast support_zone
                resistance_zone price Hprice Hsig)
      as (ks & kt & sl_d & tp_d & sl_f & tp_f & tp_final & Hk & Hd1 & Hd2
          & Hsl_d & Htp_d & Hsl_f & Htp_f & Hsl & Htp & H1 & H2 & H3 & H4
          & Hadj).
    exists ks, kt, sl_d, tp_d, tp_f, sl_f, tp_final.
    repeat (split; [assumption|]).
    split; [lra|]. split; [lra|]. split; [assumption|].
    destruct (recomputed_buy fl fl_near price sl_f Hprice) as (Hrisk & R1 & _);
      [lra|].
    rewrite unit_roundoff_value in R1. rewrite unit_roundoff_value.
    destruct (fl_distance fl fl_near tp_f price) as (W1 & _); [lra|].
    destruct (fl_distance fl fl_near price sl_f) as (_ & V2 & _); [lra|].
    fold (rounded_reward fl price tp_f) in W1.
    fold (rounded_risk fl price sl_f) in V2.
    destruct (ratio_test fl fl_near (rounded_reward fl price tp_f)
                (rounded_risk fl price sl_f)) as [Tlt _];
      [apply Qabs_nonneg | exact Hrisk |].
    destruct Hadj as [[Hlt ->]|[Hge ->]].
    + specialize (Tlt Hlt). split; [lra|].
      intros Hraw. apply Qltb_lt in Hlt. lra.
    + split; [lra | done].
  - destruct (rounded_sell_levels fl fl_near c forecast support_zone
                resistance_zone price Hprice Hsig)
      as (ks & kt & sl_d & tp_d & sl_f & tp_f & tp_final & Hk & Hd1 & Hd2
          & Hsl_d & Htp_d & Hsl_f & Htp_f & Hsl & Htp & H1 & H2 & H3 & H4
          & Hadj).
    exists ks, kt, sl_d, tp_d, tp_f, sl_f, tp_final.
    split; [destruct Hk as [(_ & ? & ? & ?)|(? & ? & ?)]; [by left | by right]|].
    repeat (split; [assumption|]).
    split; [lra|]. split; [lra|]. split; [assumption|].
    destruct (recomputed_sell fl fl_near price sl_f Hprice)
      as (Hrisk & R1 & _); [lra|].
    rewrite unit_roundoff_value in R1. rewrite unit_roundoff_value.
    destruct (fl_distance fl fl_near price tp_f) as (_ & _ & W1 & _); [lra|].
    destruct (fl_distance fl fl_near sl_f price) as (_ & _ & _ & V2); [lra|].
    fold (rounded_reward fl price tp_f) in W1.
    fold (rounded_risk fl price sl_f) in V2.
    destruct (ratio_test fl fl_near (rounded_reward fl price tp_f)
                (rounded_risk fl price sl_f)) as [Tlt _];
      [apply Qabs_nonneg | exact Hrisk |].
    destruct Hadj as [[Hlt ->]|[Hge ->]].
    + specialize (Tlt Hlt). split; [lra|].
      intros Hraw. apply Qltb_lt in Hlt. lra.
    + split; [lra | done].
Qed.

End RoundedClaims.

Section RoundedWitnesses.
Local Open Scope Q_scope.

(** The strong BUY at price 159 over the support low 119.9: the ratio before
    the adjustment is below 1.5 and the take-profit is recomputed. *)
Lemma risk_reward_up_to_rounding_witness :
  let support_low := round53 119.9 in
  let final :=
    rounded_final round53 strong_buy_flags (Some (180, 152))
                  (support_low, support_low * 1.02) (160, 162) 159 in
  let refined :=
    rounded_refined round53 strong_buy_flags (Some (180, 152))
                    (support_low, support_low * 1.02) (160, 162) 159 in
  exists take_profit stop_loss raw_take_profit,
    tp final = Some take_profit /\
    sl final = Some stop_loss /\
    tp refined = Some raw_take_profit /\
    sl refined = Some stop_loss /\
    (0 < Qabs (159 - stop_loss))%Q /\
    (1.5 * (1 - 64 * unit_roundoff)
     <= reward_risk 159 take_profit stop_loss)%Q /\
    let raw_ratio :=
      round53 (rounded_reward round53 159 raw_take_profit
               / rounded_risk round53 159 stop_loss) in
    ((1.5 <= raw_ratio)%Q -> take_profit = raw_take_profit) /\
    ((raw_ratio < 1.5)%Q ->
     (reward_risk 159 take_profit stop_loss
      <= 1.5 * (1 + 64 * unit_roundoff))%Q /\
     (signal_type final = "BUY" ->
      take_profit
      = round53 (159 + round53 (rounded_risk round53 159 stop_loss * 1.5))%Q) /\
     (signal_type final = "SELL" ->
      take_profit
      = round53 (159 - round53 (rounded_risk round53 159 stop_loss * 1.5))%Q)).
Proof.
  intros support_low.
  apply (risk_reward_up_to_rounding round53 round53_error strong_buy_flags
           (Some (180, 152)) (support_low, support_low * 1.02) (160, 162)
           159);
    [reflexivity | left; vm_compute; reflexivity].
Defined.

(** A strong BUY whose take-profit is recomputed one unit in the last place
    nearer to the price, and a strong SELL at price 100 whose take-profit is
    moved from 90 to 85. *)
Lemma levels_widened_up_to_rounding_witness :
  let price := round53 49659.504206356105 in
  let support := (round53 2942.8949472675413,
                  round53 2942.8949472675413 * 1.02)%Q in
  let resistance := (round53 119734.41809498896 * 0.98,
                     round53 119734.41809498896)%Q in
  let buy_derived :=
    rounded_derived round53 strong_buy_flags support resistance price in
  let buy_refined :=
    rounded_refined round53 strong_buy_flags (Some (52000, 47000))
                    support resistance price in
  let buy_final :=
    rounded_final round53 strong_buy_flags (Some (52000, 47000))
                  support resistance price in
  let sell_derived :=
    rounded_derived round53 strong_sell_flags (90, 91.8) (105, 110) 100 in
  let sell_refined :=
    rounded_refined round53 strong_sell_flags (Some (95, 108))
                    (90, 91.8) (105, 110) 100 in
  let sell_final :=
    rounded_final round53 strong_sell_flags (Some (95, 108))
                  (90, 91.8) (105, 110) 100 in
  (exists k_sl k_tp sl_derived tp_derived tp_refined sl_final tp_final,
     (strong_bullish strong_buy_flags = true /\
      k_sl = 0.985%Q /\ k_tp = 1.015%Q \/
      strong_bullish strong_buy_flags = false /\
      k_sl = 0.98%Q /\ k_tp = 1.02%Q) /\
     sl_derived = py_min (fst support) (round53 (price * round53 k_sl)) /\
     tp_derived = py_max (snd resistance) (round53 (price * round53 k_tp)) /\
     sl buy_derived = Some sl_derived /\
     tp buy_derived = Some tp_derived /\
     tp buy_refined = Some tp_refined /\
     sl buy_final = Some sl_final /\
     tp buy_final = Some tp_final /\
     (sl_final <= sl_derived)%Q /\
     (sl_derived < price)%Q /\
     (price < tp_derived)%Q /\
     (tp_derived <= tp_refined)%Q /\
     ((1 - 64 * unit_roundoff) * (tp_refined - price) <= tp_final - price)%Q /\
     ((1.5 <= round53 (rounded_reward round53 price tp_refined
                       / rounded_risk round53 price sl_final))%Q ->
      tp_final = tp_refined)) /\
  (exists k_sl k_tp sl_derived tp_derived tp_refined sl_final tp_final,
     (strong_bearish strong_sell_flags = true /\
      k_sl = 1.015%Q /\ k_tp = 0.985%Q \/
      strong_bearish strong_sell_flags = false /\
      k_sl = 1.02%Q /\ k_tp = 0.98%Q) /\
     sl_derived = py_max 110 (round53 (100 * round53 k_sl)) /\
     tp_derived = py_min 90 (round53 (100 * round53 k_tp)) /\
     sl sell_derived = Some sl_derived /\
     tp sell_derived = Some tp_derived /\
     tp sell_refined = Some tp_refined /\
     sl sell_final = Some sl_final /\
     tp sell_final = Some tp_final /\
     (sl_derived <= sl_final)%Q /\
     (100 < sl_derived)%Q /\
     (tp_derived < 100)%Q /\
     (tp_refined <= tp_derived)%Q /\
     ((1 - 64 * unit_roundoff) * (100 - tp_refined) <= 100 - tp_final)%Q /\
     ((1.5 <= round53 (rounded_reward round53 100 tp_refined
                       / rounded_risk round53 100 sl_final))%Q ->
      tp_final = tp_refined)).
Proof.
  split.
  - apply (proj1 (levels_widened_up_to_rounding round53 round53_error
                    strong_buy_flags (Some (52000, 47000)%Q)
                    (round53 2942.8949472675413,
                     round53 2942.8949472675413 * 1.02)%Q
                    (round53 119734.41809498896 * 0.98,
                     round53 119734.41809498896)%Q
                    (round53 49659.504206356105)
                    ltac:(vm_compute; reflexivity)));
      vm_compute; reflexivity.
  - apply (proj2 (levels_widened_up_to_rounding round53 round53_error
                    strong_sell_flags (Some (95, 108)%Q) (90, 91.8)%Q
                    (105, 110)%Q 100%Q ltac:(reflexivity)));
      vm_compute; reflexivity.
Defined.

End RoundedWitnesses.

Section RoundingSamples.
Local Open Scope Q_scope.

(** On the sample values [round53] is the rounding of the primitive
    binary64 operations. *)
Example round53_is_binary64 :
  binary64_value support_low_a = Some (round53 119.9) /\
  binary64_value price_b = Some (round53 49659.504206356105) /\
  binary64_value support_low_b = Some (round53 2942.8949472675413) /\
  binary64_value resistance_high_b = Some (round53 119734.41809498896) /\
  binary64_value (binary64_recomputed_buy price_a support_low_a)
  = Some (round53 (159 + round53 (Qabs (round53 (159 - round53 119.9)) * 1.5))).
Proof. vm_compute. repeat split; reflexivity. Qed.

(** C1 fails as stated: a strong BUY at price 159 over a support low of
    119.9 (the binary64 number nearest to it), with the forecast and the
    resistance zone below the target.  The take-profit is recomputed as
    [159 + 39.1 * 1.5], which rounds to 217.64999999999998, and the ratio of
    the returned levels is below 1.5, in exact terms and as binary64
    computes it. *)
Lemma recomputed_ratio_below_bound :
  let support_low := round53 119.9 in
  let final :=
    rounded_final round53 strong_buy_flags (Some (180, 152))
                  (support_low, support_low * 1.02) (160, 162) 159 in
  signal_type final = "BUY" /\
  sl final = Some support_low /\
  tp final = binary64_value (binary64_recomputed_buy price_a support_low_a) /\
  (exists take_profit,
     tp final = Some take_profit /\
     reward_risk 159 take_profit support_low < 1.5) /\
  binary64_ratio_below
    price_a (binary64_recomputed_buy price_a support_low_a) support_low_a
  = true.
Proof.
  vm_compute. repeat split; try reflexivity.
  eexists. split; reflexivity.
Qed.

(** C7 fails as stated: a strong BUY at price 49659.504206356105 with
    support low 2942.8949472675413 and resistance high 119734.41809498896,
    the derived take-profit.  The computed ratio is 1.4999999999999998, and
    the recomputed take-profit 119734.41809498894 is nearer to the price
    than the derived one. *)
Lemma recomputed_target_narrower :
  let price := round53 49659.504206356105 in
  let support_low := round53 2942.8949472675413 in
  let resistance_high := round53 119734.41809498896 in
  let derived :=
    rounded_derived round53 strong_buy_flags (support_low, support_low * 1.02)
                    (resistance_high * 0.98, resistance_high) price in
  let final :=
    rounded_final round53 strong_buy_flags (Some (52000, 47000))
                  (support_low, support_low * 1.02)
                  (resistance_high * 0.98, resistance_high) price in
  signal_type final = "BUY" /\
  tp derived = Some resistance_high /\
  tp final = binary64_value (binary64_recomputed_buy price_b support_low_b) /\
  (exists take_profit,
     tp final = Some take_profit /\ price < take_profit /\
     take_profit < resistance_high) /\
  binary64_ratio_below price_b resistance_high_b support_low_b = true /\
  PrimFloat.ltb (binary64_recomputed_buy price_b support_low_b)
                resistance_high_b = true.
Proof.
  vm_compute. repeat split; try reflexivity.
  eexists. repeat split; reflexivity.
Qed.

End RoundingSamples.

(** ** Properties of the signal engine *)

Section GuardAndDecisionClaims.
Local Open Scope Q_scope.
Variable ta : ta_lib.
Variable chart_written : bool.

(** C2: with no series or fewer than [CANDLE_LIMIT] (50) candles
    [run_strategy] returns the failure result: signal NO SIGNAL, the
    placeholder 0 for both risk levels (no price), an error text in place
    of the snapshot, and the failure flag.  With 50 or more candles it
    returns the same failure result when an EMA value computed by
    [calculate_ema], or the upper or lower Keltner band computed by
    [calculate_keltner_channels], is zero. *)
Theorem guard_stage_rejects (df : option DataFrame) :
  (too_short df -> failure_result (run_strategy ta chart_written df)) /\
  (forall f,
     df = Some f ->
     (CANDLE_LIMIT <= length (rows f))%nat ->
     ema100 (calculate_ema ta f) == 0 \/
     ema200 (calculate_ema ta f) == 0 \/
     fst (fst (calculate_keltner_channels ta f 20)) == 0 \/
     snd (calculate_keltner_channels ta f 20) == 0 ->
     failure_result (run_strategy ta chart_written df)).
Proof.
  split.
  - intros Hshort. apply run_strategy_failure.
    destruct df as [f|]; [|done]. unfold run_strategy.
    simpl in Hshort.
    destruct (Nat.ltb_spec (length (rows f)) CANDLE_LIMIT); [done | lia].
  - intros f -> Hlen Hzero. apply run_strategy_failure.
    unfold run_strategy.
    destruct (_ <? _)%nat; [done|].
    destruct (compute_indicators_fields ta f)
      as (_ & _ & He & Hu & _ & Hl & _).
    destruct (ema_invalid _) eqn:Hema; [done|].
    destruct (keltner_invalid _) eqn:Hkc; [done|].
    exfalso. unfold ema_invalid in Hema. unfold keltner_invalid in Hkc.
    rewrite He in Hema. rewrite Hu, Hl in Hkc.
    apply orb_false_iff in Hema as [H1 H2].
    apply orb_false_iff in Hkc as [H3 H4].
    rewrite <- not_true_iff_false, Qeq_bool_iff in H1, H2, H3, H4.
    tauto.
Qed.

(** C3: a run on at least [CANDLE_LIMIT] candles whose EMA and Keltner
    readings pass the two validity guards succeeds, and its signal is
    decided by the first rung that holds: (a) price-vs-basis, EMA and
    momentum all bullish: BUY; (b) all three bearish: SELL; (c) at least two
    bullish points with RSI < 70 and %K < 80: BUY; (d) at least two bearish
    points with RSI > 30 and %K > 20: SELL; (e) otherwise NO SIGNAL.  Every
    run, on any input, returns one of the signals BUY, SELL and
    NO SIGNAL. *)
Theorem decision_precedence (df : DataFrame) :
  let res := run_strategy ta chart_written (Some df) in
  let c := conditions_of ta df in
  let rsi_last := iloc_neg (calculate_rsi ta df 14) 1 None in
  let stoch_k_last := iloc_neg (fst (calculate_stochastic ta df 14 3)) 1 None in
  let a := bullish_price c && bullish_ema c && bullish_momentum c in
  let b := bearish_price c && bearish_ema c && bearish_momentum c in
  let m := medium_bullish c rsi_last stoch_k_last in
  let n := medium_bearish c rsi_last stoch_k_last in
  (CANDLE_LIMIT <= length (rows df))%nat ->
  ema_invalid (compute_indicators ta df) = false ->
  keltner_invalid (compute_indicators ta df) = false ->
  res.2 = true /\
  (forall input : option DataFrame,
     let any := run_strategy ta chart_written input in
     any.1 !! "signal" = Some (PStr "BUY") \/
     any.1 !! "signal" = Some (PStr "SELL") \/
     any.1 !! "signal" = Some (PStr "NO SIGNAL")) /\
  (a = true -> res.1 !! "signal" = Some (PStr "BUY")) /\
  (a = false -> b = true -> res.1 !! "signal" = Some (PStr "SELL")) /\
  (a = false -> b = false -> m = true ->
   res.1 !! "signal" = Some (PStr "BUY")) /\
  (a = false -> b = false -> m = false -> n = true ->
   res.1 !! "signal" = Some (PStr "SELL")) /\
  (a = false -> b = false -> m = false -> n = false ->
   res.1 !! "signal" = Some (PStr "NO SIGNAL")).
Proof.
  intros res c rsi_last stoch_k_last a b m n Hlen Hema Hkc.
  assert (Hok : res.2 = true).
  { subst res. unfold run_strategy.
    destruct (Nat.ltb_spec (length (rows df)) CANDLE_LIMIT) as [|_]; [lia|].
    rewrite Hema, Hkc. reflexivity. }
  split; [exact Hok|].
  split; [apply run_strategy_signal_values|].
  assert (Hm : m = (2 <=? bullish_points c)%nat && not_overbought c).
  { subst m c rsi_last stoch_k_last. unfold medium_bullish, conditions_of.
    destruct (compute_indicators_fields ta df) as (-> & -> & _). done. }
  assert (Hn : n = (2 <=? bearish_points c)%nat && not_oversold c).
  { subst n c rsi_last stoch_k_last. unfold medium_bearish, conditions_of.
    destruct (compute_indicators_fields ta df) as (-> & -> & _). done. }
  destruct (run_strategy_success ta chart_written df Hok)
    as (_ & _ & _ & Hs & _).
  fold res in Hs. rewrite Hs, final_decision_signal.
  unfold derived_decision. fold c.
  destruct (signal_generation_cases c
              (support_zone (compute_indicators ta df))
              (resistance_zone (compute_indicators ta df))
              (current_price (compute_indicators ta df)))
    as [(Ha & -> & _)
       |[(Ha & Hb & -> & _)
        |[(Ha & Hb & Hc & -> & _)
         |[(Ha & Hb & Hc & Hd & -> & _)|(Ha & Hb & Hc & Hd & -> & _)]]]];
    unfold strong_bullish, strong_bearish in *; fold a in Ha;
    try fold b in Hb; try rewrite <- Hm in Hc; try rewrite <- Hn in Hd;
    repeat split; intros; congruence.
Qed.

(** C5: the voting-stage confidence is
    [max(bullish_points, bearish_points) / 5 * 100], where each count is the
    number of set flags among the five of its side; the final confidence is
    that value, or its maximum with 70 exactly when a strong condition
    (step 4a or 4b) fires; it always lies in [0, 100] and is at least 70
    when a strong condition fires. *)
Theorem confidence_bounds (df : DataFrame) :
  let c := conditions_of ta df in
  let d := final_decision ta df in
  let bulls :=
    count_true [bullish_rsi c; bullish_stoch c; bullish_price c;
                bullish_ema c; bullish_momentum c] in
  let bears :=
    count_true [bearish_rsi c; bearish_stoch c; bearish_price c;
                bearish_ema c; bearish_momentum c] in
  let strong := strong_bullish c || strong_bearish c in
  vote_confidence c == inject_Z (Z.of_nat (Nat.max bulls bears)) / 5 * 100 /\
  confidence d
    = (if strong then py_max 70 (vote_confidence c) else vote_confidence c) /\
  0 <= confidence d /\ confidence d <= 100 /\
  (strong = true -> 70 <= confidence d).
Proof.
  intros c d bulls bears strong.
  assert (Hconf : confidence d
                  = if strong then py_max 70 (vote_confidence c)
                    else vote_confidence c).
  { subst d strong. rewrite final_decision_confidence.
    unfold derived_decision. fold c.
    destruct (signal_generation_cases c
                (support_zone (compute_indicators ta df))
                (resistance_zone (compute_indicators ta df))
                (current_price (compute_indicators ta df)))
      as [(Ha & _ & -> & _)
         |[(Ha & Hb & _ & -> & _)
          |[(Ha & Hb & _ & _ & -> & _)
           |[(Ha & Hb & _ & _ & _ & -> & _)|(Ha & Hb & _ & _ & _ & -> & _)]]]];
      rewrite Ha, ?Hb; reflexivity. }
  pose proof (vote_confidence_range c) as [Hlo Hhi].
  split.
  { unfold vote_confidence, bullish_points, bearish_points.
    rewrite !py_sum_count. reflexivity. }
  split; [exact Hconf|]. rewrite Hconf.
  destruct strong.
  - destruct (py_max_spec 70 (vote_confidence c)) as [[? ->]|[? ->]];
      repeat split; intros; lra.
  - repeat split; try lra; intros [=].
Qed.

(** Amended C9: on a successful run with decision NO SIGNAL the engine's
    own stop-loss and take-profit are [None] and the returned record holds
    the number 0 for both; for BUY and SELL both returned levels are
    floats. *)
Theorem returned_levels (df : DataFrame) :
  let res := run_strategy ta chart_written (Some df) in
  let d := final_decision ta df in
  res.2 = true ->
  (res.1 !! "signal" = Some (PStr "NO SIGNAL") ->
   sl d = None /\ tp d = None /\
   res.1 !! "sl" = Some (PInt 0) /\ res.1 !! "tp" = Some (PInt 0)) /\
  (res.1 !! "signal" = Some (PStr "BUY") \/
   res.1 !! "signal" = Some (PStr "SELL") ->
   exists stop_loss take_profit,
     sl d = Some stop_loss /\ tp d = Some take_profit /\
     res.1 !! "sl" = Some (PFloat stop_loss) /\
     res.1 !! "tp" = Some (PFloat take_profit)).
Proof.
  intros res d Hok.
  destruct (run_strategy_success ta chart_written df Hok)
    as (_ & _ & _ & Hs & Htp & Hsl & _).
  fold res d in Hs, Htp, Hsl. rewrite Hs, Htp, Hsl.
  destruct (final_decision_shape ta df)
    as [(H1 & H2 & H3)|(H1 & [v1 H2] & [v2 H3])];
    fold d in H1, H2, H3; rewrite H2, H3; simpl; split.
  - done.
  - rewrite H1. intros [[=]|[=]].
  - destruct H1 as [H1|H1]; rewrite H1; intros [=].
  - intros _. by exists v1, v2.
Qed.

End GuardAndDecisionClaims.

(** One sample run per rung: the rising sample is decided by (a), the
    falling sample by (b), the sample with three bullish features and flat
    momentum by (c), its mirror image by (d), and the quiet sample by (e). *)
Lemma decision_precedence_witness :
  (run_strategy rising_ta true (Some rising_frame)).1 !! "signal"
  = Some (PStr "BUY") /\
  (run_strategy falling_ta true (Some falling_frame)).1 !! "signal"
  = Some (PStr "SELL") /\
  (run_strategy medium_buy_ta true (Some quiet_frame)).1 !! "signal"
  = Some (PStr "BUY") /\
  (run_strategy medium_sell_ta true (Some quiet_frame)).1 !! "signal"
  = Some (PStr "SELL") /\
  (run_strategy quiet_ta true (Some quiet_frame)).1 !! "signal"
  = Some (PStr "NO SIGNAL").
Proof.
  split; [|split; [|split; [|split]]].
  - destruct (decision_precedence rising_ta true rising_frame)
      as (_ & _ & rung & _); [vm_compute; lia | reflexivity | reflexivity |].
    apply rung. vm_compute. reflexivity.
  - destruct (decision_precedence falling_ta true falling_frame)
      as (_ & _ & _ & rung & _);
      [vm_compute; lia | reflexivity | reflexivity |].
    apply rung; vm_compute; reflexivity.
  - destruct (decision_precedence medium_buy_ta true quiet_frame)
      as (_ & _ & _ & _ & rung & _);
      [vm_compute; lia | reflexivity | reflexivity |].
    apply rung; vm_compute; reflexivity.
  - destruct (decision_precedence medium_sell_ta true quiet_frame)
      as (_ & _ & _ & _ & _ & rung & _);
      [vm_compute; lia | reflexivity | reflexivity |].
    apply rung; vm_compute; reflexivity.
  - destruct (decision_precedence quiet_ta true quiet_frame)
      as (_ & _ & _ & _ & _ & _ & rung);
      [vm_compute; lia | reflexivity | reflexivity |].
    apply rung; vm_compute; reflexivity.
Defined.

(** Fifty candles at price 0 make both EMA values zero. *)
Lemma guard_stage_rejects_witness :
  failure_result (run_strategy zero_ta true (Some zero_frame)) /\
  failure_result (run_strategy quiet_ta true (Some (flat_frame 100 49))).
Proof.
  split.
  - apply (proj2 (guard_stage_rejects zero_ta true (Some zero_frame))
                 zero_frame);
      [reflexivity | vm_compute; lia | left; vm_compute; reflexivity].
  - apply (proj1 (guard_stage_rejects quiet_ta true
                    (Some (flat_frame 100 49)))).
    vm_compute. lia.
Defined.

(** C9 fails as stated: the quiet sample succeeds with NO SIGNAL and the
    returned levels are the number 0, not [None]. *)
Lemma no_signal_levels_are_zero :
  let res := run_strategy quiet_ta true (Some quiet_frame) in
  res.2 = true /\
  res.1 !! "signal" = Some (PStr "NO SIGNAL") /\
  res.1 !! "tp" = Some (PInt 0) /\ res.1 !! "tp" <> Some PNone /\
  res.1 !! "sl" = Some (PInt 0) /\ res.1 !! "sl" <> Some PNone.
Proof. vm_compute. repeat split; discriminate. Qed.

(** The rising sample returns float levels. *)
Lemma returned_levels_witness :
  let res := run_strategy rising_ta true (Some rising_frame) in
  let d := final_decision rising_ta rising_frame in
  exists stop_loss take_profit,
    sl d = Some stop_loss /\ tp d = Some take_profit /\
    res.1 !! "sl" = Some (PFloat stop_loss) /\
    res.1 !! "tp" = Some (PFloat take_profit).
Proof.
  apply (proj2 (returned_levels rising_ta true rising_frame
                  ltac:(vm_compute; reflexivity))).
  left. vm_compute. reflexivity.
Defined.

Section FeatureAndBreakoutClaims.
Local Open Scope Q_scope.
Variable ta : ta_lib.
Variable chart_written : bool.

(** Amended C4: the RSI flags and the momentum flags are never both set;
    the price-vs-basis flags are never both set when the last close is not
    negative, nor the EMA flags when the slow EMA is not negative; the two
    stochastic flags are both set whenever the last %K lies strictly between
    45 and 55. *)
Theorem feature_flags_exclusive (df : DataFrame) :
  let c := conditions_of ta df in
  exclusive (bullish_rsi c) (bearish_rsi c) /\
  exclusive (bullish_momentum c) (bearish_momentum c) /\
  (0 <= iloc_neg (col Close df) 1 0 ->
   exclusive (bullish_price c) (bearish_price c)) /\
  (0 <= ema200 (calculate_ema ta df) ->
   exclusive (bullish_ema c) (bearish_ema c)) /\
  (forall k,
     iloc_neg (fst (calculate_stochastic ta df 14 3)) 1 None = Some k ->
     45 < k -> k < 55 ->
     bullish_stoch c = true /\ bearish_stoch c = true).
Proof.
  intros c. subst c. unfold conditions_of.
  destruct (compute_indicators_fields ta df)
    as (_ & Hk & He & _ & _ & _ & _ & _ & Hcp).
  rewrite Hk, He, Hcp.
  generalize (basis_kc (compute_indicators ta df)). intros basis.
  unfold signal_conditions, exclusive.
  cbn [bullish_rsi bearish_rsi bullish_stoch bearish_stoch bullish_price
       bearish_price bullish_ema bearish_ema bullish_momentum
       bearish_momentum].
  split; [|split; [|split; [|split]]].
  - destruct (iloc_neg (rsi (compute_indicators ta df)) 1 None) as [r1|];
      [|intros [[=] _]].
    unfold nan_gt, nan_lt.
    rewrite !orb_true_iff, !andb_true_iff, !Qgtb_gt, !Qltb_lt.
    intros [[[H1 _]|H1] [[H2 _]|H2]]; lra.
  - destruct (np_scale _ _) as [q| | |]; simpl;
      rewrite ?Qgtb_gt, ?Qltb_lt; intros [H1 H2]; try discriminate; lra.
  - intros Hprice. rewrite Qgtb_gt, Qltb_lt. intros [H1 H2]. lra.
  - intros Hslow. rewrite Qgtb_gt, Qltb_lt. intros [H1 H2]. lra.
  - intros k Hlast Hlow Hhigh. rewrite Hlast. unfold nan_gt, nan_lt.
    rewrite !andb_true_iff, !orb_true_iff, !Qgtb_gt, !Qltb_lt.
    split; (split; [lra | right; lra]).
Qed.

Lemma snapshot_lookup_breakout (v1 v2 v3 v4 v5 v6 v7 v8 : pyval) :
  (list_to_map
     [("status", v1); ("current_price", v2); ("tp", v3); ("sl", v4);
      ("indicators", v5); ("support_zone", v6); ("resistance_zone", v7);
      ("breakout", v8)] : gmap string pyval) !! "breakout" = Some v8.
Proof. reflexivity. Qed.

Lemma breakout_lookup (v1 v2 : pyval) :
  let m : gmap string pyval := list_to_map [("bullish", v1); ("bearish", v2)] in
  m !! "bullish" = Some v1 /\ m !! "bearish" = Some v2.
Proof. split; reflexivity. Qed.

(** The two scenario objects of a successful run. *)
Lemma scenario_objects df :
  let res := run_strategy ta chart_written (Some df) in
  let ind := compute_indicators ta df in
  let b := breakout_simulation ta df (support_zone ind) (resistance_zone ind)
                               (current_price ind) in
  let st := signal_type (final_decision ta df) in
  res.2 = true ->
  scenario res.1 "bullish" =
    Some (PDict (list_to_map
      [("rsi", when_no_signal st (format_strategy_number (rsi_bull b)));
       ("stochastic", when_no_signal st (format_strategy_number (stoch_bull b)));
       ("signal", when_no_signal st (bullish_signal b));
       ("tp", when_no_signal st (format_price (bull_tp b)));
       ("sl", when_no_signal st (format_price (bull_sl b)))])) /\
  scenario res.1 "bearish" =
    Some (PDict (list_to_map
      [("rsi", when_no_signal st (format_strategy_number (rsi_bear b)));
       ("stochastic", when_no_signal st (format_strategy_number (stoch_bear b)));
       ("signal", when_no_signal st (bearish_signal b));
       ("tp", when_no_signal st (format_price (bear_tp b)));
       ("sl", when_no_signal st (format_price (bear_sl b)))])).
Proof.
  intros res ind b st Hok.
  destruct (run_strategy_success ta chart_written df Hok)
    as (_ & _ & _ & _ & _ & _ & Hsnap & _).
  fold res in Hsnap. unfold scenario. rewrite Hsnap.
  cbn [mbind option_bind item].
  unfold snapshot_object. cbv zeta.
  rewrite snapshot_lookup_breakout.
  cbn [mbind option_bind item]. unfold breakout_object.
  split; [apply (proj1 (breakout_lookup _ _)) | apply (proj2 (breakout_lookup _ _))].
Qed.

(** Amended C6: on a successful run whose decision is NO SIGNAL both
    scenario objects of the snapshot are populated with texts, the bullish
    one with signal BUY exactly when the RSI recomputed on the bullish copy
    is above 52 and its %K above 45 (else NO SIGNAL), the bearish one with
    signal SELL exactly when the RSI recomputed on the bearish copy is below
    48 and its %K below 55 (else NO SIGNAL); when the decision is BUY or
    SELL both scenario objects are still present in the snapshot and each of
    their five fields is [None]. *)
Theorem breakout_snapshot (df : DataFrame) :
  let res := run_strategy ta chart_written (Some df) in
  let support_low := fst (fst (detect_support_resistance_zones df 20)) in
  let resistance_high := snd (snd (detect_support_resistance_zones df 20)) in
  let bullish_copy := breakout_copy (rows df) (resistance_high * 1.01) in
  let bearish_copy := breakout_copy (rows df) (support_low * 0.99) in
  let rsi_of copy := iloc_neg (rsi_indicator ta (map Close copy) 14) 1 None in
  let stoch_of copy :=
    iloc_neg (stoch ta (map High copy) (map Low copy) (map Close copy) 14 3)
             1 None in
  res.2 = true ->
  (res.1 !! "signal" = Some (PStr "NO SIGNAL") ->
   exists bull_tp bull_sl bear_tp bear_sl : string,
     scenario res.1 "bullish" =
       Some (PDict (list_to_map
         [("rsi", PStr (format_strategy_number (rsi_of bullish_copy)));
          ("stochastic",
           PStr (format_strategy_number (stoch_of bullish_copy)));
          ("signal",
           PStr (if nan_gt (rsi_of bullish_copy) 52
                    && nan_gt (stoch_of bullish_copy) 45
                 then "BUY" else "NO SIGNAL"));
          ("tp", PStr bull_tp); ("sl", PStr bull_sl)])) /\
     scenario res.1 "bearish" =
       Some (PDict (list_to_map
         [("rsi", PStr (format_strategy_number (rsi_of bearish_copy)));
          ("stochastic",
           PStr (format_strategy_number (stoch_of bearish_copy)));
          ("signal",
           PStr (if nan_lt (rsi_of bearish_copy) 48
                    && nan_lt (stoch_of bearish_copy) 55
                 then "SELL" else "NO SIGNAL"));
          ("tp", PStr bear_tp); ("sl", PStr bear_sl)]))) /\
  (res.1 !! "signal" = Some (PStr "BUY") \/
   res.1 !! "signal" = Some (PStr "SELL") ->
   scenario res.1 "bullish" = Some (PDict null_scenario) /\
   scenario res.1 "bearish" = Some (PDict null_scenario)).
Proof.
  intros res support_low resistance_high bullish_copy bearish_copy rsi_of
         stoch_of Hok.
  destruct (run_strategy_success ta chart_written df Hok)
    as (_ & _ & _ & Hs & _).
  destruct (scenario_objects df Hok) as [Hbull Hbear].
  fold res in Hs, Hbull, Hbear. rewrite Hs, Hbull, Hbear.
  destruct (compute_indicators_fields ta df)
    as (_ & _ & _ & _ & _ & _ & Hsz & Hrz & _).
  rewrite Hsz, Hrz.
  split.
  - intros [= ->]. do 4 eexists. split; reflexivity.
  - intros [[= ->]|[= ->]]; split; reflexivity.
Qed.

End FeatureAndBreakoutClaims.

(** C4 fails as stated: in the quiet sample the last %K is 50 and both
    stochastic flags are set. *)
Lemma stochastic_flags_overlap :
  let c := conditions_of quiet_ta quiet_frame in
  (run_strategy quiet_ta true (Some quiet_frame)).2 = true /\
  bullish_stoch c = true /\ bearish_stoch c = true /\
  ~ all_features_exclusive c.
Proof.
  repeat split; try (vm_compute; reflexivity).
  intros (_ & H & _). apply H. split; vm_compute; reflexivity.
Qed.

(** The sample with three bullish features: the last close and the slow EMA
    are 100, so the flags of four features exclude each other, and the last
    %K is 50, so both stochastic flags are set. *)
Lemma feature_flags_exclusive_witness :
  let c := conditions_of medium_buy_ta quiet_frame in
  exclusive (bullish_rsi c) (bearish_rsi c) /\
  exclusive (bullish_momentum c) (bearish_momentum c) /\
  exclusive (bullish_price c) (bearish_price c) /\
  exclusive (bullish_ema c) (bearish_ema c) /\
  bullish_stoch c = true /\ bearish_stoch c = true.
Proof.
  destruct (feature_flags_exclusive medium_buy_ta quiet_frame)
    as (Hrsi & Hmomentum & Hprice & Hema & Hstoch).
  split; [exact Hrsi|]. split; [exact Hmomentum|].
  split; [apply Hprice; vm_compute; discriminate|].
  split; [apply Hema; vm_compute; discriminate|].
  apply (Hstoch 50%Q); reflexivity.
Defined.

(** C6 fails as stated: the rising sample returns BUY and both scenario
    objects are present in its snapshot, with [None] in every field. *)
Lemma breakout_present_on_buy :
  let res := run_strategy rising_ta true (Some rising_frame) in
  res.1 !! "signal" = Some (PStr "BUY") /\
  scenario res.1 "bullish" = Some (PDict null_scenario) /\
  scenario res.1 "bearish" = Some (PDict null_scenario) /\
  scenario res.1 "bullish" <> None /\ scenario res.1 "bearish" <> None.
Proof. vm_compute. repeat split; discriminate. Qed.

(** The quiet sample: NO SIGNAL with both scenarios populated. *)
Lemma breakout_snapshot_witness :
  let res := run_strategy quiet_ta true (Some quiet_frame) in
  exists bull_tp bull_sl bear_tp bear_sl : string,
    scenario res.1 "bullish" =
      Some (PDict (list_to_map
        [("rsi", PStr "50.00"); ("stochastic", PStr "50.00");
         ("signal", PStr "NO SIGNAL");
         ("tp", PStr bull_tp); ("sl", PStr bull_sl)])) /\
    scenario res.1 "bearish" =
      Some (PDict (list_to_map
        [("rsi", PStr "50.00"); ("stochastic", PStr "50.00");
         ("signal", PStr "NO SIGNAL");
         ("tp", PStr bear_tp); ("sl", PStr bear_sl)])).
Proof.
  apply (proj1 (breakout_snapshot quiet_ta true quiet_frame
                  ltac:(vm_compute; reflexivity))).
  vm_compute. reflexivity.
Defined.

(** ** The command-line wrapper *)

Section CliClaims.
Variable ta : ta_lib.
Variable w : world.

Lemma response_lookup_confidence (v1 v2 v3 v4 v5 v6 v7 v8 v9 v10 v11 v12 v13 : pyval) :
  (list_to_map
     [("pair", v1); ("timeframe", v2); ("timestamp", v3); ("signal", v4);
      ("confidence", v5); ("reason", v6); ("indicators", v7);
      ("last_price", v8); ("volume", v9); ("price_change_24h", v10);
      ("data_source", v11); ("coin_id", v12); ("strategy_details", v13)]
   : gmap string pyval) !! "confidence" = Some v5.
Proof. reflexivity. Qed.

(** A strategy result without a ["confidence"] key yields the default. *)
Lemma build_response_confidence pair timeframe coin_id crypto_data
    (strategy_result : gmap string pyval) :
  strategy_result !! "confidence" = None ->
  match build_response w pair timeframe coin_id crypto_data strategy_result with
  | Some response => response !! "confidence" = Some (PInt 50)
  | None => True
  end.
Proof.
  intros Hnone. unfold build_response, dict_get. rewrite Hnone.
  destruct (strategy_result !! "snapshot") as [snapshot|]; [|done].
  cbn [mbind option_bind].
  destruct (item snapshot "indicators") as [indicators|]; [|done].
  cbn [mbind option_bind].
  destruct (safe_extract_stoch _) as [k d].
  destruct (strategy_result !! "signal"); [|done].
  cbn [mbind option_bind py_int].
  destruct (item snapshot "current_price"); [|done].
  destruct (strategy_result !! "tp"); [|done].
  destruct (strategy_result !! "sl"); [|done].
  destruct (item snapshot "support_zone"); [|done].
  destruct (item snapshot "resistance_zone"); [|done].
  destruct (item indicators "ema"); [|done].
  destruct (item indicators "keltner"); [|done].
  destruct (item indicators "momentum"); [|done].
  destruct (item indicators "confidence"); [|done].
  cbn [mbind option_bind]. apply response_lookup_confidence.
Qed.

Lemma main_confidence argv :
  match main ta w argv with
  | Responded response => response !! "confidence" = Some (PInt 50)
  | _ => True
  end.
Proof.
  unfold main.
  destruct (argv !! 1%nat) as [arg|]; [|done].
  destruct (get_coingecko_market_data w _ 7) as [[|first_row more_rows]|];
    [done| |done].
  set (crypto_data := {| name := upper arg; rows := first_row :: more_rows |}).
  pose proof (run_strategy_success ta (chart_file_written w) crypto_data)
    as Hsuccess.
  destruct (run_strategy ta (chart_file_written w) (Some crypto_data))
    as [strategy_result success].
  destruct success; [|done]. cbn [negb].
  destruct (Hsuccess eq_refl) as (_ & _ & _ & _ & _ & _ & _ & Hnone).
  cbn [fst] in Hnone.
  pose proof (build_response_confidence (upper arg)
                (default "15m"%string (argv !! 2%nat))
                (get_coingecko_id (upper arg)) crypto_data
                strategy_result Hnone) as Hresponse.
  destruct (build_response _ _ _ _ _ _); done.
Qed.

(** C10: whenever the wrapper prints its response, the ['confidence'] field
    of the response is the integer 50: the record returned by
    [run_strategy] has no ['confidence'] key, so the wrapper's default
    applies whatever the series and the confidence computed by the engine. *)
Theorem cli_confidence_default (argv : list string)
    (response : gmap string pyval) :
  main ta w argv = Responded response ->
  response !! "confidence" = Some (PInt 50).
Proof.
  intros Hmain. pose proof (main_confidence argv) as H.
  by rewrite Hmain in H.
Qed.

End CliClaims.

(** The wrapper on the rising sample: the engine's confidence is 100, the
    response says 50. *)
Lemma cli_confidence_default_witness :
  confidence (final_decision rising_ta rising_frame) = (500 # 5)%Q /\
  exists response,
    main rising_ta (offline_world rising_frame) ["analyze_pair.py"; "btcusdt"]
      = Responded response /\
    response !! "confidence" = Some (PInt 50).
Proof.
  split; [vm_compute; reflexivity|].
  eexists. split; [vm_compute; reflexivity|].
  apply (cli_confidence_default rising_ta (offline_world rising_frame)
           ["analyze_pair.py"; "btcusdt"]).
  vm_compute. reflexivity.
Defined.

(** ** Facts about series reductions, sorting and quantiles *)

Section SeriesFacts.
Local Open Scope Q_scope.

Lemma foldl_py_min_le (r : list Q) (a : Q) :
  foldl py_min a r <= a /\ (forall x, x ∈ r -> foldl py_min a r <= x).
Proof.
  revert a. induction r as [|y r IH]; intros a; simpl.
  - split; [lra | intros x Hx; inversion Hx].
  - destruct (IH (py_min a y)) as [H1 H2]. split.
    + apply Qle_trans with (py_min a y); [done | apply py_min_le_l].
    + intros x Hx. apply elem_of_cons in Hx as [->|Hx]; [|by apply H2].
      apply Qle_trans with (py_min a y); [done | apply py_min_le_r].
Qed.

Lemma foldl_py_max_ge (r : list Q) (a : Q) :
  a <= foldl py_max a r /\ (forall x, x ∈ r -> x <= foldl py_max a r).
Proof.
  revert a. induction r as [|y r IH]; intros a; simpl.
  - split; [lra | intros x Hx; inversion Hx].
  - destruct (IH (py_max a y)) as [H1 H2]. split.
    + apply Qle_trans with (py_max a y); [apply py_max_ge_l | done].
    + intros x Hx. apply elem_of_cons in Hx as [->|Hx]; [|by apply H2].
      apply Qle_trans with (py_max a y); [apply py_max_ge_r | done].
Qed.

Lemma list_min_le (l : list Q) (d x : Q) : x ∈ l -> list_min l d <= x.
Proof.
  destruct l as [|a r]; [intros Hx; inversion Hx|]. simpl.
  destruct (foldl_py_min_le r a) as [H1 H2].
  intros Hx. apply elem_of_cons in Hx as [->|Hx]; auto.
Qed.

Lemma list_max_ge (l : list Q) (d x : Q) : x ∈ l -> x <= list_max l d.
Proof.
  destruct l as [|a r]; [intros Hx; inversion Hx|]. simpl.
  destruct (foldl_py_max_ge r a) as [H1 H2].
  intros Hx. apply elem_of_cons in Hx as [->|Hx]; auto.
Qed.

Lemma insert_sorted_perm (x : Q) (l : list Q) : insert_sorted x l ≡ₚ x :: l.
Proof.
  induction l as [|y l IH]; simpl; [done|].
  destruct (Qleb x y); [done|]. rewrite IH. apply Permutation_swap.
Qed.

Lemma sort_values_perm (l : list Q) : sort_values l ≡ₚ l.
Proof.
  unfold sort_values. induction l as [|x l IH]; simpl; [done|].
  by rewrite insert_sorted_perm, IH.
Qed.

(** A quantile lies between the smallest and the largest value. *)
Lemma quantile_between (l : list Q) (p d : Q) :
  0 <= p -> p <= 1 ->
  list_min l d <= quantile l p d /\ quantile l p d <= list_max l d.
Proof.
  intros Hp0 Hp1. unfold quantile.
  destruct l as [|a l']; [simpl; lra|].
  set (l := a :: l') in *.
  pose proof (sort_values_perm l) as Hperm.
  assert (Hlen : (0 < length (sort_values l))%nat).
  { rewrite Hperm. subst l. simpl. lia. }
  destruct (sort_values l) as [|s0 s'] eqn:Hs; [simpl in Hlen; lia|].
  rewrite <- Hs in *. clear s0 s' Hs.
  set (s := sort_values l) in *.
  set (n1 := inject_Z (Z.of_nat (length s - 1))).
  assert (Hn1 : 0 <= n1).
  { subst n1. change 0 with (inject_Z 0). rewrite <- Zle_Qle. lia. }
  set (pos := p * n1).
  assert (Hpos0 : 0 <= pos) by (subst pos; nra).
  assert (Hpos1 : pos <= n1) by (subst pos; nra).
  assert (Hfl0 : (0 <= Qfloor pos)%Z).
  { change 0%Z with (Qfloor 0). by apply Qfloor_resp_le. }
  assert (Hfl1 : (Qfloor pos <= Z.of_nat (length s - 1))%Z).
  { rewrite <- (Qfloor_Z (Z.of_nat (length s - 1))). by apply Qfloor_resp_le. }
  set (lo := Z.to_nat (Qfloor pos)).
  assert (Hlo : (lo < length s)%nat) by (subst lo; lia).
  set (frac := pos - inject_Z (Qfloor pos)).
  assert (Hfrac0 : 0 <= frac).
  { subst frac. pose proof (Qfloor_le pos). lra. }
  assert (Hfrac1 : frac <= 1).
  { subst frac. pose proof (Qlt_floor pos) as Hlt.
    rewrite inject_Z_plus in Hlt. change (inject_Z 1) with 1 in Hlt. lra. }
  assert (Hin : forall x, x ∈ s -> list_min l d <= x /\ x <= list_max l d).
  { intros x Hx. rewrite Hperm in Hx.
    split; [by apply list_min_le | by apply list_max_ge]. }
  assert (Hvlo : nth lo s d ∈ s).
  { apply list_elem_of_In, nth_In, Hlo. }
  assert (Hvhi : nth (S lo) s (nth lo s d) ∈ s).
  { destruct (decide (S lo < length s)%nat) as [Hhi|Hhi].
    - apply list_elem_of_In, nth_In, Hhi.
    - rewrite nth_overflow by lia. exact Hvlo. }
  destruct (Hin _ Hvlo) as [H1 H2]. destruct (Hin _ Hvhi) as [H3 H4].
  split; nra.
Qed.

Lemma length_rolling agg w (s : list Q) : length (rolling agg w s) = length s.
Proof. unfold rolling. by rewrite length_map, length_seq. Qed.

(** The last rolling value aggregates the last [w] entries. *)
Lemma rolling_last agg (w : nat) (s : list Q) :
  (1 <= w)%nat -> (w <= length s)%nat ->
  rolling agg w s !! (length s - 1)%nat = Some (Some (agg (tail w s))).
Proof.
  intros Hw Hlen. unfold rolling, tail.
  rewrite list_lookup_fmap, lookup_seq_lt by lia. simpl.
  replace (S (length s - 1)) with (length s) by lia.
  destruct (Nat.ltb_spec (length s) w) as [|_]; [lia|].
  do 3 f_equal. apply firstn_all2.
  rewrite length_drop. lia.
Qed.

(** The last entry of a series is among its last [k] entries. *)
Lemma last_in_tail {A} (k : nat) (s : list A) (x : A) :
  (1 <= k)%nat -> s !! (length s - 1)%nat = Some x -> x ∈ tail k s.
Proof.
  intros Hk Hx. unfold tail. apply list_elem_of_lookup.
  assert (Hlen : (0 < length s)%nat) by (apply lookup_lt_Some in Hx; lia).
  exists (length s - 1 - (length s - k))%nat.
  rewrite lookup_drop. rewrite <- Hx. f_equal. lia.
Qed.

Lemma elem_of_dropna (s : list (option Q)) (x : Q) : Some x ∈ s -> x ∈ dropna s.
Proof.
  intros Hx. unfold dropna. apply list_elem_of_omap. by exists (Some x).
Qed.

End SeriesFacts.

(** ** Support and resistance zones *)

Section ZoneProperties.
Local Open Scope Q_scope.

Lemma tail_map {A B} (f : A -> B) (k : nat) (s : list A) :
  tail k (map f s) = map f (tail k s).
Proof. unfold tail. rewrite length_map. symmetry. apply fmap_drop. Qed.

Lemma last_row_lookup (rs : list candle) :
  (0 < length rs)%nat -> rs !! (length rs - 1)%nat = Some (last_row rs).
Proof.
  intros Hlen. unfold last_row, iloc_neg.
  destruct (Nat.leb_spec 1 (length rs)) as [_|]; [|lia].
  destruct (nth_lookup_or_length rs (length rs - 1) (Candle 0 0 0 0 0));
    [done | lia].
Qed.

Lemma last_close_last_row (df : DataFrame) :
  (0 < length (rows df))%nat ->
  iloc_neg (col Close df) 1 0 = Close (last_row (rows df)).
Proof.
  intros Hlen. unfold last_row, iloc_neg, col. rewrite length_map.
  destruct (Nat.leb_spec 1 (length (rows df))) as [_|]; [|lia].
  apply (map_nth Close (rows df) (Candle 0 0 0 0 0)).
Qed.

(** X1: for a lookback of at least one candle on a frame with at least one
    row, within each zone the lower edge is not above the upper edge,
    whenever the last close is not negative (the condition matters only for
    the fallback bands of a series shorter than [lookback]). *)
Theorem zones_ordered (df : DataFrame) (lookback : nat) :
  let zones := detect_support_resistance_zones df lookback in
  (1 <= lookback)%nat ->
  (1 <= length (rows df))%nat ->
  0 <= iloc_neg (col Close df) 1 0 ->
  fst (fst zones) <= snd (fst zones) /\ fst (snd zones) <= snd (snd zones).
Proof.
  intros zones Hlookback Hrows Hprice. subst zones.
  unfold detect_support_resistance_zones.
  destruct (_ <? _)%nat; simpl.
  - split; lra.
  - split.
    + apply quantile_between; lra.
    + apply quantile_between; lra.
Qed.

(** X2: with at least [lookback >= 1] candles, the support zone starts at
    or below the low of each of the last [lookback] candles and the
    resistance zone ends at or above the high of each of them; so when the
    last candle has its close between its low and its high, the zones
    enclose the current price. *)
Theorem zones_enclose_recent_candles (df : DataFrame) (lookback : nat) :
  let zones := detect_support_resistance_zones df lookback in
  let support_low := fst (fst zones) in
  let resistance_high := snd (snd zones) in
  (1 <= lookback)%nat ->
  (lookback <= length (rows df))%nat ->
  (forall c, c ∈ tail lookback (rows df) ->
     support_low <= Low c /\ High c <= resistance_high) /\
  (Low (last_row (rows df)) <= Close (last_row (rows df)) ->
   Close (last_row (rows df)) <= High (last_row (rows df)) ->
   support_low <= iloc_neg (col Close df) 1 0 /\
   iloc_neg (col Close df) 1 0 <= resistance_high).
Proof.
  intros zones support_low resistance_high Hone Hlen.
  assert (Hall : forall c, c ∈ tail lookback (rows df) ->
                   support_low <= Low c /\ High c <= resistance_high).
  { intros c Hc. subst support_low resistance_high zones.
    unfold detect_support_resistance_zones.
    destruct (Nat.ltb_spec (length (rows df)) lookback) as [|_]; [lia|].
    simpl. split.
    - apply Qle_trans with (list_min (tail lookback (col Low df)) 0).
      + apply list_min_le, elem_of_dropna.
        apply last_in_tail; [done|].
        unfold rolling_min. rewrite length_rolling.
        apply (rolling_last (fun l => list_min l 0)); [done|].
        unfold col. by rewrite length_map.
      + apply list_min_le. unfold col. rewrite tail_map.
        by apply list_elem_of_fmap_2.
    - apply Qle_trans with (list_max (tail lookback (col High df)) 0).
      + apply list_max_ge. unfold col. rewrite tail_map.
        by apply list_elem_of_fmap_2.
      + apply list_max_ge, elem_of_dropna.
        apply last_in_tail; [done|].
        unfold rolling_max. rewrite length_rolling.
        apply (rolling_last (fun l => list_max l 0)); [done|].
        unfold col. by rewrite length_map. }
  split; [exact Hall|].
  intros Hlow Hhigh. rewrite last_close_last_row by lia.
  destruct (Hall (last_row (rows df))) as [H1 H2]; [|lra].
  apply last_in_tail; [done|]. apply last_row_lookup. lia.
Qed.

End ZoneProperties.

(** The zones of the rising sample (50 rows, more than the lookback) and the
    fallback bands of its first ten rows. *)
Lemma zones_ordered_witness :
  let zones := detect_support_resistance_zones rising_frame 20 in
  let bands := detect_support_resistance_zones (ramp_frame 100 1 10) 20 in
  ((fst (fst zones) <= snd (fst zones))%Q /\
   (fst (snd zones) <= snd (snd zones))%Q) /\
  ((fst (fst bands) <= snd (fst bands))%Q /\
   (fst (snd bands) <= snd (snd bands))%Q).
Proof.
  split.
  - apply (zones_ordered rising_frame 20);
      [lia | vm_compute; lia | vm_compute; discriminate].
  - apply (zones_ordered (ramp_frame 100 1 10) 20);
      [lia | vm_compute; lia | vm_compute; discriminate].
Defined.

Lemma zones_enclose_recent_candles_witness :
  let zones := detect_support_resistance_zones rising_frame 20 in
  (fst (fst zones) <= iloc_neg (col Close rising_frame) 1 0)%Q /\
  (iloc_neg (col Close rising_frame) 1 0 <= snd (snd zones))%Q.
Proof.
  apply (proj2 (zones_enclose_recent_candles rising_frame 20
                  ltac:(lia) ltac:(vm_compute; lia)));
    vm_compute; discriminate.
Defined.

(** ** Indicator wrappers and the guard stage *)

Section WrapperProperties.
Local Open Scope Q_scope.
Variable ta : ta_lib.
Variable chart_written : bool.

Lemma Qeq_bool_false (a b : Q) : Qeq_bool a b = false -> ~ a == b.
Proof. intros H E. apply Qeq_bool_iff in E. congruence. Qed.

Lemma valid_or_nonzero (x : option Q) (fallback : Q) :
  ~ fallback == 0 -> ~ valid_or x fallback == 0.
Proof.
  intros Hf. unfold valid_or. destruct x as [v|]; [|done].
  destruct (Qeq_bool v 0) eqn:E; [done|]. by apply Qeq_bool_false.
Qed.

Lemma ema_values_nonzero (df : DataFrame) :
  ~ iloc_neg (col Close df) 1 0 == 0 ->
  ~ ema100 (calculate_ema ta df) == 0 /\ ~ ema200 (calculate_ema ta df) == 0.
Proof.
  intros Hclose. unfold calculate_ema. cbn [ema100 ema200].
  split.
  - destruct (Qeq_bool (last_or _ _) 0) eqn:E;
      [done | by apply Qeq_bool_false].
  - destruct (Qeq_bool (last_or (ema_indicator ta (col Close df)
                (Nat.min 200 (Nat.max 20 (length (rows df) / 2)))) _) 0) eqn:E;
      [done | by apply Qeq_bool_false].
Qed.

Lemma keltner_bands_nonzero (df : DataFrame) (period : nat) :
  let bands := calculate_keltner_channels ta df period in
  ~ iloc_neg (col Close df) 1 0 == 0 ->
  ~ fst (fst bands) == 0 /\ ~ snd (fst bands) == 0 /\ ~ snd bands == 0.
Proof.
  intros bands Hclose. subst bands. unfold calculate_keltner_channels.
  cbn [fst snd]. repeat split; apply valid_or_nonzero; try done.
  - intros E. apply Hclose. lra.
  - intros E. apply Hclose. lra.
Qed.

(** On 50 or more candles with a non-zero last close no guard rejects. *)
Lemma guards_pass (df : DataFrame) :
  (CANDLE_LIMIT <= length (rows df))%nat ->
  ~ iloc_neg (col Close df) 1 0 == 0 ->
  (run_strategy ta chart_written (Some df)).2 = true.
Proof.
  intros Hlen Hclose. unfold run_strategy.
  destruct (Nat.ltb_spec (length (rows df)) CANDLE_LIMIT) as [|_]; [lia|].
  destruct (compute_indicators_fields ta df)
    as (_ & _ & He & Hu & _ & Hl & _).
  destruct (ema_values_nonzero df Hclose) as [H1 H2].
  destruct (keltner_bands_nonzero df 20 Hclose) as (H3 & _ & H4).
  assert (Hema : ema_invalid (compute_indicators ta df) = false).
  { unfold ema_invalid. rewrite He. apply orb_false_iff.
    split; apply not_true_iff_false; rewrite Qeq_bool_iff; done. }
  assert (Hkc : keltner_invalid (compute_indicators ta df) = false).
  { unfold keltner_invalid. rewrite Hu, Hl. apply orb_false_iff.
    split; apply not_true_iff_false; rewrite Qeq_bool_iff; done. }
  rewrite Hema, Hkc. reflexivity.
Qed.

(** X3: whatever the library returns (numbers, zeros, NaN, an empty series),
    neither EMA value of [calculate_ema] and no band of
    [calculate_keltner_channels] is zero when the last close is not: a zero
    or missing reading is replaced by the last close, or by 102%, 100% and
    98% of it for the bands. *)
Theorem indicator_fallbacks_nonzero (df : DataFrame) (period : nat) :
  ~ iloc_neg (col Close df) 1 0 == 0 ->
  let bands := calculate_keltner_channels ta df period in
  ~ ema100 (calculate_ema ta df) == 0 /\
  ~ ema200 (calculate_ema ta df) == 0 /\
  ~ fst (fst bands) == 0 /\ ~ snd (fst bands) == 0 /\ ~ snd bands == 0.
Proof.
  intros Hclose bands.
  destruct (ema_values_nonzero df Hclose) as [H1 H2].
  destruct (keltner_bands_nonzero df period Hclose) as (H3 & H4 & H5).
  repeat split; assumption.
Qed.

(** X4: with a non-zero last close [run_strategy] succeeds exactly when it
    is given 50 or more candles, for every indicator library with aligned
    series: the EMA and Keltner guards cannot reject. *)
Theorem run_strategy_succeeds (df : DataFrame) :
  aligned ta ->
  ~ iloc_neg (col Close df) 1 0 == 0 ->
  (run_strategy ta chart_written (Some df)).2 = true <->
  (CANDLE_LIMIT <= length (rows df))%nat.
Proof.
  intros _ Hclose. split.
  - intros Hok. by destruct (run_strategy_success ta chart_written df Hok).
  - intros Hlen. by apply guards_pass.
Qed.

End WrapperProperties.

Lemma aligned_constant_ta (r k : option Q) (fast slow basis : Q) :
  aligned (constant_ta r k fast slow basis).
Proof. repeat split; intros; apply length_replicate. Qed.

(** A library whose EMA and Keltner readings are all zero: the wrappers fall
    back on the last close, 100. *)
Lemma indicator_fallbacks_nonzero_witness :
  let bands := calculate_keltner_channels zero_ta quiet_frame 20 in
  ~ (ema100 (calculate_ema zero_ta quiet_frame) == 0)%Q /\
  ~ (ema200 (calculate_ema zero_ta quiet_frame) == 0)%Q /\
  ~ (fst (fst bands) == 0)%Q /\ ~ (snd (fst bands) == 0)%Q /\
  ~ (snd bands == 0)%Q.
Proof.
  apply (indicator_fallbacks_nonzero zero_ta quiet_frame 20).
  vm_compute. discriminate.
Defined.

Lemma run_strategy_succeeds_witness :
  (run_strategy zero_ta false (Some quiet_frame)).2 = true <->
  (CANDLE_LIMIT <= length (rows quiet_frame))%nat.
Proof.
  apply (run_strategy_succeeds zero_ta false quiet_frame).
  - apply aligned_constant_ta.
  - vm_compute. discriminate.
Defined.

(** ** The forecast and the levels it sets *)

Section ForecastProperties.
Local Open Scope Q_scope.

Lemma forecast_available (df : DataFrame) (periods : nat) :
  (10 <= length (rows df))%nat ->
  exists fc, forecast_prices df periods = Some fc /\ length fc = periods.
Proof.
  intros Hlen. unfold forecast_prices.
  destruct (Nat.ltb_spec (length (rows df)) 10) as [|_]; [lia|].
  eexists. split; [reflexivity|]. by rewrite length_map, length_seq.
Qed.

(** Every forecast row is built from one point forecast. *)
Lemma forecast_row_bands (df : DataFrame) (periods : nat) fc row :
  forecast_prices df periods = Some fc -> row ∈ fc ->
  yhat_lower row = yhat row * 0.95 /\ yhat_upper row = yhat row * 1.05.
Proof.
  unfold forecast_prices. destruct (_ <? _)%nat; [done|].
  intros [= <-] Hrow. apply list_elem_of_fmap in Hrow as (i & -> & _). done.
Qed.

(** The rows of a forecast over closes that end with [first], eight more
    closes and [last]. *)
Lemma forecast_rows (df : DataFrame) (periods : nat) pre first mid last :
  col Close df = pre ++ first :: mid ++ [last] -> length mid = 8%nat ->
  exists fc,
    forecast_prices df periods = Some fc /\
    forall i row, fc !! i = Some row ->
      yhat row == last + (last - first) / 10 * inject_Z (Z.of_nat (i + 1)).
Proof.
  intros Hcl Hmid. unfold forecast_prices.
  assert (Hlen : length (rows df) = (length pre + 10)%nat).
  { rewrite <- (length_col Close), Hcl, length_app. simpl.
    rewrite length_app. simpl. lia. }
  destruct (Nat.ltb_spec (length (rows df)) 10) as [Hlt|_]; [lia |].
  assert (Htail : tail 10 (col Close df) = first :: mid ++ [last]).
  { rewrite Hcl. replace 10%nat with (length (first :: mid ++ [last])).
    - apply tail_app_exact.
    - simpl. rewrite length_app. simpl. lia. }
  rewrite Htail.
  assert (Hlast : iloc_neg (first :: mid ++ [last]) 1 0 = last).
  { apply (iloc_neg_last (first :: mid)). }
  rewrite Hlast.
  assert (Hten : length (first :: mid ++ [last]) = 10%nat).
  { simpl. rewrite length_app. simpl. lia. }
  rewrite Hten. simpl nth.
  eexists. split; [reflexivity|].
  intros i row Hrow. rewrite list_lookup_fmap in Hrow.
  destruct (seq 0 periods !! i) as [j|] eqn:Hj; [|done].
  apply lookup_seq in Hj as [-> _]. simpl in Hrow.
  injection Hrow as <-. simpl. reflexivity.
Qed.

(** X5: the band of a forecast row follows the sign of its point forecast:
    for a positive forecast the bounds enclose it, for a negative forecast
    they are swapped ([yhat_upper] below [yhat_lower]). *)
Theorem forecast_bands_by_sign (df : DataFrame) (periods : nat) fc row :
  forecast_prices df periods = Some fc -> row ∈ fc ->
  (0 < yhat row -> yhat_lower row < yhat row /\ yhat row < yhat_upper row) /\
  (yhat row < 0 -> yhat_upper row < yhat row /\ yhat row < yhat_lower row).
Proof.
  intros Hfc Hrow.
  destruct (forecast_row_bands df periods fc row Hfc Hrow) as [-> ->].
  split; intros H; split; lra.
Qed.

(** X6: when the first of the last ten closes is not above the last one,
    which is positive, the point forecasts start at or above the last close,
    never decrease along the horizon, and every row has
    [0 < yhat_lower < yhat < yhat_upper]; on a flat tail every point
    forecast equals the last close. *)
Theorem forecast_of_rising_tail (df : DataFrame) (periods : nat)
    pre first mid last :
  col Close df = pre ++ first :: mid ++ [last] -> length mid = 8%nat ->
  0 < last -> first <= last ->
  exists fc,
    forecast_prices df periods = Some fc /\
    (forall i row, fc !! i = Some row ->
       last <= yhat row /\
       0 < yhat_lower row /\ yhat_lower row < yhat row /\
       yhat row < yhat_upper row /\
       (first == last -> yhat row == last)) /\
    (forall i j row_i row_j,
       (i <= j)%nat -> fc !! i = Some row_i -> fc !! j = Some row_j ->
       yhat row_i <= yhat row_j).
Proof.
  intros Hcl Hmid Hlast Hle.
  destruct (forecast_rows df periods pre first mid last Hcl Hmid)
    as (fc & Hfc & Hrows).
  exists fc. split; [done|].
  assert (Hstep : forall i : nat, 0 <= inject_Z (Z.of_nat (i + 1))).
  { intros i. change 0 with (inject_Z 0). rewrite <- Zle_Qle. lia. }
  assert (Htrend : 0 <= (last - first) / 10).
  { apply Qle_shift_div_l; lra. }
  split.
  - intros i row Hrow. pose proof (Hrows i row Hrow) as Hy.
    destruct (forecast_row_bands df periods fc row Hfc) as [Hl Hu].
    { apply list_elem_of_lookup. eauto. }
    rewrite Hl, Hu. pose proof (Hstep i) as Hs.
    assert (Hge : last <= yhat row) by (rewrite Hy; nra).
    repeat split; try lra.
    intros Heq. rewrite Hy.
    assert (E : (last - first) / 10 == 0) by (rewrite Heq; field).
    rewrite E. ring.
  - intros i j row_i row_j Hij Hi Hj.
    rewrite (Hrows i row_i Hi), (Hrows j row_j Hj).
    assert (Hinj : inject_Z (Z.of_nat (i + 1)) <= inject_Z (Z.of_nat (j + 1))).
    { rewrite <- Zle_Qle. lia. }
    nra.
Qed.

End ForecastProperties.

(** The first forecast row of the rising sample (closes 140 to 149). *)
Lemma forecast_bands_by_sign_witness :
  let fc := default [] (forecast_prices rising_frame 30) in
  let row := default (Build_forecast_row 0 0 0) (head fc) in
  ((0 < yhat row)%Q ->
   (yhat_lower row < yhat row)%Q /\ (yhat row < yhat_upper row)%Q) /\
  ((yhat row < 0)%Q ->
   (yhat_upper row < yhat row)%Q /\ (yhat row < yhat_lower row)%Q).
Proof.
  apply (forecast_bands_by_sign rising_frame 30
           (default [] (forecast_prices rising_frame 30))).
  - reflexivity.
  - vm_compute. apply list_elem_of_here.
Defined.

Lemma forecast_of_rising_tail_witness :
  exists fc,
    forecast_prices rising_frame 30 = Some fc /\
    (forall i row, fc !! i = Some row ->
       (149 <= yhat row)%Q /\
       (0 < yhat_lower row)%Q /\ (yhat_lower row < yhat row)%Q /\
       (yhat row < yhat_upper row)%Q /\
       ((140 == 149)%Q -> (yhat row == 149)%Q)) /\
    (forall i j row_i row_j,
       (i <= j)%nat -> fc !! i = Some row_i -> fc !! j = Some row_j ->
       (yhat row_i <= yhat row_j)%Q).
Proof.
  apply (forecast_of_rising_tail rising_frame 30
           (take 40 (col Close rising_frame)) 140
           (take 8 (drop 41 (col Close rising_frame))) 149);
    try reflexivity. vm_compute. discriminate.
Defined.

(** ** More about [run_strategy] *)

Section EngineProperties.
Local Open Scope Q_scope.
Variable ta : ta_lib.
Variable chart_written : bool.

(** The levels after forecast integration when a forecast is available:
    the levels of signal generation are overwritten. *)
Lemma refined_levels (df : DataFrame) fc :
  let cp := iloc_neg (col Close df) 1 0 in
  let support_low := fst (fst (detect_support_resistance_zones df 20)) in
  let resistance_high := snd (snd (detect_support_resistance_zones df 20)) in
  forecast_prices df 30 = Some fc ->
  (signal_type (derived_decision ta df) = "BUY" ->
   sl (refined_decision ta df)
     = Some (py_min3 (list_min (map yhat_lower fc) 0) support_low (cp * 0.98)) /\
   tp (refined_decision ta df)
     = Some (py_max3 (quantile (map yhat fc) 0.75 0) resistance_high
                     (cp * 1.02))) /\
  (signal_type (derived_decision ta df) = "SELL" ->
   sl (refined_decision ta df)
     = Some (py_max3 (list_max (map yhat_upper fc) 0) resistance_high
                     (cp * 1.02)) /\
   tp (refined_decision ta df)
     = Some (py_min3 (quantile (map yhat fc) 0.25 0) support_low (cp * 0.98))).
Proof.
  intros cp support_low resistance_high Hfc.
  destruct (compute_indicators_fields ta df)
    as (_ & _ & _ & _ & _ & _ & Hsz & Hrz & Hprice).
  unfold refined_decision, forecast_integration.
  rewrite Hsz, Hrz, Hprice, Hfc.
  split; intros ->; simpl; done.
Qed.

(** X7: on a successful run a forecast is always available, so the
    returned stop-loss of a BUY is
    [min(forecast_sl, support_low, price * 0.98)] and its take-profit before
    the risk-reward adjustment is
    [max(forecast_tp, resistance_high, price * 1.02)], with the mirror image
    for SELL: the 0.985/1.015 levels of a strong signal never reach the
    result. *)
Theorem levels_set_by_forecast (df : DataFrame) :
  let res := run_strategy ta chart_written (Some df) in
  let cp := iloc_neg (col Close df) 1 0 in
  let support_low := fst (fst (detect_support_resistance_zones df 20)) in
  let resistance_high := snd (snd (detect_support_resistance_zones df 20)) in
  res.2 = true ->
  exists fc,
    forecast_prices df 30 = Some fc /\ length fc = 30%nat /\
    (res.1 !! "signal" = Some (PStr "BUY") ->
     res.1 !! "sl"
       = Some (PFloat (py_min3 (list_min (map yhat_lower fc) 0) support_low
                               (cp * 0.98))) /\
     tp (refined_decision ta df)
       = Some (py_max3 (quantile (map yhat fc) 0.75 0) resistance_high
                       (cp * 1.02))) /\
    (res.1 !! "signal" = Some (PStr "SELL") ->
     res.1 !! "sl"
       = Some (PFloat (py_max3 (list_max (map yhat_upper fc) 0)
                               resistance_high (cp * 1.02))) /\
     tp (refined_decision ta df)
       = Some (py_min3 (quantile (map yhat fc) 0.25 0) support_low
                       (cp * 0.98))).
Proof.
  intros res cp support_low resistance_high Hok.
  destruct (run_strategy_success ta chart_written df Hok)
    as (Hlen & _ & _ & Hs & _ & Hsl & _).
  fold res in Hs, Hsl.
  destruct (forecast_available df 30) as (fc & Hfc & Hfclen);
    [unfold CANDLE_LIMIT in Hlen; lia|].
  exists fc. split; [done|]. split; [done|].
  destruct (refined_levels df fc Hfc) as [Hbuy Hsell].
  rewrite Hs, final_decision_signal, Hsl.
  unfold final_decision.
  rewrite (proj2 (proj2 (risk_reward_adjustment_keeps _ _))).
  split; intros [= Hsig].
  - destruct (Hbuy Hsig) as [-> ->]. done.
  - destruct (Hsell Hsig) as [-> ->]. done.
Qed.

(** X8: every BUY returned for a positive last close has its stop-loss at
    least 2% below the price and its take-profit at least 3% above it; every
    SELL has its stop-loss at least 2% above and its take-profit at least 3%
    below. *)
Theorem minimum_level_distance (df : DataFrame) :
  let res := run_strategy ta chart_written (Some df) in
  let cp := iloc_neg (col Close df) 1 0 in
  res.2 = true ->
  0 < cp ->
  (res.1 !! "signal" = Some (PStr "BUY") ->
   exists stop_loss take_profit,
     res.1 !! "sl" = Some (PFloat stop_loss) /\
     res.1 !! "tp" = Some (PFloat take_profit) /\
     stop_loss <= cp * 0.98 /\ cp * 1.03 <= take_profit) /\
  (res.1 !! "signal" = Some (PStr "SELL") ->
   exists stop_loss take_profit,
     res.1 !! "sl" = Some (PFloat stop_loss) /\
     res.1 !! "tp" = Some (PFloat take_profit) /\
     cp * 1.02 <= stop_loss /\ take_profit <= cp * 0.97).
Proof.
  intros res cp Hok Hcp.
  destruct (run_strategy_success ta chart_written df Hok)
    as (Hlen & _ & _ & Hs & Htp & Hsl & _).
  fold res in Hs, Htp, Hsl.
  destruct (forecast_available df 30) as (fc & Hfc & _);
    [unfold CANDLE_LIMIT in Hlen; lia|].
  destruct (refined_levels df fc Hfc) as [Hbuy Hsell]. fold cp in Hbuy, Hsell.
  rewrite Hs, final_decision_signal. split; intros [= Hsig].
  - destruct (buy_levels ta df Hcp Hsig)
      as (ks & kt & sl1 & tp1 & tp2 & _ & _ & _ & Hsl1 & _ & Hsl2 & Htp2
          & H1 & H2 & H3 & H4 & H5 & H6 & _).
    fold cp in H1, H2, H3, H4, H6.
    destruct (Hbuy Hsig) as [Hform _]. rewrite Hsl1 in Hform.
    injection Hform as Hform.
    exists sl1, tp2. rewrite Hsl, Htp, Hsl2, Htp2. simpl.
    assert (Hstop : sl1 <= cp * 0.98).
    { rewrite Hform. unfold py_min3. apply py_min_le_r. }
    repeat (split; [done|]).
    unfold reward_risk in H6.
    rewrite (Qabs_diff_pos tp2 cp), (Qabs_diff_neg sl1 cp) in H6 by lra.
    apply Qdiv_ge_bound in H6; lra.
  - destruct (sell_levels ta df Hcp Hsig)
      as (ks & kt & sl1 & tp1 & tp2 & _ & _ & _ & Hsl1 & _ & Hsl2 & Htp2
          & H1 & H2 & H3 & H4 & H5 & H6 & _).
    fold cp in H1, H2, H3, H4, H6.
    destruct (Hsell Hsig) as [Hform _]. rewrite Hsl1 in Hform.
    injection Hform as Hform.
    exists sl1, tp2. rewrite Hsl, Htp, Hsl2, Htp2. simpl.
    assert (Hstop : cp * 1.02 <= sl1).
    { rewrite Hform. unfold py_max3. apply py_max_ge_r. }
    repeat (split; [done|]).
    unfold reward_risk in H6.
    rewrite (Qabs_diff_neg tp2 cp), (Qabs_diff_pos sl1 cp) in H6 by lra.
    apply Qdiv_ge_bound in H6; lra.
Qed.

(** X9: a NaN at the end of the RSI or of the %K series switches the
    medium conditions off: without a strong condition the run returns
    NO SIGNAL, whatever the other indicators say. *)
Theorem nan_blocks_medium_signals (df : DataFrame) :
  let res := run_strategy ta chart_written (Some df) in
  let c := conditions_of ta df in
  res.2 = true ->
  iloc_neg (calculate_rsi ta df 14) 1 None = None \/
  iloc_neg (fst (calculate_stochastic ta df 14 3)) 1 None = None ->
  strong_bullish c = false -> strong_bearish c = false ->
  res.1 !! "signal" = Some (PStr "NO SIGNAL").
Proof.
  intros res c Hok Hnan Hbull Hbear.
  destruct (run_strategy_success ta chart_written df Hok)
    as (_ & _ & _ & Hs & _).
  fold res in Hs. rewrite Hs, final_decision_signal.
  assert (Hflags : not_overbought c = false /\ not_oversold c = false).
  { subst c. unfold conditions_of.
    destruct (compute_indicators_fields ta df) as (-> & -> & _).
    unfold signal_conditions. cbn [not_overbought not_oversold].
    destruct Hnan as [-> | ->]; simpl;
      rewrite ?andb_false_r; done. }
  destruct Hflags as [Hob Hos].
  unfold derived_decision. fold c.
  destruct (signal_generation_cases c
              (support_zone (compute_indicators ta df))
              (resistance_zone (compute_indicators ta df))
              (current_price (compute_indicators ta df)))
    as [(Ha & _)
       |[(_ & Hb & _)
        |[(_ & _ & Hc & _)
         |[(_ & _ & _ & Hd & _)|(_ & _ & _ & _ & -> & _)]]]];
    try congruence.
  - rewrite Hob, andb_false_r in Hc. discriminate.
  - rewrite Hos, andb_false_r in Hd. discriminate.
Qed.

Lemma snapshot_lookup (v1 v2 v3 v4 v5 v6 v7 v8 : pyval) :
  let m : gmap string pyval :=
    list_to_map
      [("status", v1); ("current_price", v2); ("tp", v3); ("sl", v4);
       ("indicators", v5); ("support_zone", v6); ("resistance_zone", v7);
       ("breakout", v8)] in
  m !! "status" = Some v1 /\ m !! "current_price" = Some v2 /\
  m !! "tp" = Some v3 /\ m !! "sl" = Some v4 /\ m !! "indicators" = Some v5 /\
  m !! "support_zone" = Some v6 /\ m !! "resistance_zone" = Some v7.
Proof. repeat split; reflexivity. Qed.

Lemma indicators_lookup (v1 v2 v3 v4 v5 v6 : pyval) :
  let m : gmap string pyval :=
    list_to_map
      [("rsi", v1); ("stochastic", v2); ("ema", v3); ("keltner", v4);
       ("momentum", v5); ("confidence", v6)] in
  m !! "rsi" = Some v1 /\ m !! "stochastic" = Some v2 /\
  m !! "ema" = Some v3 /\ m !! "keltner" = Some v4 /\
  m !! "momentum" = Some v5 /\ m !! "confidence" = Some v6.
Proof. repeat split; reflexivity. Qed.

(** The entries of the snapshot that the wrapper reads. *)
Lemma snapshot_object_fields (df : DataFrame) :
  let snap := snapshot_object ta df in
  let d := final_decision ta df in
  let ind := compute_indicators ta df in
  snap !! "status" = Some (PStr (signal_type d)) /\
  snap !! "current_price" = Some (PFloat (current_price ind)) /\
  snap !! "tp" = Some (level_value (tp d)) /\
  snap !! "sl" = Some (level_value (sl d)) /\
  snap !! "support_zone" = Some (PStr (zone_str (support_zone ind))) /\
  snap !! "resistance_zone" = Some (PStr (zone_str (resistance_zone ind))) /\
  exists (texts : gmap string pyval) (rsi_trend stoch_trend : string)
         (ema_trend : string),
    snap !! "indicators" = Some (PDict texts) /\
    texts !! "rsi"
      = Some (PStr (format_strategy_number (iloc_neg (rsi ind) 1 None)
                    +:+ arrow +:+ rsi_trend)) /\
    texts !! "stochastic"
      = Some (PStr ("%K "
                    +:+ format_strategy_number (iloc_neg (stoch_k ind) 1 None)
                    +:+ ", %D "
                    +:+ format_strategy_number (iloc_neg (stoch_d ind) 1 None)
                    +:+ arrow +:+ stoch_trend)) /\
    texts !! "ema" = Some (PStr ema_trend) /\
    texts !! "keltner" = Some (PStr (keltner_status ind)) /\
    texts !! "momentum" = Some (PStr (momentum_status (conditions_of ta df))) /\
    texts !! "confidence" = Some (PStr (confidence_status (confidence d))).
Proof.
  unfold snapshot_object. cbv zeta.
  match goal with
  | |- context [list_to_map [("status", ?v1); ("current_price", ?v2);
                             ("tp", ?v3); ("sl", ?v4); ("indicators", ?v5);
                             ("support_zone", ?v6); ("resistance_zone", ?v7);
                             ("breakout", ?v8)]] =>
    destruct (snapshot_lookup v1 v2 v3 v4 v5 v6 v7 v8)
      as (H1 & H2 & H3 & H4 & H5 & H6 & H7)
  end.
  repeat (split; [assumption|]).
  match type of H5 with
  | _ = Some (PDict (list_to_map [("rsi", ?v1); ("stochastic", ?v2);
                                  ("ema", ?v3); ("keltner", ?v4);
                                  ("momentum", ?v5); ("confidence", ?v6)])) =>
    destruct (indicators_lookup v1 v2 v3 v4 v5 v6)
      as (I1 & I2 & I3 & I4 & I5 & I6)
  end.
  eexists _, _, _, _. split; [exact H5|].
  repeat (split; [eassumption|]). eassumption.
Qed.

(** X10: the snapshot repeats the top-level fields of a successful result:
    its status is the signal, its levels are the returned levels, and its
    current price is the last close. *)
Theorem snapshot_mirrors_result (df : DataFrame) :
  let res := run_strategy ta chart_written (Some df) in
  res.2 = true ->
  exists snap,
    res.1 !! "snapshot" = Some (PDict snap) /\
    snap !! "status" = res.1 !! "signal" /\
    snap !! "tp" = res.1 !! "tp" /\
    snap !! "sl" = res.1 !! "sl" /\
    snap !! "current_price" = Some (PFloat (iloc_neg (col Close df) 1 0)).
Proof.
  intros res Hok.
  destruct (run_strategy_success ta chart_written df Hok)
    as (_ & _ & _ & Hs & Htp & Hsl & Hsnap & _).
  fold res in Hs, Htp, Hsl, Hsnap.
  destruct (snapshot_object_fields df) as (H1 & H2 & H3 & H4 & _).
  destruct (compute_indicators_fields ta df)
    as (_ & _ & _ & _ & _ & _ & _ & _ & Hprice).
  exists (snapshot_object ta df). rewrite Hs, Htp, Hsl, <- Hprice. done.
Qed.

End EngineProperties.

Section EngineSamples.
Local Open Scope Q_scope.

(** The rising sample: BUY with stop 111 and target 206 around price 149. *)
Lemma levels_set_by_forecast_witness :
  let res := run_strategy rising_ta true (Some rising_frame) in
  exists fc,
    forecast_prices rising_frame 30 = Some fc /\ length fc = 30%nat /\
    (res.1 !! "signal" = Some (PStr "BUY") ->
     res.1 !! "sl"
       = Some (PFloat (py_min3 (list_min (map yhat_lower fc) 0)
                 (fst (fst (detect_support_resistance_zones rising_frame 20)))
                 (iloc_neg (col Close rising_frame) 1 0 * 0.98))) /\
     tp (refined_decision rising_ta rising_frame)
       = Some (py_max3 (quantile (map yhat fc) 0.75 0)
                 (snd (snd (detect_support_resistance_zones rising_frame 20)))
                 (iloc_neg (col Close rising_frame) 1 0 * 1.02))) /\
    (res.1 !! "signal" = Some (PStr "SELL") ->
     res.1 !! "sl"
       = Some (PFloat (py_max3 (list_max (map yhat_upper fc) 0)
                 (snd (snd (detect_support_resistance_zones rising_frame 20)))
                 (iloc_neg (col Close rising_frame) 1 0 * 1.02))) /\
     tp (refined_decision rising_ta rising_frame)
       = Some (py_min3 (quantile (map yhat fc) 0.25 0)
                 (fst (fst (detect_support_resistance_zones rising_frame 20)))
                 (iloc_neg (col Close rising_frame) 1 0 * 0.98))).
Proof.
  apply (levels_set_by_forecast rising_ta true rising_frame).
  vm_compute. reflexivity.
Defined.

Lemma minimum_level_distance_witness :
  let buy := run_strategy rising_ta true (Some rising_frame) in
  let sell := run_strategy falling_ta true (Some falling_frame) in
  (exists stop_loss take_profit,
     buy.1 !! "sl" = Some (PFloat stop_loss) /\
     buy.1 !! "tp" = Some (PFloat take_profit) /\
     (stop_loss <= 149 * 0.98)%Q /\ (149 * 1.03 <= take_profit)%Q) /\
  (exists stop_loss take_profit,
     sell.1 !! "sl" = Some (PFloat stop_loss) /\
     sell.1 !! "tp" = Some (PFloat take_profit) /\
     (100 * 1.02 <= stop_loss)%Q /\ (take_profit <= 100 * 0.97)%Q).
Proof.
  split.
  - apply (proj1 (minimum_level_distance rising_ta true rising_frame
                    ltac:(vm_compute; reflexivity) ltac:(reflexivity))).
    vm_compute. reflexivity.
  - apply (proj2 (minimum_level_distance falling_ta true falling_frame
                    ltac:(vm_compute; reflexivity) ltac:(reflexivity))).
    vm_compute. reflexivity.
Defined.

(** Three bullish features but a NaN RSI: no signal. *)
Lemma nan_blocks_medium_signals_witness :
  (run_strategy (constant_ta None (Some 50) 101 100 99) true
                (Some quiet_frame)).1 !! "signal"
    = Some (PStr "NO SIGNAL").
Proof.
  apply (nan_blocks_medium_signals (constant_ta None (Some 50) 101 100 99)
           true quiet_frame);
    [vm_compute; reflexivity | left; vm_compute; reflexivity
    | vm_compute; reflexivity | vm_compute; reflexivity].
Defined.

Lemma snapshot_mirrors_result_witness :
  let res := run_strategy rising_ta true (Some rising_frame) in
  exists snap,
    res.1 !! "snapshot" = Some (PDict snap) /\
    snap !! "status" = res.1 !! "signal" /\
    snap !! "tp" = res.1 !! "tp" /\
    snap !! "sl" = res.1 !! "sl" /\
    snap !! "current_price"
      = Some (PFloat (iloc_neg (col Close rising_frame) 1 0)).
Proof.
  apply (snapshot_mirrors_result rising_ta true rising_frame).
  vm_compute. reflexivity.
Defined.

End EngineSamples.

(** ** The breakout copies *)

Section BreakoutCopyProperties.
Local Open Scope Q_scope.

Lemma set_last_snoc (f : candle -> candle) (front : list candle) (c : candle) :
  set_last f (front ++ [c]) = front ++ [f c].
Proof.
  unfold set_last. rewrite length_app. simpl.
  replace (length front + 1 - 1)%nat with (length front + 0)%nat by lia.
  by rewrite alter_app_r.
Qed.

Lemma last_row_snoc (front : list candle) (c : candle) :
  last_row (front ++ [c]) = c.
Proof. unfold last_row. apply iloc_neg_last. Qed.

(** X11: a breakout copy differs from the series in its last candle only:
    the close becomes [level], the high and the low are stretched to contain
    it, open and volume stay; an empty series stays empty.  The new last
    candle therefore has [Low <= Close <= High]. *)
Theorem breakout_copy_last_candle (front : list candle) (c : candle)
    (level : Q) :
  let copy := breakout_copy (front ++ [c]) level in
  copy = front ++ [Candle (Open c) (py_max (High c) level)
                          (py_min (Low c) level) level (Volume c)] /\
  length copy = length (front ++ [c]) /\
  Low (last_row copy) <= Close (last_row copy) /\
  Close (last_row copy) <= High (last_row copy) /\
  breakout_copy [] level = [].
Proof.
  assert (E : breakout_copy (front ++ [c]) level
              = front ++ [Candle (Open c) (py_max (High c) level)
                                 (py_min (Low c) level) level (Volume c)]).
  { unfold breakout_copy. cbv zeta.
    repeat (rewrite ?set_last_snoc, ?last_row_snoc). reflexivity. }
  cbv zeta. rewrite E, last_row_snoc. simpl.
  repeat split.
  - by rewrite !length_app.
  - apply py_min_le_r.
  - apply py_max_ge_r.
Qed.

End BreakoutCopyProperties.

(** ** Message escaping *)

Section MarkdownProperties.

Lemma string_app_cons (x : ascii) (a b : string) :
  String x a +:+ b = String x (a +:+ b).
Proof. reflexivity. Qed.

Lemma string_app_nil_l (b : string) : "" +:+ b = b.
Proof. reflexivity. Qed.

Lemma string_app_assoc (a b c : string) : (a +:+ b) +:+ c = a +:+ (b +:+ c).
Proof.
  induction a as [|x a IH]; [done|]. rewrite !string_app_cons. by rewrite IH.
Qed.

Lemma string_length_app (a b : string) :
  String.length (a +:+ b) = (String.length a + String.length b)%nat.
Proof.
  induction a as [|x a IH]; [done|]. rewrite string_app_cons. simpl.
  by rewrite IH.
Qed.

(** The three replacements amount to one pass over the text. *)
Lemma escape_markdown_pass (s : string) : escape_markdown s = escape_pass s.
Proof.
  unfold escape_markdown. induction s as [|c s IH]; [done|].
  simpl. unfold markdown_special.
  destruct (Ascii.eqb_spec c "*") as [->|Hstar].
  { repeat (rewrite ?string_app_cons, ?string_app_nil_l; simpl).
    by rewrite IH. }
  simpl.
  destruct (Ascii.eqb_spec c "_") as [->|Hunder].
  { repeat (rewrite ?string_app_cons, ?string_app_nil_l; simpl).
    by rewrite IH. }
  simpl.
  destruct (Ascii.eqb_spec c "`") as [->|Htick].
  { repeat (rewrite ?string_app_cons, ?string_app_nil_l; simpl).
    by rewrite IH. }
  simpl. by rewrite IH.
Qed.

Lemma escape_pass_head (s : string) c r :
  escape_pass s = String c r -> markdown_special c = false.
Proof.
  destruct s as [|x s]; [done|]. simpl.
  destruct (markdown_special x) eqn:E; intros [= <- _]; [done | exact E].
Qed.

Lemma unescape_escape_pass (s : string) : unescape_markdown (escape_pass s) = s.
Proof.
  induction s as [|c s IH]; [done|].
  cbn [escape_pass]. destruct (markdown_special c) eqn:E.
  - cbn [unescape_markdown]. rewrite E. simpl. by rewrite IH.
  - cbn [unescape_markdown].
    destruct (escape_pass s) as [|c' r'] eqn:Hs.
    + destruct s as [|x s']; [done|]. simpl in Hs.
      destruct (markdown_special x); discriminate.
    + rewrite (escape_pass_head s c' r' Hs), andb_false_r.
      by rewrite IH.
Qed.

Lemma specials_escaped_pass (b : bool) (s : string) :
  specials_escaped b (escape_pass s) = true.
Proof.
  revert b. induction s as [|c s IH]; intros b; [done|].
  cbn [escape_pass]. destruct (markdown_special c) eqn:E.
  - cbn [specials_escaped]. change (markdown_special "\") with false.
    cbn iota. change (Ascii.eqb "\" "\") with true. rewrite E. simpl. apply IH.
  - cbn [specials_escaped]. rewrite E. apply IH.
Qed.

(** X12: escaping loses nothing: removing the backslash in front of each
    special character of the escaped text gives the text back, so two
    different texts never escape to the same message. *)
Theorem escape_markdown_round_trip (text other : string) :
  unescape_markdown (escape_markdown text) = text /\
  (escape_markdown text = escape_markdown other -> text = other).
Proof.
  assert (H : forall s, unescape_markdown (escape_markdown s) = s).
  { intros s. rewrite escape_markdown_pass. apply unescape_escape_pass. }
  split; [apply H|]. intros E. rewrite <- (H text), E. apply H.
Qed.

(** X13: in the escaped text every [*], [_] and backquote stands directly
    behind a backslash; the text grows by one character per special
    character, and a text without special characters is returned as it
    is. *)
Theorem escape_markdown_escapes_all (text : string) :
  specials_escaped false (escape_markdown text) = true /\
  String.length (escape_markdown text)
    = (String.length text + count_special text)%nat /\
  (count_special text = 0%nat -> escape_markdown text = text).
Proof.
  rewrite escape_markdown_pass. split; [apply specials_escaped_pass|].
  split.
  - induction text as [|c s IH]; [done|]. simpl.
    destruct (markdown_special c); simpl; rewrite IH; lia.
  - induction text as [|c s IH]; [done|]. simpl.
    destruct (markdown_special c); simpl; [discriminate|].
    intros H. by rewrite IH.
Qed.

End MarkdownProperties.

(** ** Candles from the provider's price series *)

Section ProviderProperties.
Local Open Scope Q_scope.

Lemma ohlc_row_close (prices : list (Z * Q)) (i : nat) :
  Close (snd (ohlc_row prices i)) = snd (nth i prices (0%Z, 0)).
Proof.
  unfold ohlc_row. destruct (nth i prices (0%Z, 0)) as [ts p].
  by destruct (i =? 0)%nat.
Qed.

(** The loop builds the rows one by one from the prices alone. *)
Lemma ohlc_loop (prices : list (Z * Q)) (n : nat) :
  foldl (ohlc_append prices) [] (seq 0 n) = map (ohlc_row prices) (seq 0 n).
Proof.
  induction n as [|n IH]; [done|].
  rewrite seq_S, foldl_app, IH, map_app. simpl. f_equal.
  assert (Hlast : (0 < n)%nat ->
            last (map (ohlc_row prices) (seq 0 n))
            = Some (ohlc_row prices (n - 1))).
  { intros Hn. destruct n as [|m]; [lia|].
    rewrite seq_S, map_app. simpl. rewrite last_snoc.
    by replace (m - 0)%nat with m by lia. }
  unfold ohlc_append.
  destruct (Nat.eqb_spec n 0) as [->|Hn].
  - unfold ohlc_row. simpl. by destruct (nth 0 prices (0%Z, 0)).
  - rewrite Hlast by lia. rewrite ohlc_row_close.
    unfold ohlc_row. destruct (nth n prices (0%Z, 0)) as [ts p].
    destruct (Nat.eqb_spec n 0) as [|_]; [lia|]. reflexivity.
Qed.

(** X14: the provider answer is turned into candles exactly when it holds
    at least 50 prices; a missing or shorter price list gives [None]. *)
Theorem market_data_needs_50_prices (data_prices : option (list (Z * Q))) :
  (exists rows, market_data_of_prices data_prices = Some rows) <->
  (exists prices, data_prices = Some prices /\ (50 <= length prices)%nat).
Proof.
  unfold market_data_of_prices. split.
  - intros [rows Hrows]. destruct data_prices as [prices|]; [|done].
    exists prices. split; [done|].
    destruct prices as [|p prices]; [done|].
    destruct (Nat.ltb_spec (length (p :: prices)) 50); [done | lia].
  - intros (prices & -> & Hlen).
    destruct prices as [|p prices]; [simpl in Hlen; lia|].
    destruct (Nat.ltb_spec (length (p :: prices)) 50); [lia|]. eauto.
Qed.


End ProviderProperties.

Section ProviderSamples.
Local Open Scope Q_scope.


End ProviderSamples.

(** ** Facts about number texts *)

Section NumberTextFacts.
Local Open Scope Z_scope.

Lemma string_forall_app P (a b : string) :
  string_forall P (a +:+ b) = string_forall P a && string_forall P b.
Proof.
  induction a as [|c a IH]; [done|]. rewrite string_app_cons. simpl.
  by rewrite IH, andb_assoc.
Qed.

Lemma string_forall_impl (P Q : ascii -> bool) (s : string) :
  (forall c, P c = true -> Q c = true) ->
  string_forall P s = true -> string_forall Q s = true.
Proof.
  intros HPQ. induction s as [|c s IH]; [done|]. simpl.
  rewrite !andb_true_iff. intros [H1 H2]. auto.
Qed.

Lemma parse_digits_app (acc : Z) (a b : string) :
  parse_digits acc (a +:+ b)
  = match parse_digits acc a with
    | Some v => parse_digits v b
    | None => None
    end.
Proof.
  revert acc. induction a as [|c a IH]; intros acc; [done|].
  rewrite string_app_cons. simpl. destruct (digit_value c); [apply IH | done].
Qed.

Lemma pretty_N_char_digit (x : N) :
  (x < 10)%N ->
  digit_value (pretty_N_char x) = Some (Z.of_N x) /\
  is_digit (pretty_N_char x) = true.
Proof.
  intros Hx.
  assert (H : (x = 0 \/ x = 1 \/ x = 2 \/ x = 3 \/ x = 4 \/ x = 5 \/ x = 6
               \/ x = 7 \/ x = 8 \/ x = 9)%N) by lia.
  repeat (destruct H as [->|H]; [split; reflexivity|]).
  subst. split; reflexivity.
Qed.

(** The digits that [pretty_N_go] writes in front of a text. *)
Lemma pretty_N_go_digits (x : N) :
  exists ds : string,
    string_forall is_digit ds = true /\
    (forall s, pretty_N_go x s = ds +:+ s) /\
    (forall acc,
       parse_digits acc ds
       = Some (acc * 10 ^ Z.of_nat (String.length ds) + Z.of_N x)) /\
    (x = 0%N -> ds = "") /\
    (Z.of_N x < 10 ^ Z.of_nat (String.length ds)) /\
    ((0 < x)%N ->
     (0 < String.length ds)%nat /\
     10 ^ (Z.of_nat (String.length ds) - 1) <= Z.of_N x).
Proof.
  induction (N.lt_wf_0 x) as [x _ IH].
  destruct (decide (x = 0%N)) as [->|Hx].
  { exists "". repeat split; try done; try lia.
    intros acc. simpl. f_equal. lia. }
  assert (Hpos : (0 < x)%N) by lia.
  destruct (IH (x `div` 10)%N) as (ds & Hds & Hgo & Hparse & Hzero & Hup & Hlow).
  { apply N.div_lt; lia. }
  set (c := pretty_N_char (x `mod` 10)).
  destruct (pretty_N_char_digit (x `mod` 10)) as [Hval Hdig].
  { apply N.mod_lt. lia. }
  fold c in Hval, Hdig.
  assert (Hdm : Z.of_N x = 10 * Z.of_N (x `div` 10) + Z.of_N (x `mod` 10)).
  { pose proof (N.div_mod x 10 ltac:(lia)) as Hd. rewrite Hd at 1.
    rewrite N2Z.inj_add, N2Z.inj_mul. reflexivity. }
  assert (Hmod : 0 <= Z.of_N (x `mod` 10) < 10).
  { pose proof (N.mod_lt x 10 ltac:(lia)) as Hm. apply N2Z.inj_lt in Hm.
    split; [apply N2Z.is_nonneg | exact Hm]. }
  exists (ds +:+ String c "").
  assert (Hlen : String.length (ds +:+ String c "") = S (String.length ds)).
  { rewrite string_length_app. simpl. lia. }
  rewrite Hlen.
  assert (Hpow : 10 ^ Z.of_nat (S (String.length ds))
                 = 10 * 10 ^ Z.of_nat (String.length ds)).
  { rewrite Nat2Z.inj_succ, Z.pow_succ_r by lia. done. }
  repeat split.
  - rewrite string_forall_app. simpl. by rewrite Hds, Hdig.
  - intros s. rewrite pretty_N_go_step by done. rewrite Hgo.
    fold c. by rewrite string_app_assoc.
  - intros acc. rewrite parse_digits_app, Hparse. simpl. rewrite Hval.
    f_equal. rewrite Hpow. lia.
  - lia.
  - rewrite Hpow. lia.
  - lia.
  - replace (Z.of_nat (S (String.length ds)) - 1)
      with (Z.of_nat (String.length ds)) by lia.
    destruct (decide (x `div` 10 = 0)%N) as [Hq|Hq].
    + rewrite (Hzero Hq). simpl. lia.
    + destruct Hlow as [Hl1 Hl2]; [lia|].
      replace (Z.of_nat (String.length ds))
        with (Z.succ (Z.of_nat (String.length ds) - 1)) by lia.
      rewrite Z.pow_succ_r by lia. lia.
Qed.

(** The text of a non-negative integer: digits that read back as it. *)
Lemma pretty_Z_digits (z : Z) :
  0 <= z ->
  string_forall is_digit (pretty z) = true /\
  (0 < String.length (pretty z))%nat /\
  parse_digits 0 (pretty z) = Some z /\
  (forall d : nat, (1 <= d)%nat -> z < 10 ^ Z.of_nat d ->
     (String.length (pretty z) <= d)%nat).
Proof.
  intros Hz. destruct z as [|p|p]; [|clear Hz|lia].
  { split; [done|]. split; [simpl; lia|]. split; [done|].
    intros d Hd _. simpl. lia. }
  change (pretty (Z.pos p)) with (pretty_N_go (N.pos p) "").
  destruct (pretty_N_go_digits (N.pos p))
    as (ds & Hds & Hgo & Hparse & _ & Hup & Hlow).
  destruct Hlow as [Hl1 Hl2]; [lia|].
  rewrite Hgo.
  assert (E : ds +:+ "" = ds).
  { clear. induction ds as [|c ds IH]; [done|].
    rewrite string_app_cons. by rewrite IH. }
  rewrite E. split; [exact Hds|]. split; [exact Hl1|]. split.
  - rewrite Hparse. f_equal.
  - intros d Hd Hlt.
    assert (Hpw : 10 ^ (Z.of_nat (String.length ds) - 1) < 10 ^ Z.of_nat d).
    { change (Z.of_N (N.pos p)) with (Z.pos p) in Hl2. lia. }
    apply Z.pow_lt_mono_r_iff in Hpw; lia.
Qed.

End NumberTextFacts.

Section FormatFacts.
Local Open Scope Q_scope.

Lemma string_app_nil_r (s : string) : s +:+ "" = s.
Proof.
  induction s as [|c s IH]; [done|]. rewrite string_app_cons. by rewrite IH.
Qed.

Lemma split_on_app_sep (sep : ascii) (a b : string) :
  string_forall (fun c => negb (Ascii.eqb c sep)) a = true ->
  split_on sep (a +:+ String sep b) = a :: split_on sep b.
Proof.
  induction a as [|c a IH]; intros Ha.
  - rewrite string_app_nil_l. simpl. by rewrite Ascii.eqb_refl.
  - simpl in Ha. apply andb_true_iff in Ha as [Hc Ha].
    rewrite string_app_cons. simpl.
    apply negb_true_iff in Hc. rewrite Hc, (IH Ha). done.
Qed.

Lemma split_on_none (sep : ascii) (b : string) :
  string_forall (fun c => negb (Ascii.eqb c sep)) b = true ->
  split_on sep b = [b].
Proof.
  induction b as [|c b IH]; intros Hb; [done|].
  simpl in Hb. apply andb_true_iff in Hb as [Hc Hb].
  simpl. apply negb_true_iff in Hc. by rewrite Hc, (IH Hb).
Qed.

Lemma remove_char_none (sep : ascii) (b : string) :
  string_forall (fun c => negb (Ascii.eqb c sep)) b = true ->
  remove_char sep b = b.
Proof.
  induction b as [|c b IH]; intros Hb; [done|].
  simpl in Hb. apply andb_true_iff in Hb as [Hc Hb].
  simpl. apply negb_true_iff in Hc. by rewrite Hc, (IH Hb).
Qed.

Lemma remove_char_app (sep : ascii) (a b : string) :
  remove_char sep (a +:+ b) = remove_char sep a +:+ remove_char sep b.
Proof.
  induction a as [|c a IH]; [done|]. rewrite string_app_cons. simpl.
  destruct (Ascii.eqb c sep); [done|]. by rewrite string_app_cons, IH.
Qed.

Lemma digit_not (sep : ascii) (c : ascii) :
  is_digit sep = false -> is_digit c = true -> negb (Ascii.eqb c sep) = true.
Proof.
  intros Hsep Hc. apply negb_true_iff.
  destruct (Ascii.eqb_spec c sep) as [->|]; [congruence | done].
Qed.

Lemma digits_without (sep : ascii) (s : string) :
  is_digit sep = false -> string_forall is_digit s = true ->
  string_forall (fun c => negb (Ascii.eqb c sep)) s = true.
Proof.
  intros Hsep. apply string_forall_impl. intros c. by apply digit_not.
Qed.

(** A run of [k] zeros. *)
Lemma zeros_cons (k : nat) :
  String.concat "" (replicate (S k) "0"%string)
  = String "0" (String.concat "" (replicate k "0"%string)).
Proof. destruct k; reflexivity. Qed.

Lemma zeros_facts (k : nat) :
  let zeros := String.concat "" (replicate k "0"%string) in
  String.length zeros = k /\
  string_forall is_digit zeros = true /\
  forall s, parse_digits 0 (zeros +:+ s) = parse_digits 0 s.
Proof.
  induction k as [|k (IH1 & IH2 & IH3)]; [done|].
  cbv zeta. rewrite zeros_cons. simpl String.length. rewrite IH1.
  split; [done|]. split.
  - simpl. exact IH2.
  - intros s. rewrite string_app_cons. simpl. apply IH3.
Qed.

(** The fraction digits of a formatted number. *)
Lemma pad_zeros_facts (d : nat) (f : Z) :
  (1 <= d)%nat -> (0 <= f)%Z -> (f < 10 ^ Z.of_nat d)%Z ->
  String.length (pad_zeros d (pretty f)) = d /\
  string_forall is_digit (pad_zeros d (pretty f)) = true /\
  parse_digits 0 (pad_zeros d (pretty f)) = Some f.
Proof.
  intros Hd Hf Hlt.
  destruct (pretty_Z_digits f Hf) as (Hdig & Hpos & Hparse & Hlen).
  specialize (Hlen d Hd Hlt). unfold pad_zeros.
  destruct (zeros_facts (d - String.length (pretty f)))
    as (Z1 & Z2 & Z3).
  cbv zeta in Z1, Z2, Z3.
  rewrite string_length_app, Z1, string_forall_app, Z2, Hdig, Z3.
  repeat split; [lia | done].
Qed.

Lemma round_half_even_nonneg (x : Q) : 0 <= x -> (0 <= round_half_even x)%Z.
Proof.
  intros Hx. unfold round_half_even.
  assert (H0 : (0 <= Qfloor x)%Z).
  { change 0%Z with (Qfloor 0). by apply Qfloor_resp_le. }
  destruct (Qltb _ _); [done|]. destruct (Qgtb _ _); [lia|].
  destruct (Z.even _); lia.
Qed.

Lemma parse_signless (c : ascii) (r : string) :
  is_digit c = true ->
  match String c r with
  | String "-"%char r' => (true, r')
  | String "+"%char r' => (false, r')
  | _ => (false, String c r)
  end = (false, String c r).
Proof.
  destruct c as [[] [] [] [] [] [] [] []]; try discriminate; reflexivity.
Qed.

(** The text of a fixed-point number reads back as the number rounded to
    its [d] decimals, and holds nothing but digits, a point and a sign. *)
Lemma parse_float_format_fixed (plus : bool) (d : nat) (q : Q) :
  (1 <= d)%nat ->
  string_forall number_char (format_fixed plus d q) = true /\
  exists v, parse_float (format_fixed plus d q) = Some v /\ v == py_round q d.
Proof.
  intros Hd. unfold format_fixed, py_round.
  set (scale := (10 ^ Z.of_nat d)%Z).
  assert (Hscale : (0 < scale)%Z) by (subst scale; apply Z.pow_pos_nonneg; lia).
  set (n := round_half_even (Qabs q * inject_Z scale)).
  assert (Hn : (0 <= n)%Z).
  { subst n. apply round_half_even_nonneg.
    apply Qmult_le_0_compat; [apply Qabs_nonneg|].
    change 0 with (inject_Z 0). rewrite <- Zle_Qle. lia. }
  assert (Hw : (0 <= n / scale)%Z) by (apply Z.div_pos; lia).
  pose proof (Z.mod_pos_bound n scale Hscale) as [Hf0 Hf1].
  destruct (pretty_Z_digits (n / scale) Hw) as (Wdig & Wpos & Wparse & _).
  destruct (pad_zeros_facts d (n mod scale) Hd Hf0 Hf1)
    as (Flen & Fdig & Fparse).
  set (W := pretty (n / scale)%Z) in *.
  set (F := pad_zeros d (pretty (n mod scale)%Z)) in *.
  assert (Hbody_chars : string_forall number_char (W +:+ "." +:+ F) = true).
  { rewrite !string_forall_app.
    rewrite (string_forall_impl is_digit number_char W),
            (string_forall_impl is_digit number_char F); try done;
      intros c Hc; unfold number_char; by rewrite Hc. }
  assert (Hsplit : split_on "." (W +:+ "." +:+ F) = [W; F]).
  { change ("." +:+ F) with (String "." F).
    rewrite split_on_app_sep by (by apply digits_without).
    rewrite split_on_none by (by apply digits_without). done. }
  assert (Hvalue :
    inject_Z (n / scale) + inject_Z (n mod scale) / inject_Z scale
    == inject_Z n / inject_Z scale).
  { assert (Hnz : ~ inject_Z scale == 0).
    { change 0 with (inject_Z 0). rewrite inject_Z_injective. lia. }
    pose proof (Z.div_mod n scale ltac:(lia)) as Hdm.
    revert Hdm. generalize (n / scale)%Z (n mod scale)%Z. intros w f ->.
    rewrite inject_Z_plus, inject_Z_mult. field. exact Hnz. }
  destruct W as [|c W'] eqn:HW; [simpl in Wpos; lia|].
  assert (Hc : is_digit c = true).
  { simpl in Wdig. by apply andb_true_iff in Wdig as [? _]. }
  unfold parse_float.
  destruct (Qltb q 0); [|destruct plus].
  - split; [rewrite string_forall_app; by rewrite Hbody_chars|].
    rewrite string_app_cons, string_app_nil_l. cbv iota beta.
    rewrite Hsplit, Wparse, Fparse, Flen.
    destruct (Nat.ltb_spec 0 (String.length (String c W'))); [|simpl in *; lia].
    destruct (Nat.ltb_spec 0 d); [|lia]. simpl andb. cbv iota.
    eexists. split; [reflexivity|]. fold scale. rewrite Hvalue. reflexivity.
  - split; [rewrite string_forall_app; by rewrite Hbody_chars|].
    rewrite string_app_cons, string_app_nil_l. cbv iota beta.
    rewrite Hsplit, Wparse, Fparse, Flen.
    destruct (Nat.ltb_spec 0 (String.length (String c W'))); [|simpl in *; lia].
    destruct (Nat.ltb_spec 0 d); [|lia]. simpl andb. cbv iota.
    eexists. split; [reflexivity|]. fold scale. rewrite Hvalue. reflexivity.
  - split; [by rewrite string_app_nil_l|].
    rewrite string_app_nil_l, string_app_cons.
    rewrite (parse_signless c _ Hc). rewrite <- string_app_cons.
    rewrite Hsplit, Wparse, Fparse, Flen.
    destruct (Nat.ltb_spec 0 (String.length (String c W'))); [|simpl in *; lia].
    destruct (Nat.ltb_spec 0 d); [|lia]. simpl andb. cbv iota.
    eexists. split; [reflexivity|]. fold scale. rewrite Hvalue. reflexivity.
Qed.

End FormatFacts.

(** ** The indicator texts and the numbers read back from them *)

Section TextExtraction.
Local Open Scope Q_scope.

(** A character of the formatted indicator values: no space, no comma. *)
Lemma number_char_plain (c : ascii) :
  number_char c = true ->
  negb (Ascii.eqb c " ") = true /\ negb (Ascii.eqb c ",") = true.
Proof.
  intros Hc. split; apply negb_true_iff.
  - destruct (Ascii.eqb_spec c " ") as [->|]; [discriminate | done].
  - destruct (Ascii.eqb_spec c ",") as [->|]; [discriminate | done].
Qed.

Lemma format_strategy_number_plain (value : option Q) :
  string_forall (fun c => negb (Ascii.eqb c " ")) (format_strategy_number value)
  = true /\
  string_forall (fun c => negb (Ascii.eqb c ",")) (format_strategy_number value)
  = true.
Proof.
  destruct value as [x|]; [|done]. unfold format_strategy_number.
  destruct (parse_float_format_fixed false 2 x) as [Hchars _]; [lia|].
  split; revert Hchars; apply string_forall_impl; intros c Hc;
    by destruct (number_char_plain c Hc).
Qed.

Lemma parse_float_format_strategy_number (value : option Q) :
  match value with
  | Some x =>
    exists v, parse_float (format_strategy_number value) = Some v /\
              v == py_round x 2
  | None => parse_float (format_strategy_number value) = None
  end.
Proof.
  destruct value as [x|]; [|done]. unfold format_strategy_number.
  destruct (parse_float_format_fixed false 2 x) as [_ Hv]; [lia|]. exact Hv.
Qed.

Lemma arrow_head : exists tail, arrow = String " " tail.
Proof. by eexists. Qed.

(** What the two helpers of [main] read from the snapshot texts: the
    number texts that [format_strategy_number] wrote. *)
Lemma safe_extract_rsi_text (value : option Q) (trend : string) :
  safe_extract_rsi (format_strategy_number value +:+ arrow +:+ trend)
  = match parse_float (format_strategy_number value) with
    | Some v => PFloat v
    | None => PNone
    end.
Proof.
  destruct arrow_head as [tail ->].
  destruct (format_strategy_number_plain value) as [Hspace _].
  unfold safe_extract_rsi. rewrite string_app_cons.
  by rewrite (split_on_app_sep " " _ _ Hspace).
Qed.

Lemma safe_extract_stoch_text (k d : option Q) (trend : string) :
  safe_extract_stoch
    ("%K " +:+ format_strategy_number k +:+ ", %D "
     +:+ format_strategy_number d +:+ arrow +:+ trend)
  = match parse_float (format_strategy_number k),
          parse_float (format_strategy_number d) with
    | Some vk, Some vd => (PFloat vk, PFloat vd)
    | _, _ => (PNone, PNone)
    end.
Proof.
  destruct arrow_head as [tail ->].
  destruct (format_strategy_number_plain k) as [Kspace Kcomma].
  destruct (format_strategy_number_plain d) as [Dspace Dcomma].
  set (K := format_strategy_number k) in *.
  set (D := format_strategy_number d) in *.
  assert (Hparts : exists more,
    split_on " " ("%K " +:+ K +:+ ", %D " +:+ D +:+ String " " tail +:+ trend)
    = "%K"%string :: (K +:+ ",") :: "%D"%string :: D :: more).
  { exists (split_on " " (tail +:+ trend)).
    change ("%K " +:+ K +:+ ", %D " +:+ D +:+ String " " tail +:+ trend)
      with ("%K" +:+ String " "
              (K +:+ "," +:+ String " "
                 ("%D" +:+ String " " (D +:+ String " " tail +:+ trend)))).
    rewrite (split_on_app_sep " " "%K") by done. f_equal.
    rewrite <- string_app_assoc.
    rewrite (split_on_app_sep " " (K +:+ ","))
      by (rewrite string_forall_app, Kspace; done).
    f_equal. rewrite (split_on_app_sep " " "%D") by done. f_equal.
    rewrite string_app_cons. by rewrite (split_on_app_sep " " D). }
  destruct Hparts as [more Hparts]. unfold safe_extract_stoch.
  rewrite Hparts. cbn [lookup list_lookup].
  rewrite remove_char_app, (remove_char_none "," K Kcomma),
          (remove_char_none "," D Dcomma).
  change (remove_char "," ",") with ""%string. by rewrite string_app_nil_r.
Qed.

(** X16: from the RSI text of the snapshot [safe_extract_rsi] reads back
    the value that [format_strategy_number] wrote, rounded to two decimals,
    and null when that value is NaN. *)
Theorem rsi_text_round_trip (value : option Q) (trend : string) :
  let text := format_strategy_number value +:+ arrow +:+ trend in
  match value with
  | Some x => exists v, safe_extract_rsi text = PFloat v /\ v == py_round x 2
  | None => safe_extract_rsi text = PNone
  end.
Proof.
  cbv zeta. rewrite safe_extract_rsi_text.
  pose proof (parse_float_format_strategy_number value) as Hparse.
  destruct value as [x|].
  - destruct Hparse as (v & -> & Hv). by exists v.
  - by rewrite Hparse.
Qed.

(** X17: from the stochastic text of the snapshot [safe_extract_stoch]
    reads back both values rounded to two decimals when both are numbers;
    when either is NaN the pair is null, also the value that was a
    number. *)
Theorem stochastic_text_round_trip (k d : option Q) (trend : string) :
  let text :=
    "%K " +:+ format_strategy_number k +:+ ", %D "
    +:+ format_strategy_number d +:+ arrow +:+ trend in
  match k, d with
  | Some x, Some y =>
    exists vk vd, safe_extract_stoch text = (PFloat vk, PFloat vd) /\
                  vk == py_round x 2 /\ vd == py_round y 2
  | _, _ => safe_extract_stoch text = (PNone, PNone)
  end.
Proof.
  cbv zeta. rewrite safe_extract_stoch_text.
  pose proof (parse_float_format_strategy_number k) as Kparse.
  pose proof (parse_float_format_strategy_number d) as Dparse.
  destruct k as [x|], d as [y|].
  - destruct Kparse as (vk & -> & Hk), Dparse as (vd & -> & Hd).
    by exists vk, vd.
  - destruct Kparse as (vk & -> & Hk). by rewrite Dparse.
  - by rewrite Kparse.
  - by rewrite Kparse.
Qed.

End TextExtraction.

(** ** The command-line wrapper *)

Section CliProperties.
Local Open Scope Q_scope.
Variable ta : ta_lib.
Variable w : world.

Lemma response_lookup (v1 v2 v3 v4 v5 v6 v7 v8 v9 v10 v11 v12 v13 : pyval) :
  let m : gmap string pyval :=
    list_to_map
      [("pair", v1); ("timeframe", v2); ("timestamp", v3); ("signal", v4);
       ("confidence", v5); ("reason", v6); ("indicators", v7);
       ("last_price", v8); ("volume", v9); ("price_change_24h", v10);
       ("data_source", v11); ("coin_id", v12); ("strategy_details", v13)] in
  m !! "pair" = Some v1 /\ m !! "timeframe" = Some v2 /\
  m !! "signal" = Some v4 /\ m !! "indicators" = Some v7 /\
  m !! "last_price" = Some v8 /\ m !! "price_change_24h" = Some v10 /\
  m !! "coin_id" = Some v12 /\ m !! "strategy_details" = Some v13 /\
  m !! "error" = None.
Proof. repeat split; reflexivity. Qed.

Lemma response_retimed (v1 v2 v2' v3 v4 v5 v6 v7 v8 v9 v10 v11 v12 v13 : pyval) :
  <["timeframe" := v2']>
    (list_to_map
       [("pair", v1); ("timeframe", v2); ("timestamp", v3); ("signal", v4);
        ("confidence", v5); ("reason", v6); ("indicators", v7);
        ("last_price", v8); ("volume", v9); ("price_change_24h", v10);
        ("data_source", v11); ("coin_id", v12); ("strategy_details", v13)]
     : gmap string pyval)
  = list_to_map
      [("pair", v1); ("timeframe", v2'); ("timestamp", v3); ("signal", v4);
       ("confidence", v5); ("reason", v6); ("indicators", v7);
       ("last_price", v8); ("volume", v9); ("price_change_24h", v10);
       ("data_source", v11); ("coin_id", v12); ("strategy_details", v13)].
Proof. reflexivity. Qed.

Lemma rejection_lookup (v1 v2 v3 v4 : pyval) :
  let m : gmap string pyval :=
    list_to_map [("error", v1); ("pair", v2); ("timeframe", v3);
                 ("message", v4)] in
  m !! "error" = Some v1 /\ m !! "pair" = Some v2 /\
  m !! "timeframe" = Some v3 /\ m !! "message" = Some v4 /\
  m !! "signal" = None.
Proof. repeat split; reflexivity. Qed.

Lemma rejection_retimed (v1 v2 v3 v3' v4 : pyval) :
  <["timeframe" := v3']>
    (list_to_map [("error", v1); ("pair", v2); ("timeframe", v3);
                  ("message", v4)] : gmap string pyval)
  = list_to_map [("error", v1); ("pair", v2); ("timeframe", v3');
                 ("message", v4)].
Proof. reflexivity. Qed.

Lemma indicator_numbers_lookup (v1 v2 v3 v4 v5 v6 v7 v8 : pyval) :
  let m : gmap string pyval :=
    list_to_map
      [("rsi", v1); ("ema_short", v2); ("ema_long", v3); ("stoch_k", v4);
       ("stoch_d", v5); ("macd", v6); ("macd_signal", v7);
       ("current_price", v8)] in
  m !! "rsi" = Some v1 /\ m !! "ema_short" = Some v2 /\
  m !! "ema_long" = Some v3 /\ m !! "stoch_k" = Some v4 /\
  m !! "stoch_d" = Some v5 /\ m !! "macd" = Some v6 /\
  m !! "macd_signal" = Some v7 /\ m !! "current_price" = Some v8.
Proof. repeat split; reflexivity. Qed.

Lemma details_lookup (v1 v2 v3 v4 v5 v6 v7 v8 : pyval) :
  let m : gmap string pyval :=
    list_to_map
      [("tp", v1); ("sl", v2); ("support_zone", v3); ("resistance_zone", v4);
       ("ema_trend", v5); ("keltner_status", v6); ("momentum", v7);
       ("confidence_level", v8)] in
  m !! "tp" = Some v1 /\ m !! "sl" = Some v2 /\
  m !! "support_zone" = Some v3 /\ m !! "resistance_zone" = Some v4 /\
  m !! "keltner_status" = Some v6 /\ m !! "momentum" = Some v7 /\
  m !! "confidence_level" = Some v8.
Proof. repeat split; reflexivity. Qed.

(** The response that [main] builds from a strategy result that holds the
    entries it reads. *)
Lemma build_response_of_entries (df : DataFrame)
    (result snap texts : gmap string pyval)
    (signal tp sl price support resistance ema keltner momentum level : pyval)
    (rsi_text stoch_text : string) (pair timeframe coin_id : string) :
  result !! "snapshot" = Some (PDict snap) ->
  result !! "signal" = Some signal ->
  result !! "tp" = Some tp ->
  result !! "sl" = Some sl ->
  result !! "confidence" = None ->
  snap !! "indicators" = Some (PDict texts) ->
  snap !! "current_price" = Some price ->
  snap !! "support_zone" = Some support ->
  snap !! "resistance_zone" = Some resistance ->
  texts !! "rsi" = Some (PStr rsi_text) ->
  texts !! "stochastic" = Some (PStr stoch_text) ->
  texts !! "ema" = Some ema ->
  texts !! "keltner" = Some keltner ->
  texts !! "momentum" = Some momentum ->
  texts !! "confidence" = Some level ->
  build_response w pair timeframe coin_id df result
  = Some (list_to_map
      [("pair", PStr pair);
       ("timeframe", PStr timeframe);
       ("timestamp", PStr (now_isoformat w));
       ("signal", signal);
       ("confidence", PInt 50);
       ("reason", PStr ("Advanced strategy analysis with "
                        +:+ pretty (length (rows df)) +:+ " data points"));
       ("indicators", PDict (list_to_map
          [("rsi", safe_extract_rsi rsi_text);
           ("ema_short", PNone);
           ("ema_long", PNone);
           ("stoch_k", (safe_extract_stoch stoch_text).1);
           ("stoch_d", (safe_extract_stoch stoch_text).2);
           ("macd", PNone);
           ("macd_signal", PNone);
           ("current_price", price)]));
       ("last_price",
        PFloat (py_round
                  match get_current_price_data w coin_id with
                  | Some p => info_current_price p
                  | None => iloc_neg (col Close df) 1 0
                  end 10));
       ("volume", PInt (truncate (iloc_neg (col Volume df) 1 0)));
       ("price_change_24h",
        match get_current_price_data w coin_id with
        | Some p =>
          if Qeq_bool (info_price_change_24h p) 0 then PNone
          else PFloat (py_round (info_price_change_24h p) 2)
        | None => PNone
        end);
       ("data_source", PStr "CoinGecko API + Advanced Strategy");
       ("coin_id", PStr coin_id);
       ("strategy_details", PDict (list_to_map
          [("tp", tp);
           ("sl", sl);
           ("support_zone", support);
           ("resistance_zone", resistance);
           ("ema_trend", ema);
           ("keltner_status", keltner);
           ("momentum", momentum);
           ("confidence_level", level)]))]).
Proof.
  intros Hsnap Hs Htp Hsl Hconf Hi Hp Hsz Hrz T1 T2 T3 T4 T5 T6.
  unfold build_response, dict_get.
  rewrite Hsnap, Hs, Htp, Hsl, Hconf.
  cbn [mbind option_bind item py_int]. rewrite Hi, Hp, Hsz, Hrz.
  cbn [mbind option_bind item]. rewrite T1, T2, T3, T4, T5, T6.
  cbn [mbind option_bind default as_text].
  destruct (safe_extract_stoch _) as [k_val d_val].
  destruct (get_current_price_data w coin_id) as [p|]; reflexivity.
Qed.

(** On a successful run every one of these entries is present. *)
Lemma build_response_success (df : DataFrame) :
  (run_strategy ta (chart_file_written w) (Some df)).2 = true ->
  let d := final_decision ta df in
  let ind := compute_indicators ta df in
  exists ema_trend rsi_trend stoch_trend : string,
  forall pair timeframe coin_id,
    build_response w pair timeframe coin_id df
      (run_strategy ta (chart_file_written w) (Some df)).1
    = Some (list_to_map
        [("pair", PStr pair);
         ("timeframe", PStr timeframe);
         ("timestamp", PStr (now_isoformat w));
         ("signal", PStr (signal_type d));
         ("confidence", PInt 50);
         ("reason", PStr ("Advanced strategy analysis with "
                          +:+ pretty (length (rows df)) +:+ " data points"));
         ("indicators", PDict (list_to_map
            [("rsi", safe_extract_rsi
                       (format_strategy_number (iloc_neg (rsi ind) 1 None)
                        +:+ arrow +:+ rsi_trend));
             ("ema_short", PNone);
             ("ema_long", PNone);
             ("stoch_k",
              (safe_extract_stoch
                 ("%K "
                  +:+ format_strategy_number (iloc_neg (stoch_k ind) 1 None)
                  +:+ ", %D "
                  +:+ format_strategy_number (iloc_neg (stoch_d ind) 1 None)
                  +:+ arrow +:+ stoch_trend)).1);
             ("stoch_d",
              (safe_extract_stoch
                 ("%K "
                  +:+ format_strategy_number (iloc_neg (stoch_k ind) 1 None)
                  +:+ ", %D "
                  +:+ format_strategy_number (iloc_neg (stoch_d ind) 1 None)
                  +:+ arrow +:+ stoch_trend)).2);
             ("macd", PNone);
             ("macd_signal", PNone);
             ("current_price", PFloat (current_price ind))]));
         ("last_price",
          PFloat (py_round
                    match get_current_price_data w coin_id with
                    | Some p => info_current_price p
                    | None => iloc_neg (col Close df) 1 0
                    end 10));
         ("volume", PInt (truncate (iloc_neg (col Volume df) 1 0)));
         ("price_change_24h",
          match get_current_price_data w coin_id with
          | Some p =>
            if Qeq_bool (info_price_change_24h p) 0 then PNone
            else PFloat (py_round (info_price_change_24h p) 2)
          | None => PNone
          end);
         ("data_source", PStr "CoinGecko API + Advanced Strategy");
         ("coin_id", PStr coin_id);
         ("strategy_details", PDict (list_to_map
            [("tp", level_value (tp d));
             ("sl", level_value (sl d));
             ("support_zone", PStr (zone_str (support_zone ind)));
             ("resistance_zone", PStr (zone_str (resistance_zone ind)));
             ("ema_trend", PStr ema_trend);
             ("keltner_status", PStr (keltner_status ind));
             ("momentum", PStr (momentum_status (conditions_of ta df)));
             ("confidence_level",
              PStr (confidence_status (confidence d)))]))]).
Proof.
  intros Hok d ind.
  destruct (run_strategy_success ta (chart_file_written w) df Hok)
    as (_ & _ & _ & Hs & Htp & Hsl & Hsnap & Hconf).
  destruct (snapshot_object_fields ta df)
    as (_ & H2 & _ & _ & H5 & H6 & texts & rsi_trend & stoch_trend
        & ema_trend & Hi & T1 & T2 & T3 & T4 & T5 & T6).
  exists ema_trend, rsi_trend, stoch_trend. intros pair timeframe coin_id.
  exact (build_response_of_entries df _ _ _ _ _ _ _ _ _ _ _ _ _ _ _
           pair timeframe coin_id
           Hsnap Hs Htp Hsl Hconf Hi H2 H5 H6 T1 T2 T3 T4 T5 T6).
Qed.

(** The outcomes of [main], case by case. *)
Lemma main_cases (argv : list string) :
  match argv !! 1%nat with
  | None =>
    main ta w argv
    = Rejected (list_to_map [("error", PStr "Trading pair is required")])
  | Some arg =>
    let pair := upper arg in
    let timeframe := default "15m"%string (argv !! 2%nat) in
    let coin_id := get_coingecko_id pair in
    match get_coingecko_market_data w coin_id 7 with
    | Some (first_row :: more_rows) =>
      let df := {| name := pair; rows := first_row :: more_rows |} in
      let res := run_strategy ta (chart_file_written w) (Some df) in
      if res.2 then
        exists response,
          build_response w pair timeframe coin_id df res.1 = Some response /\
          main ta w argv = Responded response
      else
        main ta w argv
        = Rejected (list_to_map
            [("error", PStr "Strategy analysis failed");
             ("pair", PStr pair);
             ("timeframe", PStr timeframe);
             ("message", dict_get res.1 "snapshot" (PStr "Unknown error"))])
    | _ =>
      main ta w argv
      = Rejected (list_to_map
          [("error", PStr ("Unable to fetch data for " +:+ pair));
           ("pair", PStr pair);
           ("timeframe", PStr timeframe);
           ("message",
            PStr ("Cryptocurrency not found. Tried ID: " +:+ coin_id
                  +:+ ". Please check the symbol (e.g., PEPEUSDT, BTCUSDT, SHIBUSDT)"))])
    end
  end.
Proof.
  unfold main. destruct (argv !! 1%nat) as [arg|]; [|done]. cbv zeta.
  destruct (get_coingecko_market_data w _ 7) as [[|first_row more_rows]|];
    [done| |done].
  set (df := {| name := upper arg; rows := first_row :: more_rows |}).
  pose proof (build_response_success df) as Hb.
  destruct (run_strategy ta (chart_file_written w) (Some df))
    as [strategy_result success].
  cbn [fst snd] in *. destruct success; [|done]. cbn [negb].
  destruct (Hb eq_refl) as (ema_trend & rsi_trend & stoch_trend & Hresponse).
  rewrite Hresponse. eexists. split; reflexivity.
Qed.

(** The entries of a printed response, in terms of the engine's values. *)
Lemma main_response_entries (argv : list string)
    (response : gmap string pyval) :
  main ta w argv = Responded response ->
  exists arg candles,
    argv !! 1%nat = Some arg /\
    get_coingecko_market_data w (get_coingecko_id (upper arg)) 7
    = Some candles /\
    let coin_id := get_coingecko_id (upper arg) in
    let df := {| name := upper arg; rows := candles |} in
    let d := final_decision ta df in
    let ind := compute_indicators ta df in
    (run_strategy ta (chart_file_written w) (Some df)).2 = true /\
    response !! "pair" = Some (PStr (upper arg)) /\
    response !! "timeframe"
    = Some (PStr (default "15m"%string (argv !! 2%nat))) /\
    response !! "signal" = Some (PStr (signal_type d)) /\
    response !! "coin_id" = Some (PStr coin_id) /\
    response !! "error" = None /\
    response !! "last_price"
    = Some (PFloat (py_round
                      match get_current_price_data w coin_id with
                      | Some p => info_current_price p
                      | None => iloc_neg (col Close df) 1 0
                      end 10)) /\
    response !! "price_change_24h"
    = Some match get_current_price_data w coin_id with
           | Some p =>
             if Qeq_bool (info_price_change_24h p) 0 then PNone
             else PFloat (py_round (info_price_change_24h p) 2)
           | None => PNone
           end /\
    exists (numbers details : gmap string pyval) (rsi_trend stoch_trend : string),
      response !! "indicators" = Some (PDict numbers) /\
      response !! "strategy_details" = Some (PDict details) /\
      numbers !! "rsi"
      = Some (safe_extract_rsi
                (format_strategy_number (iloc_neg (rsi ind) 1 None)
                 +:+ arrow +:+ rsi_trend)) /\
      numbers !! "stoch_k"
      = Some (safe_extract_stoch
                ("%K "
                 +:+ format_strategy_number (iloc_neg (stoch_k ind) 1 None)
                 +:+ ", %D "
                 +:+ format_strategy_number (iloc_neg (stoch_d ind) 1 None)
                 +:+ arrow +:+ stoch_trend)).1 /\
      numbers !! "stoch_d"
      = Some (safe_extract_stoch
                ("%K "
                 +:+ format_strategy_number (iloc_neg (stoch_k ind) 1 None)
                 +:+ ", %D "
                 +:+ format_strategy_number (iloc_neg (stoch_d ind) 1 None)
                 +:+ arrow +:+ stoch_trend)).2 /\
      numbers !! "ema_short" = Some PNone /\
      numbers !! "ema_long" = Some PNone /\
      numbers !! "macd" = Some PNone /\
      numbers !! "macd_signal" = Some PNone /\
      numbers !! "current_price" = Some (PFloat (current_price ind)) /\
      details !! "tp" = Some (level_value (tp d)) /\
      details !! "sl" = Some (level_value (sl d)) /\
      details !! "support_zone" = Some (PStr (zone_str (support_zone ind))) /\
      details !! "resistance_zone"
      = Some (PStr (zone_str (resistance_zone ind))).
Proof.
  intros Hmain. pose proof (main_cases argv) as H.
  destruct (argv !! 1%nat) as [arg|] eqn:Harg; [|congruence]. cbv zeta in H.
  exists arg.
  destruct (get_coingecko_market_data w _ 7) as [[|first_row more_rows]|];
    [congruence| |congruence].
  exists (first_row :: more_rows). split; [done|]. split; [done|]. cbv zeta.
  set (df := {| name := upper arg; rows := first_row :: more_rows |}) in *.
  destruct (run_strategy ta (chart_file_written w) (Some df)).2 eqn:Hok;
    [|congruence].
  destruct H as (response' & Hbuild & Hmain').
  assert (response' = response) as -> by congruence.
  destruct (build_response_success df Hok)
    as (ema_trend & rsi_trend & stoch_trend & Hresponse).
  rewrite Hresponse in Hbuild. apply (inj Some) in Hbuild.
  split; [done|].
  match type of Hbuild with
  | list_to_map [("pair", ?v1); ("timeframe", ?v2); ("timestamp", ?v3);
                 ("signal", ?v4); ("confidence", ?v5); ("reason", ?v6);
                 ("indicators", PDict (list_to_map
                    [("rsi", ?n1); ("ema_short", ?n2); ("ema_long", ?n3);
                     ("stoch_k", ?n4); ("stoch_d", ?n5); ("macd", ?n6);
                     ("macd_signal", ?n7); ("current_price", ?n8)]));
                 ("last_price", ?v8); ("volume", ?v9);
                 ("price_change_24h", ?v10); ("data_source", ?v11);
                 ("coin_id", ?v12);
                 ("strategy_details", PDict (list_to_map
                    [("tp", ?s1); ("sl", ?s2); ("support_zone", ?s3);
                     ("resistance_zone", ?s4); ("ema_trend", ?s5);
                     ("keltner_status", ?s6); ("momentum", ?s7);
                     ("confidence_level", ?s8)]))] = _ =>
    destruct (response_lookup v1 v2 v3 v4 v5 v6
                (PDict (list_to_map
                    [("rsi", n1); ("ema_short", n2); ("ema_long", n3);
                     ("stoch_k", n4); ("stoch_d", n5); ("macd", n6);
                     ("macd_signal", n7); ("current_price", n8)]))
                v8 v9 v10 v11 v12
                (PDict (list_to_map
                    [("tp", s1); ("sl", s2); ("support_zone", s3);
                     ("resistance_zone", s4); ("ema_trend", s5);
                     ("keltner_status", s6); ("momentum", s7);
                     ("confidence_level", s8)])))
      as (R1 & R2 & R3 & R4 & R5 & R6 & R7 & R8 & R9);
    destruct (indicator_numbers_lookup n1 n2 n3 n4 n5 n6 n7 n8)
      as (N1 & N2 & N3 & N4 & N5 & N6 & N7 & N8);
    destruct (details_lookup s1 s2 s3 s4 s5 s6 s7 s8)
      as (D1 & D2 & D3 & D4 & _)
  end.
  cbv zeta in R1, R2, R3, R4, R5, R6, R7, R8, R9.
  rewrite Hbuild in R1, R2, R3, R4, R5, R6, R7, R8, R9.
  repeat (split; [assumption|]).
  eexists _, _, rsi_trend, stoch_trend.
  split; [exact R4|]. split; [exact R8|].
  repeat (split; [assumption|]). assumption.
Qed.

(** X18: on a successful strategy result every key that [main] reads is
    present: building the response raises no [KeyError]. *)
Theorem response_keys_present (df : DataFrame)
    (pair timeframe coin_id : string) :
  (run_strategy ta (chart_file_written w) (Some df)).2 = true ->
  is_Some (build_response w pair timeframe coin_id df
             (run_strategy ta (chart_file_written w) (Some df)).1).
Proof.
  intros Hok.
  destruct (build_response_success df Hok)
    as (ema_trend & rsi_trend & stoch_trend & Hresponse).
  rewrite Hresponse. by eexists.
Qed.

(** X19: [main] prints a response exactly when a pair was given, the provider
    returned candles for its id, and [run_strategy] succeeded on them. *)
Theorem main_responds_iff (argv : list string) :
  (exists response, main ta w argv = Responded response) <->
  (exists arg candles,
     argv !! 1%nat = Some arg /\
     get_coingecko_market_data w (get_coingecko_id (upper arg)) 7
     = Some candles /\
     (run_strategy ta (chart_file_written w)
        (Some {| name := upper arg; rows := candles |})).2 = true).
Proof.
  pose proof (main_cases argv) as H. split.
  - intros [response Hmain].
    destruct (argv !! 1%nat) as [arg|]; [|congruence]. cbv zeta in H.
    exists arg.
    destruct (get_coingecko_market_data w _ 7) as [[|first_row more_rows]|];
      [congruence| |congruence].
    exists (first_row :: more_rows).
    destruct (run_strategy ta _ _).2; [done | congruence].
  - intros (arg & candles & Harg & Hdata & Hok).
    rewrite Harg in H. cbv zeta in H. rewrite Hdata in H.
    destruct candles as [|first_row more_rows]; [done|].
    rewrite Hok in H. destruct H as (response & _ & Hmain). by exists response.
Qed.

(** The entries of the response of a run on [candles]. *)
Lemma main_response_on (prog arg : string) (rest : list string)
    (candles : list candle) (response : gmap string pyval) :
  get_coingecko_market_data w (get_coingecko_id (upper arg)) 7 = Some candles ->
  main ta w (prog :: arg :: rest) = Responded response ->
  let coin_id := get_coingecko_id (upper arg) in
  let df := {| name := upper arg; rows := candles |} in
  let d := final_decision ta df in
  let ind := compute_indicators ta df in
  exists (numbers details : gmap string pyval) (rsi_trend stoch_trend : string),
    response !! "pair" = Some (PStr (upper arg)) /\
    response !! "signal" = Some (PStr (signal_type d)) /\
    response !! "coin_id" = Some (PStr coin_id) /\
    response !! "last_price"
    = Some (PFloat (py_round
                      match get_current_price_data w coin_id with
                      | Some p => info_current_price p
                      | None => iloc_neg (col Close df) 1 0
                      end 10)) /\
    response !! "price_change_24h"
    = Some match get_current_price_data w coin_id with
           | Some p =>
             if Qeq_bool (info_price_change_24h p) 0 then PNone
             else PFloat (py_round (info_price_change_24h p) 2)
           | None => PNone
           end /\
    response !! "indicators" = Some (PDict numbers) /\
    response !! "strategy_details" = Some (PDict details) /\
    numbers !! "rsi"
    = Some (safe_extract_rsi
              (format_strategy_number (iloc_neg (rsi ind) 1 None)
               +:+ arrow +:+ rsi_trend)) /\
    numbers !! "stoch_k"
    = Some (safe_extract_stoch
              ("%K "
               +:+ format_strategy_number (iloc_neg (stoch_k ind) 1 None)
               +:+ ", %D "
               +:+ format_strategy_number (iloc_neg (stoch_d ind) 1 None)
               +:+ arrow +:+ stoch_trend)).1 /\
    numbers !! "stoch_d"
    = Some (safe_extract_stoch
              ("%K "
               +:+ format_strategy_number (iloc_neg (stoch_k ind) 1 None)
               +:+ ", %D "
               +:+ format_strategy_number (iloc_neg (stoch_d ind) 1 None)
               +:+ arrow +:+ stoch_trend)).2 /\
    numbers !! "ema_short" = Some PNone /\
    numbers !! "ema_long" = Some PNone /\
    numbers !! "macd" = Some PNone /\
    numbers !! "macd_signal" = Some PNone /\
    numbers !! "current_price" = Some (PFloat (iloc_neg (col Close df) 1 0)) /\
    details !! "tp" = Some (level_value (tp d)) /\
    details !! "sl" = Some (level_value (sl d)).
Proof.
  intros Hdata Hmain.
  destruct (main_response_entries _ response Hmain)
    as (arg' & candles' & Harg & Hdata' & _ & Hpair & _ & Hsignal & Hid & _
        & Hlast & Hchange & numbers & details & rsi_trend & stoch_trend
        & Hnumbers & Hdetails & N1 & N4 & N5 & N2 & N3 & N6 & N7 & N8 & D1
        & D2 & _).
  cbn [lookup list_lookup] in Harg.
  assert (arg' = arg) as -> by congruence.
  assert (candles' = candles) as -> by congruence.
  cbv zeta.
  destruct (compute_indicators_fields ta {| name := upper arg; rows := candles |})
    as (_ & _ & _ & _ & _ & _ & _ & _ & Hprice).
  rewrite Hprice in N8.
  exists numbers, details, rsi_trend, stoch_trend.
  repeat (split; [assumption|]). assumption.
Qed.

(** X20: a printed response repeats the engine's decision: the signal, the
    two levels and the last close are those of [run_strategy] on the
    provider's candles, under the upper-cased pair; the four indicator
    fields the engine does not compute are null. *)
Theorem main_response_mirrors_strategy (prog arg : string)
    (rest : list string) (candles : list candle)
    (response : gmap string pyval) :
  get_coingecko_market_data w (get_coingecko_id (upper arg)) 7 = Some candles ->
  main ta w (prog :: arg :: rest) = Responded response ->
  let df := {| name := upper arg; rows := candles |} in
  let d := final_decision ta df in
  exists numbers details : gmap string pyval,
    response !! "pair" = Some (PStr (upper arg)) /\
    response !! "coin_id" = Some (PStr (get_coingecko_id (upper arg))) /\
    response !! "signal" = Some (PStr (signal_type d)) /\
    response !! "strategy_details" = Some (PDict details) /\
    details !! "tp" = Some (level_value (tp d)) /\
    details !! "sl" = Some (level_value (sl d)) /\
    response !! "indicators" = Some (PDict numbers) /\
    numbers !! "current_price" = Some (PFloat (iloc_neg (col Close df) 1 0)) /\
    numbers !! "ema_short" = Some PNone /\
    numbers !! "ema_long" = Some PNone /\
    numbers !! "macd" = Some PNone /\
    numbers !! "macd_signal" = Some PNone.
Proof.
  intros Hdata Hmain.
  destruct (main_response_on prog arg rest candles response Hdata Hmain)
    as (numbers & details & rsi_trend & stoch_trend & Hpair & Hsignal & Hid
        & _ & _ & Hnumbers & Hdetails & _ & _ & _ & N2 & N3 & N6 & N7 & N8
        & D1 & D2).
  exists numbers, details. repeat (split; [assumption|]). assumption.
Qed.

(** X21: the indicator numbers of a response are the last RSI, %K and %D
    values rounded to two decimals; a NaN RSI gives null, and a NaN in
    either stochastic line makes both stochastic numbers null. *)
Theorem main_response_indicator_numbers (prog arg : string)
    (rest : list string) (candles : list candle)
    (response : gmap string pyval) :
  get_coingecko_market_data w (get_coingecko_id (upper arg)) 7 = Some candles ->
  main ta w (prog :: arg :: rest) = Responded response ->
  let ind := compute_indicators ta {| name := upper arg; rows := candles |} in
  exists numbers : gmap string pyval,
    response !! "indicators" = Some (PDict numbers) /\
    match iloc_neg (rsi ind) 1 None with
    | Some x =>
      exists v, numbers !! "rsi" = Some (PFloat v) /\ v == py_round x 2
    | None => numbers !! "rsi" = Some PNone
    end /\
    match iloc_neg (stoch_k ind) 1 None, iloc_neg (stoch_d ind) 1 None with
    | Some x, Some y =>
      exists vk vd,
        numbers !! "stoch_k" = Some (PFloat vk) /\
        numbers !! "stoch_d" = Some (PFloat vd) /\
        vk == py_round x 2 /\ vd == py_round y 2
    | _, _ =>
      numbers !! "stoch_k" = Some PNone /\ numbers !! "stoch_d" = Some PNone
    end.
Proof.
  intros Hdata Hmain.
  destruct (main_response_on prog arg rest candles response Hdata Hmain)
    as (numbers & details & rsi_trend & stoch_trend & _ & _ & _
        & _ & _ & Hnumbers & _ & N1 & N4 & N5 & _).
  cbv zeta. exists numbers. split; [assumption|].
  set (ind := compute_indicators ta {| name := upper arg; rows := candles |})
    in *.
  rewrite safe_extract_rsi_text in N1.
  rewrite safe_extract_stoch_text in N4, N5.
  pose proof (parse_float_format_strategy_number (iloc_neg (rsi ind) 1 None))
    as Hrsi.
  pose proof (parse_float_format_strategy_number
                (iloc_neg (stoch_k ind) 1 None)) as Hk.
  pose proof (parse_float_format_strategy_number
                (iloc_neg (stoch_d ind) 1 None)) as Hd.
  split.
  - destruct (iloc_neg (rsi ind) 1 None) as [x|].
    + destruct Hrsi as (v & Hv & Hround). exists v. by rewrite N1, Hv.
    + by rewrite N1, Hrsi.
  - destruct (iloc_neg (stoch_k ind) 1 None) as [x|],
             (iloc_neg (stoch_d ind) 1 None) as [y|].
    + destruct Hk as (vk & Hvk & Hrk), Hd as (vd & Hvd & Hrd).
      exists vk, vd. rewrite N4, N5, Hvk, Hvd. done.
    + destruct Hk as (vk & Hvk & Hrk). by rewrite N4, N5, Hvk, Hd.
    + by rewrite N4, N5, Hk.
    + by rewrite N4, N5, Hk.
Qed.

(** X22: the price fields of a response come from the provider's price
    request: its price rounded to ten decimals, or the last close when the
    request failed; the 24-hour change rounded to two decimals, and null
    when the request failed or the change is exactly zero. *)
Theorem main_response_price_fields (prog arg : string)
    (rest : list string) (candles : list candle)
    (response : gmap string pyval) :
  get_coingecko_market_data w (get_coingecko_id (upper arg)) 7 = Some candles ->
  main ta w (prog :: arg :: rest) = Responded response ->
  match get_current_price_data w (get_coingecko_id (upper arg)) with
  | Some p =>
    response !! "last_price"
    = Some (PFloat (py_round (info_current_price p) 10)) /\
    (info_price_change_24h p == 0 ->
     response !! "price_change_24h" = Some PNone) /\
    (~ info_price_change_24h p == 0 ->
     response !! "price_change_24h"
     = Some (PFloat (py_round (info_price_change_24h p) 2)))
  | None =>
    response !! "last_price"
    = Some (PFloat (py_round (iloc_neg (map Close candles) 1 0) 10)) /\
    response !! "price_change_24h" = Some PNone
  end.
Proof.
  intros Hdata Hmain.
  destruct (main_response_on prog arg rest candles response Hdata Hmain)
    as (numbers & details & rsi_trend & stoch_trend & _ & _ & _
        & Hlast & Hchange & _).
  destruct (get_current_price_data w _) as [p|]; [|done].
  split; [assumption|].
  destruct (Qeq_bool (info_price_change_24h p) 0) eqn:E.
  - split; [done|]. intros Hne. apply Qeq_bool_iff in E. contradiction.
  - split; [|done]. intros Heq. apply Qeq_bool_iff in Heq. congruence.
Qed.

(** X23: the key ["error"] tells the printed documents apart: every error
    document carries an error text and no signal, and no response has the
    key. *)
Theorem error_key_marks_rejections (argv : list string) :
  match main ta w argv with
  | Responded response =>
    response !! "error" = None /\ is_Some (response !! "signal")
  | Rejected document =>
    (exists text, document !! "error" = Some (PStr text)) /\
    document !! "signal" = None
  | Crashed => True
  end.
Proof.
  destruct (main ta w argv) as [response|document|] eqn:Hmain; [| |done].
  - destruct (main_response_entries argv response Hmain)
      as (arg & candles & _ & _ & _ & _ & _ & Hsignal & _ & Herror & _).
    by rewrite Herror, Hsignal.
  - pose proof (main_cases argv) as H.
    destruct (argv !! 1%nat) as [arg|].
    + cbv zeta in H.
      assert (Hshape : exists v1 v2 v3 v4,
                main ta w argv
                = Rejected (list_to_map [("error", PStr v1); ("pair", v2);
                                         ("timeframe", v3); ("message", v4)])).
      { destruct (get_coingecko_market_data w _ 7)
          as [[|first_row more_rows]|]; [by eexists _, _, _, _| |
                                         by eexists _, _, _, _].
        destruct (run_strategy ta _ _).2; [|by eexists _, _, _, _].
        destruct H as (response & _ & H). congruence. }
      destruct Hshape as (v1 & v2 & v3 & v4 & Hshape).
      destruct (rejection_lookup (PStr v1) v2 v3 v4) as (E1 & _ & _ & _ & E5).
      cbv zeta in E1, E5. rewrite Hmain in Hshape.
      assert (Hdoc : document
                     = list_to_map [("error", PStr v1); ("pair", v2);
                                    ("timeframe", v3); ("message", v4)])
        by congruence.
      rewrite Hdoc. split; [by exists v1 | done].
    + rewrite Hmain in H.
      assert (Hdoc : document
                     = list_to_map [("error", PStr "Trading pair is required")])
        by congruence.
      rewrite Hdoc. split; [by eexists | done].
Qed.

(** X24: the timeframe argument is a label only: with another timeframe the
    same document is printed, but for its ["timeframe"] entry. *)
Theorem timeframe_is_label (prog arg tf1 tf2 : string)
    (rest1 rest2 : list string) :
  match main ta w (prog :: arg :: tf1 :: rest1),
        main ta w (prog :: arg :: tf2 :: rest2) with
  | Responded r1, Responded r2 => <["timeframe" := PStr tf2]> r1 = r2
  | Rejected e1, Rejected e2 => <["timeframe" := PStr tf2]> e1 = e2
  | Crashed, Crashed => True
  | _, _ => False
  end.
Proof.
  pose proof (main_cases (prog :: arg :: tf1 :: rest1)) as H1.
  pose proof (main_cases (prog :: arg :: tf2 :: rest2)) as H2.
  cbn [lookup list_lookup default] in H1, H2. cbv zeta in H1, H2.
  destruct (get_coingecko_market_data w _ 7) as [[|first_row more_rows]|].
  - rewrite H1, H2. apply rejection_retimed.
  - set (df := {| name := upper arg; rows := first_row :: more_rows |}) in *.
    destruct (run_strategy ta (chart_file_written w) (Some df)).2 eqn:Hok.
    + destruct H1 as (r1 & Hb1 & ->), H2 as (r2 & Hb2 & ->).
      destruct (build_response_success df Hok)
        as (ema_trend & rsi_trend & stoch_trend & Hresponse).
      rewrite Hresponse in Hb1, Hb2.
      apply (inj Some) in Hb1, Hb2. rewrite <- Hb1, <- Hb2.
      apply response_retimed.
    + rewrite H1, H2. apply rejection_retimed.
  - rewrite H1, H2. apply rejection_retimed.
Qed.

Lemma ascii_upper_lower (c : ascii) : ascii_upper (ascii_lower c) = ascii_upper c.
Proof. destruct c as [[] [] [] [] [] [] [] []]; reflexivity. Qed.

Lemma ascii_upper_upper (c : ascii) : ascii_upper (ascii_upper c) = ascii_upper c.
Proof. destruct c as [[] [] [] [] [] [] [] []]; reflexivity. Qed.

Lemma ascii_lower_lower (c : ascii) : ascii_lower (ascii_lower c) = ascii_lower c.
Proof. destruct c as [[] [] [] [] [] [] [] []]; reflexivity. Qed.

Lemma upper_lower (s : string) : upper (lower s) = upper s.
Proof.
  induction s as [|c s IH]; [done|]. unfold upper, lower in *. simpl.
  by rewrite ascii_upper_lower, IH.
Qed.

Lemma upper_upper (s : string) : upper (upper s) = upper s.
Proof.
  induction s as [|c s IH]; [done|]. unfold upper in *. simpl.
  by rewrite ascii_upper_upper, IH.
Qed.

Lemma lower_lower (s : string) : lower (lower s) = lower s.
Proof.
  induction s as [|c s IH]; [done|]. unfold lower in *. simpl.
  by rewrite ascii_lower_lower, IH.
Qed.

(** X25: the pair argument is read without regard to case: its lower-case
    and upper-case spellings give the outcome of the argument itself (the
    case of ASCII letters; other bytes are left as they are). *)
Theorem pair_case_insensitive (prog arg : string) (rest : list string) :
  main ta w (prog :: lower arg :: rest) = main ta w (prog :: arg :: rest) /\
  main ta w (prog :: upper arg :: rest) = main ta w (prog :: arg :: rest).
Proof.
  unfold main. cbn [lookup list_lookup]. by rewrite upper_lower, upper_upper.
Qed.

(** The candles of the provider on [prices]. *)
Lemma provider_candles (prices : list (Z * Q)) :
  (50 <= length prices)%nat ->
  map snd <$> market_data_of_prices (Some prices)
  = Some (map (fun i => snd (ohlc_row prices i)) (seq 0 (length prices))).
Proof.
  intros Hlen. unfold market_data_of_prices.
  destruct prices as [|p prices]; [simpl in Hlen; lia|].
  destruct (Nat.ltb_spec (length (p :: prices)) 50) as [|_]; [lia|].
  rewrite ohlc_loop. cbn [fmap option_fmap option_map]. by rewrite map_map.
Qed.

(** X26: on the provider's candles the engine's guards never reject: when the
    price request returned 50 or more points, the last of them not zero,
    [main] prints a response, for every indicator library with aligned
    series. *)
Theorem main_on_provider_data (prog arg : string) (rest : list string)
    (prices : list (Z * Q)) :
  aligned ta ->
  get_coingecko_market_data w (get_coingecko_id (upper arg)) 7
  = (map snd <$> market_data_of_prices (Some prices)) ->
  (50 <= length prices)%nat ->
  ~ snd (nth (length prices - 1) prices (0%Z, 0)) == 0 ->
  exists response, main ta w (prog :: arg :: rest) = Responded response.
Proof.
  intros _ Hworld Hlen Hlast.
  rewrite (provider_candles prices Hlen) in Hworld.
  pose proof (main_cases (prog :: arg :: rest)) as H.
  cbn [lookup list_lookup] in H. cbv zeta in H. rewrite Hworld in H.
  destruct (length prices) as [|n] eqn:Hn; [lia|].
  rewrite seq_S, map_app in H. cbn [map Nat.add] in H.
  set (candles := map (fun i => snd (ohlc_row prices i)) (seq 0 n) ++
                  [snd (ohlc_row prices n)]) in *.
  assert (Hrows : exists first_row more_rows, candles = first_row :: more_rows).
  { destruct candles as [|first_row more_rows] eqn:E; [|by eexists _, _].
    subst candles. by destruct (map _ (seq 0 n)). }
  destruct Hrows as (first_row & more_rows & Hrows). rewrite Hrows in H.
  rewrite <- Hrows in H.
  assert (Hok : (run_strategy ta (chart_file_written w)
                   (Some {| name := upper arg; rows := candles |})).2 = true).
  { apply guards_pass.
    - unfold CANDLE_LIMIT. cbn [rows]. subst candles.
      rewrite length_app, length_map, length_seq. simpl. lia.
    - unfold col. cbn [rows]. subst candles. rewrite map_app. cbn [map].
      rewrite iloc_neg_last, ohlc_row_close.
      replace (S n - 1)%nat with n in Hlast by lia. exact Hlast. }
  rewrite Hok in H. destruct H as (response & _ & Hmain). by exists response.
Qed.

(** X27: the coin id that [get_coingecko_id] resolves is in lower case for
    every symbol: taken from one of the two tables, or lower-cased. *)
Theorem get_coingecko_id_lowercase (symbol : string) :
  lower (get_coingecko_id symbol) = get_coingecko_id symbol.
Proof.
  assert (Hpairs : map_Forall (fun _ id => lower id = id) PAIR_TO_COINGECKO_ID).
  { unfold PAIR_TO_COINGECKO_ID.
    rewrite !list_to_map_cons, list_to_map_nil.
    repeat (apply map_Forall_insert_2; [reflexivity|]).
    apply map_Forall_empty. }
  assert (Hspecial : map_Forall (fun _ id => lower id = id) special_mappings).
  { unfold special_mappings.
    rewrite !list_to_map_cons, list_to_map_nil.
    repeat (apply map_Forall_insert_2; [reflexivity|]).
    apply map_Forall_empty. }
  unfold get_coingecko_id.
  destruct (PAIR_TO_COINGECKO_ID !! symbol) as [id|] eqn:E;
    [exact (Hpairs _ _ E)|].
  destruct (endswith symbol "USDT"); [|apply lower_lower].
  destruct (special_mappings !! _) as [id|] eqn:E'; cbn [default];
    [exact (Hspecial _ _ E') | apply lower_lower].
Qed.

End CliProperties.

(** The wrapper on the sample markets. *)
Section CliSamples.
Local Open Scope Q_scope.

Lemma response_keys_present_witness :
  is_Some (build_response (offline_world rising_frame)
             "BTCUSDT" "15m" "bitcoin" rising_frame
             (run_strategy rising_ta true (Some rising_frame)).1).
Proof.
  apply (response_keys_present rising_ta (offline_world rising_frame)
           rising_frame).
  vm_compute. reflexivity.
Defined.

Lemma main_response_mirrors_strategy_witness :
  exists response,
    main rising_ta (offline_world rising_frame) ["analyze_pair.py"; "btcusdt"]
    = Responded response /\
    let df := {| name := "BTCUSDT"; rows := rows rising_frame |} in
    let d := final_decision rising_ta df in
    exists numbers details : gmap string pyval,
      response !! "pair" = Some (PStr "BTCUSDT") /\
      response !! "coin_id" = Some (PStr "bitcoin") /\
      response !! "signal" = Some (PStr (signal_type d)) /\
      response !! "strategy_details" = Some (PDict details) /\
      details !! "tp" = Some (level_value (tp d)) /\
      details !! "sl" = Some (level_value (sl d)) /\
      response !! "indicators" = Some (PDict numbers) /\
      numbers !! "current_price" = Some (PFloat (iloc_neg (col Close df) 1 0)) /\
      numbers !! "ema_short" = Some PNone /\
      numbers !! "ema_long" = Some PNone /\
      numbers !! "macd" = Some PNone /\
      numbers !! "macd_signal" = Some PNone.
Proof.
  assert (E : match main rising_ta (offline_world rising_frame)
                      ["analyze_pair.py"; "btcusdt"] with
              | Responded _ => true
              | _ => false
              end = true)
    by (vm_compute; reflexivity).
  destruct (main rising_ta (offline_world rising_frame)
              ["analyze_pair.py"; "btcusdt"])
    as [response| |] eqn:Hmain; [|discriminate E|discriminate E].
  exists response. split; [reflexivity|].
  apply (main_response_mirrors_strategy rising_ta (offline_world rising_frame)
           "analyze_pair.py" "btcusdt" [] (rows rising_frame)).
  - reflexivity.
  - exact Hmain.
Defined.

(** A library whose RSI is 61.237 and whose stochastic lines are NaN. *)
Lemma main_response_indicator_numbers_witness :
  let ta := constant_ta (Some 61.237) None 145 140 140 in
  exists response,
    main ta (offline_world rising_frame) ["analyze_pair.py"; "btcusdt"]
    = Responded response /\
    let ind := compute_indicators ta
                 {| name := "BTCUSDT"; rows := rows rising_frame |} in
    exists numbers : gmap string pyval,
      response !! "indicators" = Some (PDict numbers) /\
      match iloc_neg (rsi ind) 1 None with
      | Some x =>
        exists v, numbers !! "rsi" = Some (PFloat v) /\ v == py_round x 2
      | None => numbers !! "rsi" = Some PNone
      end /\
      match iloc_neg (stoch_k ind) 1 None, iloc_neg (stoch_d ind) 1 None with
      | Some x, Some y =>
        exists vk vd,
          numbers !! "stoch_k" = Some (PFloat vk) /\
          numbers !! "stoch_d" = Some (PFloat vd) /\
          vk == py_round x 2 /\ vd == py_round y 2
      | _, _ =>
        numbers !! "stoch_k" = Some PNone /\ numbers !! "stoch_d" = Some PNone
      end.
Proof.
  intros ta. assert (E : match main ta (offline_world rising_frame)
                      ["analyze_pair.py"; "btcusdt"] with
              | Responded _ => true
              | _ => false
              end = true)
    by (vm_compute; reflexivity).
  destruct (main ta (offline_world rising_frame) ["analyze_pair.py"; "btcusdt"])
    as [response| |] eqn:Hmain; [|discriminate E|discriminate E].
  exists response. split; [reflexivity|].
  apply (main_response_indicator_numbers ta (offline_world rising_frame)
           "analyze_pair.py" "btcusdt" [] (rows rising_frame)).
  - reflexivity.
  - exact Hmain.
Defined.

(** A price request that answers 150.123456789012 with no change. *)
Lemma main_response_price_fields_witness :
  let w := online_world rising_frame 150.123456789012 0 in
  exists response,
    main rising_ta w ["analyze_pair.py"; "btcusdt"] = Responded response /\
    match get_current_price_data w "bitcoin" with
    | Some p =>
      response !! "last_price"
      = Some (PFloat (py_round (info_current_price p) 10)) /\
      (info_price_change_24h p == 0 ->
       response !! "price_change_24h" = Some PNone) /\
      (~ info_price_change_24h p == 0 ->
       response !! "price_change_24h"
       = Some (PFloat (py_round (info_price_change_24h p) 2)))
    | None =>
      response !! "last_price"
      = Some (PFloat (py_round (iloc_neg (map Close (rows rising_frame)) 1 0) 10)) /\
      response !! "price_change_24h" = Some PNone
    end.
Proof.
  intros w. assert (E : match main rising_ta w
                      ["analyze_pair.py"; "btcusdt"] with
              | Responded _ => true
              | _ => false
              end = true)
    by (vm_compute; reflexivity).
  destruct (main rising_ta w ["analyze_pair.py"; "btcusdt"])
    as [response| |] eqn:Hmain; [|discriminate E|discriminate E].
  exists response. split; [reflexivity|].
  apply (main_response_price_fields rising_ta w
           "analyze_pair.py" "btcusdt" [] (rows rising_frame)).
  - reflexivity.
  - exact Hmain.
Defined.

Lemma main_on_provider_data_witness :
  exists response,
    main quiet_ta (provider_world sample_prices) ["analyze_pair.py"; "ethusdt"]
    = Responded response.
Proof.
  apply (main_on_provider_data quiet_ta (provider_world sample_prices)
           "analyze_pair.py" "ethusdt" [] sample_prices).
  - apply aligned_constant_ta.
  - reflexivity.
  - vm_compute. lia.
  - vm_compute. discriminate.
Defined.

End CliSamples.

(** ** The scoring of the development variant *)

Section DevProperties.
Local Open Scope Q_scope.

(** The counters after the five blocks, and the three outcomes of the
    thresholds with the confidence each one reports. *)
Lemma score_cases (v : latest_values) :
  let t := score v in
  (total_signals t == 10 /\
   0 <= buy_signals t /\ 0 <= sell_signals t /\
   5 <= buy_signals t + sell_signals t /\
   buy_signals t + sell_signals t <= 10) /\
  ((Qgtb (buy_confidence t) 60 = true /\
    (65 <= truncate (buy_confidence t) <= 100)%Z /\
    Qgtb (sell_confidence t) 60 = false) \/
   (Qgtb (buy_confidence t) 60 = false /\
    Qgtb (sell_confidence t) 60 = true /\
    (65 <= truncate (sell_confidence t) <= 100)%Z) \/
   (Qgtb (buy_confidence t) 60 = false /\
    Qgtb (sell_confidence t) 60 = false /\
    (25 <= truncate (py_max (buy_confidence t) (sell_confidence t)) <= 60)%Z)).
Proof.
  unfold score, bollinger_analysis, macd_analysis, stochastic_analysis,
    ema_crossover, rsi_analysis.
  repeat match goal with
         | |- context [if ?c then _ else _] => destruct c
         end;
    vm_compute;
    (split; [repeat split; discriminate|]);
    first [ left; repeat split; first [reflexivity | discriminate]
          | right; left; repeat split; first [reflexivity | discriminate]
          | right; right; repeat split; first [reflexivity | discriminate] ].
Qed.

Lemma signal_document_lookup (signal : string) (confidence : Z)
    (reason : string) (v : latest_values) :
  signal_document signal confidence reason v !! "signal" = Some (PStr signal) /\
  signal_document signal confidence reason v !! "confidence"
  = Some (PInt confidence) /\
  item (default PNone (signal_document signal confidence reason v
                       !! "indicators")) "rsi"
  = Some (PFloat (py_round (latest_rsi v) 2)).
Proof. repeat split; reflexivity. Qed.

(** X28: the scoring of [generate_signal] hands out a total weight of 10,
    of which between 5 and 10 go to the buy or the sell side; the two
    confidences never both exceed 60, so the order of the BUY and SELL
    tests decides nothing. *)
Theorem dev_score_bounds (v : latest_values) :
  let t := score v in
  total_signals t == 10 /\
  0 <= buy_signals t /\ 0 <= sell_signals t /\
  5 <= buy_signals t + sell_signals t <= 10 /\
  ~ (Qgtb (buy_confidence t) 60 = true /\ Qgtb (sell_confidence t) 60 = true).
Proof.
  destruct (score_cases v) as [(Ht & Hb & Hs & Hlo & Hhi) Hcases].
  cbv zeta. repeat (split; [assumption|]). split; [by split|].
  intros [Hbuy Hsell].
  destruct Hcases as [(_ & _ & E)|[(E & _)|(E & _)]]; congruence.
Qed.

(** X29: on 50 or more candles [generate_signal] reports BUY or SELL with a
    confidence from 65 to 100, or HOLD with a confidence from 25 to 60,
    whatever the indicator series hold. *)
Theorem dev_signal_confidence (data : DataFrame)
    (indicators : indicator_series) :
  (50 <= length (rows data))%nat ->
  exists (document : gmap string pyval) (signal : string) (confidence : Z),
    generate_signal data indicators = Some document /\
    document !! "signal" = Some (PStr signal) /\
    document !! "confidence" = Some (PInt confidence) /\
    ((signal = "BUY"%string /\ 65 <= confidence <= 100)%Z \/
     (signal = "SELL"%string /\ 65 <= confidence <= 100)%Z \/
     (signal = "HOLD"%string /\ 25 <= confidence <= 60)%Z).
Proof.
  intros Hlen. unfold generate_signal.
  destruct (Nat.ltb_spec (length (rows data)) 50) as [|_]; [lia|].
  cbv zeta.
  destruct (score_cases (latest_of data indicators)) as [_ Hcases].
  cbv zeta in Hcases.
  destruct Hcases as [(Hb & Hc & _)|[(Hb & Hs & Hc)|(Hb & Hs & Hc)]].
  - rewrite Hb.
    match goal with
    | |- context [signal_document ?s ?c ?r ?v] =>
      destruct (signal_document_lookup s c r v) as (L1 & L2 & _)
    end.
    eexists _, _, _. split; [reflexivity|]. split; [exact L1|].
    split; [exact L2|]. left. by split.
  - rewrite Hb, Hs.
    match goal with
    | |- context [signal_document ?s ?c ?r ?v] =>
      destruct (signal_document_lookup s c r v) as (L1 & L2 & _)
    end.
    eexists _, _, _. split; [reflexivity|]. split; [exact L1|].
    split; [exact L2|]. right. left. by split.
  - rewrite Hb, Hs.
    match goal with
    | |- context [signal_document ?s ?c ?r ?v] =>
      destruct (signal_document_lookup s c r v) as (L1 & L2 & _)
    end.
    eexists _, _, _. split; [reflexivity|]. split; [exact L1|].
    split; [exact L2|]. right. right. by split.
Qed.

End DevProperties.

Section DevSamples.
Local Open Scope Q_scope.

(** An oversold market on the rising sample: RSI 25, stochastic 10 and a
    positive MACD give 9 of 10 to the buy side. *)
Lemma dev_signal_confidence_witness :
  exists (document : gmap string pyval) (signal : string) (confidence : Z),
    generate_signal rising_frame
      (constant_series 50 (Some 25) (Some 10) (Some 1)) = Some document /\
    document !! "signal" = Some (PStr signal) /\
    document !! "confidence" = Some (PInt confidence) /\
    ((signal = "BUY"%string /\ 65 <= confidence <= 100)%Z \/
     (signal = "SELL"%string /\ 65 <= confidence <= 100)%Z \/
     (signal = "HOLD"%string /\ 25 <= confidence <= 60)%Z).
Proof.
  apply (dev_signal_confidence rising_frame
           (constant_series 50 (Some 25) (Some 10) (Some 1))).
  vm_compute. lia.
Defined.

End DevSamples.
